(** * The client-side API cache of exponent (src/lib/api.ts) and the polling
      loops of its pages, embedded in Rocq.

    The cache is the [Map<string, CacheEntry<any>>] held by the [ApiClient]
    singleton.  It is modelled as a finite map from strings to entries; the
    payload type [T] (the source's [any]) stays a parameter.  [Date.now()] is
    an input of every function that reads the clock, in milliseconds.

    The operations of the client are effects on the [ApiClient] instance
    that may throw; the outcome of the one [fetch] of a call is an input.
    A parsed JSON body is a value of a type [V] of which the client observes
    what the class [Payload] lists: whether it is [null], whether it is
    truthy, and the properties the code reads.

    The pages (training monitor, results, data processing, training setup)
    are state machines on their React state, their pending timers and the
    client; a timer callback carries the render whose constants it closed
    over. *)

From Stdlib Require Import ZArith QArith Qminmax Lia.
From stdpp Require Import gmap strings list fin_maps pretty.

Local Open Scope Z_scope.

(* ===================================================================== *)
(** * Part I: definitions                                                 *)
(* ===================================================================== *)

(** ** JavaScript strings *)

Module JsString.

(** [startsWith s pattern]: [pattern] is an initial segment of [s]. *)
Fixpoint startsWith (s pattern : string) {struct pattern} : bool :=
  match pattern, s with
  | EmptyString, _ => true
  | String _ _, EmptyString => false
  | String a pattern', String b s' =>
      if Ascii.eqb a b then startsWith s' pattern' else false
  end.

(** [String.prototype.includes]: [pattern] occurs in [s] at some offset. *)
Fixpoint includes (s pattern : string) : bool :=
  if startsWith s pattern then true
  else match s with
       | EmptyString => false
       | String _ s' => includes s' pattern
       end.

(** What "[pattern] is a substring of [s]" means. *)
Definition substring_of (pattern s : string) : Prop :=
  ∃ before after, s = before +:+ pattern +:+ after.

(** [Array.prototype.join] on strings. *)
Fixpoint join (sep : string) (parts : list string) : string :=
  match parts with
  | [] => ""
  | [p] => p
  | p :: rest => p +:+ sep +:+ join sep rest
  end.

(** JavaScript truthiness of a string: every string but the empty one. *)
Definition truthy (s : string) : bool :=
  match s with EmptyString => false | String _ _ => true end.

End JsString.

(** ** Cache entries and the store *)

(** [interface CacheEntry<T> { data: T; timestamp: number; ttl: number }] *)
Record CacheEntry (T : Type) : Type := mkEntry {
  data : T;
  timestamp : Z;
  ttl : Z  (* time to live in milliseconds *)
}.
Arguments mkEntry {T} _ _ _.
Arguments data {T} _.
Arguments timestamp {T} _.
Arguments ttl {T} _.

(** [private cache: Map<string, CacheEntry<any>>] *)
Abbreviation Cache T := (gmap string (CacheEntry T)).

(** A JavaScript number, as far as the client uses one: all it does with a
    number argument is to convert it to a string, with [join] for the cache
    key and with a template literal for the URL.  An integer of magnitude
    below 2^53 converts to its decimal digits.  Every other number (a
    fraction, an integer from 2^53 on, which prints rounded and from 1e21 on
    in exponent form, [NaN], [Infinity]) is given by the string it converts
    to. *)
Inductive JsNumber : Type :=
  | Integer (z : Z) (safe : Is_true (Z.abs z <? 2 ^ 53))
  | OtherNumber (rendering : string).

(** [String(n)] *)
Definition number_to_string (n : JsNumber) : string :=
  match n with
  | Integer z _ => pretty z
  | OtherNumber rendering => rendering
  end.

(** Values passed as [...params: any[]] to [getCacheKey]: the call sites pass
    strings (project and training ids) and numbers (limit, offset). *)
Inductive JsArg : Type :=
  | AStr (s : string)
  | ANum (n : JsNumber).

(** The string conversion [join] applies to each element. *)
Definition arg_to_string (a : JsArg) : string :=
  match a with
  | AStr s => s
  | ANum n => number_to_string n
  end.

Definition DEFAULT_TTL : Z := 5 * 60 * 1000.
Definition PROJECT_LIST_TTL : Z := 2 * 60 * 1000.
Definition TRAINING_SUMMARY_TTL : Z := 30 * 60 * 1000.

(** [return `${method}:${params.join(':')}`] *)
Definition getCacheKey (method : string) (params : list JsArg) : string :=
  method +:+ ":" +:+ JsString.join ":" (arg_to_string <$> params).

(** [return Date.now() - entry.timestamp < entry.ttl] *)
Definition isValidCache {T} (now : Z) (entry : CacheEntry T) : bool :=
  bool_decide (now - timestamp entry < ttl entry).

(** [getFromCache]: the value of a valid entry; an entry that is present but
    no longer valid is deleted and [null] is returned. *)
Definition getFromCache {T} (now : Z) (key : string) (cache : Cache T)
  : option T * Cache T :=
  match cache !! key with
  | Some entry =>
      if isValidCache now entry then (Some (data entry), cache)
      else (None, delete key cache)
  | None => (None, cache)
  end.

(** [setCache]: [this.cache.set(key, { data, timestamp: Date.now(), ttl })] *)
Definition setCache {T} (now : Z) (key : string) (d : T) (ttl : Z)
    (cache : Cache T) : Cache T :=
  <[key := mkEntry d now ttl]> cache.

(** [this.cache.keys()]: the keys present when the iteration starts.  A key
    deleted by the loop body is the one just visited, so every key of the
    initial map is visited exactly once. *)
Definition keys {T} (cache : Cache T) : list string :=
  (map_to_list cache).*1.

(** One iteration of the loop of [invalidateCache]. *)
Definition invalidate_step {T} (pattern : string) (cache : Cache T)
    (key : string) : Cache T :=
  if JsString.includes key pattern then delete key cache else cache.

(** [for (const key of this.cache.keys()) if (key.includes(pattern))
    this.cache.delete(key)] *)
Definition invalidateCache {T} (pattern : string) (cache : Cache T)
  : Cache T :=
  foldl (invalidate_step pattern) cache (keys cache).

(** [clearCache]: [this.cache.clear()] *)
Definition clearCache {T} (cache : Cache T) : Cache T := ∅.

(** [invalidateProjectCache(projectId?: string)]: the guard [if (projectId)]
    is JavaScript truthiness, so a missing argument and the empty string both
    take the [else] branch. *)
Definition invalidateProjectCache {T} (projectId : option string)
    (cache : Cache T) : Cache T :=
  match projectId with
  | Some p =>
      if JsString.truthy p then invalidateCache p cache
      else invalidateCache "getProjectStatus"
             (invalidateCache "listProjects" cache)
  | None =>
      invalidateCache "getProjectStatus" (invalidateCache "listProjects" cache)
  end.

(** The keys a call of [invalidateProjectCache] selects. *)
Definition selected_by_project (projectId : option string) (key : string)
  : bool :=
  match projectId with
  | Some p =>
      if JsString.truthy p then JsString.includes key p
      else JsString.includes key "listProjects"
           || JsString.includes key "getProjectStatus"
  | None =>
      JsString.includes key "listProjects"
      || JsString.includes key "getProjectStatus"
  end.

(** [after] is [before] without the entries whose key contains [pattern],
    and with every other entry as it was. *)
Definition removes_exactly_keys_with {T} (pattern : string)
    (before after : Cache T) : Prop :=
  ∀ k, (JsString.substring_of pattern k → after !! k = None)
       ∧ (¬ JsString.substring_of pattern k → after !! k = before !! k).

(** [isCached]: a read of the map and of the clock; the store is handed back
    as it was received. *)
Definition isCached {T} (now : Z) (method : string) (params : list JsArg)
    (cache : Cache T) : bool * Cache T :=
  let cacheKey := getCacheKey method params in
  match cache !! cacheKey with
  | Some entry => (isValidCache now entry, cache)
  | None => (false, cache)
  end.

(** The numeric fields of the object returned by [getCacheStats].  The
    [hitRate] field is a [toFixed] rendering of a floating-point quotient and
    is left out. *)
Record CacheStats : Type := mkStats {
  total : nat;
  valid : nat;
  expired : nat
}.

(** The loop of [getCacheStats] over [this.cache.values()]. *)
Definition count_entry {T} (now : Z) (acc : nat * nat) (entry : CacheEntry T)
  : nat * nat :=
  if isValidCache now entry then (S acc.1, acc.2) else (acc.1, S acc.2).

(** [this.cache.values()] *)
Definition entries {T} (cache : Cache T) : list (CacheEntry T) :=
  (map_to_list cache).*2.

Definition getCacheStats {T} (now : Z) (cache : Cache T)
  : CacheStats * Cache T :=
  let '(v, e) := foldl (count_entry now) (0%nat, 0%nat) (entries cache) in
  (mkStats (v + e) v e, cache).

(** The operations on the store, as data, to speak of what was done to a
    cache before a lookup. *)
Inductive CacheOp (T : Type) : Type :=
  | OpGet (now : Z) (key : string)
  | OpSet (now : Z) (key : string) (d : T) (ttl : Z)
  | OpInvalidate (pattern : string)
  | OpInvalidateProject (projectId : option string)
  | OpClear
  | OpIsCached (now : Z) (method : string) (params : list JsArg)
  | OpStats (now : Z).
Arguments OpGet {T} _ _.
Arguments OpSet {T} _ _ _ _.
Arguments OpInvalidate {T} _.
Arguments OpInvalidateProject {T} _.
Arguments OpClear {T}.
Arguments OpIsCached {T} _ _ _.
Arguments OpStats {T} _.

Definition run_op {T} (op : CacheOp T) (cache : Cache T) : Cache T :=
  match op with
  | OpGet now key => (getFromCache now key cache).2
  | OpSet now key d ttl => setCache now key d ttl cache
  | OpInvalidate pattern => invalidateCache pattern cache
  | OpInvalidateProject projectId => invalidateProjectCache projectId cache
  | OpClear => clearCache cache
  | OpIsCached now method params => (isCached now method params cache).2
  | OpStats now => (getCacheStats now cache).2
  end.

(** The store of a fresh client after a list of operations, oldest first. *)
Definition run_ops {T} (ops : list (CacheOp T)) : Cache T :=
  foldl (λ cache op, run_op op cache) ∅ ops.

(** The specification speaks of a lookup after "a prior [set(k, v, ttl)]".
    The next two definitions say what that is in terms of the history of
    calls alone, without the store.

    [keeps k e op]: the call [op] does not replace or remove an entry [e]
    that was set under [k].  A lookup of [k] keeps it while it has not
    expired; a [setCache] of another key keeps it; an invalidation keeps it
    when its pattern (the project id, or without one the two coarse patterns)
    is not a substring of [k]; a clear never does; [isCached] and
    [getCacheStats] always do. *)
Definition keeps {T} (k : string) (e : CacheEntry T) (op : CacheOp T)
  : Prop :=
  match op with
  | OpGet now key => key = k → now - timestamp e < ttl e
  | OpSet _ key _ _ => key ≠ k
  | OpInvalidate pattern => ¬ JsString.substring_of pattern k
  | OpInvalidateProject projectId =>
      match projectId with
      | Some p =>
          if decide (p = "")
          then ¬ JsString.substring_of "listProjects" k
               ∧ ¬ JsString.substring_of "getProjectStatus" k
          else ¬ JsString.substring_of p k
      | None =>
          ¬ JsString.substring_of "listProjects" k
          ∧ ¬ JsString.substring_of "getProjectStatus" k
      end
  | OpClear => False
  | OpIsCached _ _ _ => True
  | OpStats _ => True
  end.

(** [set_in_effect k e ops]: the history [ops] holds a call
    [setCache(k, data e, ttl e)] made at clock reading [timestamp e], and
    every later call of the history keeps its entry. *)
Definition set_in_effect {T} (k : string) (e : CacheEntry T)
    (ops : list (CacheOp T)) : Prop :=
  ∃ before after,
    ops = before ++ OpSet (timestamp e) k (data e) (ttl e) :: after
    ∧ Forall (keeps k e) after.

(** ** The API client: effects *)

(** How an awaited promise or a block of statements ends: with a value, or
    with a thrown [Error], of which the message is kept. *)
Inductive Outcome (A : Type) : Type :=
  | Returned (a : A)
  | Thrown (message : string).
Arguments Returned {A} _.
Arguments Thrown {A} _.

(** What the code reads of a [Response].  [status] is the status code, an
    integer of at most three digits; [json] is the outcome of
    [await response.json()], which rejects when the body is not JSON;
    [blob] is the outcome of [await response.blob()]. *)
Record Response (V : Type) : Type := mkResponse {
  ok : bool;
  status : N;
  statusText : string;
  json : Outcome V;
  blob : Outcome string
}.
Arguments mkResponse {V} _ _ _ _ _.
Arguments ok {V} _.
Arguments status {V} _.
Arguments statusText {V} _.
Arguments json {V} _.
Arguments blob {V} _.

(** What the client observes of a parsed JSON value.  The declared
    interfaces ([ProjectResponse], [TrainingSummary], [ApiError], ...) are
    not checked at run time: a body may parse to [null], to another falsy
    value, or to an object whose [detail] is not a string.

    - [is_null]: the value is [null], so that reading a property of it
      throws a [TypeError];
    - [is_truthy]: the value passes [if (value)];
    - [detail]: [errorData.detail] as the operand of [||] and then of
      [new Error(...)]: [Some message] when the property is truthy, [message]
      being the string [new Error] converts it to (the property itself when it
      is a string, ["[object Object]"] for an object or an array of objects),
      and [None] when it is missing or falsy;
    - [ai_summary_status], [job_status]: the property when it is a string;
      the code only compares them to string literals with [===].

    Four facts of JavaScript relate them: [null] is falsy; [null] has no
    properties (the readers give [None] on it, which is also what optional
    chaining, [value?.status], evaluates to); and a value with a string
    property of either name is an object, hence truthy. *)
Class Payload (V : Type) : Type := {
  is_null : V → bool;
  is_truthy : V → bool;
  detail : V → option string;             (* [errorData.detail] *)
  ai_summary_status : V → option string;  (* [result.ai_summary_status] *)
  job_status : V → option string;         (* [response.status] of a job *)
  null_is_falsy : ∀ v, is_null v = true → is_truthy v = false;
  null_has_no_properties :
    ∀ v, is_null v = true →
         detail v = None ∧ ai_summary_status v = None ∧ job_status v = None;
  summary_is_object :
    ∀ v s, ai_summary_status v = Some s → is_truthy v = true;
  job_is_object : ∀ v s, job_status v = Some s → is_truthy v = true
}.

(** The [ApiClient] instance: its base URL, its cache, and the URLs handed to
    [fetch] so far, oldest first. *)
Record ApiClient (V : Type) : Type := mkClient {
  baseUrl : string;
  cache : Cache V;
  requests : list string
}.
Arguments mkClient {V} _ _ _.
Arguments baseUrl {V} _.
Arguments cache {V} _.
Arguments requests {V} _.

(** Code with side effects on a state [S] that may throw. *)
Definition Eff (S A : Type) : Type := S → Outcome A * S.

#[global] Instance Eff_ret {S} : MRet (Eff S) :=
  λ A a s, (Returned a, s).

#[global] Instance Eff_bind {S} : MBind (Eff S) :=
  λ A B k m s,
    match m s with
    | (Returned a, s') => k a s'
    | (Thrown e, s') => (Thrown e, s')
    end.

(** [throw new Error(message)] *)
Definition throw {S A} (message : string) : Eff S A :=
  λ s, (Thrown message, s).

(** [await p] for a promise that settles with outcome [p]. *)
Definition await {S A} (p : Outcome A) : Eff S A :=
  λ s, (p, s).

(** [try { body } catch (error) { handler }] *)
Definition try_catch {S A} (body : Eff S A) (handler : string → Eff S A)
  : Eff S A :=
  λ s,
    match body s with
    | (Returned a, s') => (Returned a, s')
    | (Thrown e, s') => handler e s'
    end.

(** [try { body } finally { final }] *)
Definition try_finally {S A} (body : Eff S A) (final : Eff S unit)
  : Eff S A :=
  λ s,
    match body s with
    | (outcome, s') =>
        match final s' with
        | (Returned _, s'') => (outcome, s'')
        | (Thrown e, s'') => (Thrown e, s'')
        end
    end.

(** Reading and writing the state. *)
Definition gets {S A} (f : S → A) : Eff S A := λ s, (Returned (f s), s).
Definition modify {S} (f : S → S) : Eff S unit := λ s, (Returned tt, f s).

(** Methods of the client: effects on the [ApiClient] instance. *)
Abbreviation Js V := (Eff (ApiClient V)).

(** The handler of every operation: [console.error(...); throw error]. *)
Definition log_and_rethrow {S A} (error : string) : Eff S A := throw error.

(** [this.baseUrl] *)
Definition get_baseUrl {V} : Js V string := gets baseUrl.

(** A method of the cache run on [this.cache]. *)
Definition on_cache {V A} (f : Cache V → A * Cache V) : Js V A :=
  λ this,
    let '(a, c) := f (cache this) in
    (Returned a, mkClient (baseUrl this) c (requests this)).

Definition update_cache {V} (f : Cache V → Cache V) : Js V unit :=
  on_cache (λ c, (tt, f c)).

(** [await fetch(url)]: the request is issued (recorded in [requests]) and
    settles with [net], a network failure being a thrown error. *)
Definition fetch {V} (url : string) (net : Outcome (Response V))
  : Js V (Response V) :=
  λ this,
    (net, mkClient (baseUrl this) (cache this) (requests this ++ [url])).

(** [a || b] on a possibly undefined string. *)
Definition or_else (a : option string) (b : string) : string :=
  match a with
  | Some s => if JsString.truthy s then s else b
  | None => b
  end.

(** The message of the [TypeError] that reading property [name] of [null]
    throws, in the wording of V8 (Chrome, Node.js). *)
Definition null_property_error (name : string) : string :=
  "Cannot read properties of null (reading '" +:+ name +:+ "')".

(** [value.name], for a property [read] of the payload. *)
Definition property {S V A} `{Payload V} (name : string) (read : V → A)
    (value : V) : Eff S A :=
  if is_null value then throw (null_property_error name)
  else mret (read value).

(** [`HTTP error! status: ${response.status}`] *)
Definition http_error_message {V} (response : Response V) : string :=
  "HTTP error! status: " +:+ pretty (status response).

(** The block every JSON operation repeats after [fetch]:
[[
  if (!response.ok) {
    const errorData: ApiError = await response.json();
    throw new Error(errorData.detail || `HTTP error! status: ${response.status}`);
  }
  const result = await response.json();
]] *)
Definition read_json {V} `{Payload V} (response : Response V) : Js V V :=
  if negb (ok response) then
    errorData ← await (json response);
    message ← property "detail" detail errorData;
    throw (default (http_error_message response) message)
  else
    await (json response).

(** The block the two download operations use instead:
[[
  if (!response.ok) {
    let errorMessage = `HTTP error! status: ${response.status}`;
    try {
      const errorData: ApiError = await response.json();
      errorMessage = errorData.detail || errorMessage;
    } catch {
      errorMessage = response.statusText || errorMessage;
    }
    throw new Error(errorMessage);
  }
  return await response.blob();
]] *)
Definition read_blob {V} `{Payload V} (response : Response V)
  : Js V string :=
  if negb (ok response) then
    let errorMessage := http_error_message response in
    errorMessage ←
      try_catch
        (errorData ← await (json response);
         message ← property "detail" detail errorData;
         mret (default errorMessage message))
        (λ _, mret (or_else (Some (statusText response)) errorMessage));
    throw errorMessage
  else
    await (blob response).

(** [if (cached) return cached]: what a cached read returns at once, the
    value of the lookup when there is one and it is truthy.  A stored value
    that is falsy ([null], [0], [false], the empty string) is not served. *)
Definition if_truthy {V} `{Payload V} (cached : option V) : option V :=
  match cached with
  | Some v => if is_truthy v then Some v else None
  | None => None
  end.

(** ** The API client: operations *)

(** Every operation takes [net], the way its one [fetch] settles if it is
    issued.  An operation that reads the clock twice, before and after the
    awaited request, takes both readings. *)

Section Operations.
Context {V : Type} `{Payload V}.

Definition createProject (net : Outcome (Response V)) : Js V V :=
  try_catch
    (base ← get_baseUrl;
     response ← fetch (base +:+ "/projects/") net;
     result ← read_json response;
     (* Invalidate project list cache since we added a new project *)
     _ ← update_cache (invalidateProjectCache None);
     mret result)
    log_and_rethrow.

Definition getProjectStatus (t_lookup t_store : Z) (projectId : string)
    (net : Outcome (Response V)) : Js V V :=
  let cacheKey := getCacheKey "getProjectStatus" [AStr projectId] in
  cached ← on_cache (getFromCache t_lookup cacheKey);
  match if_truthy cached with
  | Some v => mret v
  | None =>
      try_catch
        (base ← get_baseUrl;
         response ← fetch (base +:+ "/projects/" +:+ projectId +:+ "/status") net;
         result ← read_json response;
         _ ← update_cache (setCache t_store cacheKey result (30 * 1000));
         mret result)
        log_and_rethrow
  end.

Definition uploadDataset (projectId : string) (net : Outcome (Response V))
  : Js V V :=
  try_catch
    (base ← get_baseUrl;
     response ←
       fetch (base +:+ "/projects/" +:+ projectId +:+ "/upload-dataset/") net;
     result ← read_json response;
     (* Invalidate project-related cache since dataset was uploaded *)
     _ ← update_cache (invalidateProjectCache (Some projectId));
     mret result)
    log_and_rethrow.

(** [trainingRequest.project_id] is the one field of the request the client
    reads. *)
Definition startTraining (project_id : string) (net : Outcome (Response V))
  : Js V V :=
  try_catch
    (base ← get_baseUrl;
     response ← fetch (base +:+ "/projects/" +:+ project_id +:+ "/train/") net;
     result ← read_json response;
     _ ← update_cache (invalidateProjectCache (Some project_id));
     mret result)
    log_and_rethrow.

Definition getTrainingStatus (projectId trainingId : string)
    (net : Outcome (Response V)) : Js V V :=
  try_catch
    (base ← get_baseUrl;
     response ←
       fetch (base +:+ "/projects/" +:+ projectId +:+ "/train/" +:+ trainingId
                +:+ "/status") net;
     read_json response)
    log_and_rethrow.

Definition getTrainingLogs (projectId trainingId : string)
    (lastN : JsNumber) (net : Outcome (Response V)) : Js V V :=
  try_catch
    (base ← get_baseUrl;
     response ←
       fetch (base +:+ "/projects/" +:+ projectId +:+ "/train/" +:+ trainingId
                +:+ "/logs?last_n=" +:+ number_to_string lastN) net;
     read_json response)
    log_and_rethrow.

Definition listProjects (t_lookup t_store : Z) (limit offset : JsNumber)
    (net : Outcome (Response V)) : Js V V :=
  let cacheKey := getCacheKey "listProjects" [ANum limit; ANum offset] in
  cached ← on_cache (getFromCache t_lookup cacheKey);
  match if_truthy cached with
  | Some v => mret v
  | None =>
      try_catch
        (base ← get_baseUrl;
         response ←
           fetch (base +:+ "/projects/?limit=" +:+ number_to_string limit
                    +:+ "&offset=" +:+ number_to_string offset) net;
         result ← read_json response;
         _ ← update_cache (setCache t_store cacheKey result PROJECT_LIST_TTL);
         mret result)
        log_and_rethrow
  end.

Definition getTrainingSummary (t_lookup t_store : Z)
    (projectId trainingId : string) (net : Outcome (Response V)) : Js V V :=
  let cacheKey :=
    getCacheKey "getTrainingSummary" [AStr projectId; AStr trainingId] in
  (* Check cache first - training summaries don't change once generated *)
  cached ← on_cache (getFromCache t_lookup cacheKey);
  (* [if (cached)]: the values this method stores are results with a string
     [ai_summary_status], which are objects and so truthy
     ([summary_is_object]) *)
  match cached with
  | Some v => mret v
  | None =>
      try_catch
        (base ← get_baseUrl;
         response ←
           fetch (base +:+ "/projects/" +:+ projectId +:+ "/train/"
                    +:+ trainingId +:+ "/summary") net;
         result ← read_json response;
         (* Only cache completed AI summaries, not generating ones *)
         status ← property "ai_summary_status" ai_summary_status result;
         _ ← (if bool_decide (status = Some "completed") then
                update_cache
                  (setCache t_store cacheKey result TRAINING_SUMMARY_TTL)
              else if bool_decide (status = Some "generating")
              then
                (* Cache for a short time to avoid hammering the server *)
                update_cache (setCache t_store cacheKey result (10 * 1000))
              else mret tt);
         mret result)
        log_and_rethrow
  end.

Definition downloadModelWeights (projectId trainingId : string)
    (net : Outcome (Response V)) : Js V string :=
  try_catch
    (base ← get_baseUrl;
     response ←
       fetch (base +:+ "/projects/" +:+ projectId +:+ "/train/" +:+ trainingId
                +:+ "/download-weights") net;
     read_blob response)
    log_and_rethrow.

Definition downloadProjectCode (projectId trainingId : string)
    (net : Outcome (Response V)) : Js V string :=
  try_catch
    (base ← get_baseUrl;
     response ←
       fetch (base +:+ "/projects/" +:+ projectId +:+ "/train/" +:+ trainingId
                +:+ "/download-code") net;
     read_blob response)
    log_and_rethrow.

Definition getDatasetAnalysis (t_lookup t_store : Z) (projectId : string)
    (net : Outcome (Response V)) : Js V V :=
  let cacheKey := getCacheKey "getDatasetAnalysis" [AStr projectId] in
  cached ← on_cache (getFromCache t_lookup cacheKey);
  match if_truthy cached with
  | Some v => mret v
  | None =>
      try_catch
        (base ← get_baseUrl;
         response ←
           fetch (base +:+ "/projects/" +:+ projectId +:+ "/dataset-analysis")
             net;
         result ← read_json response;
         _ ← update_cache (setCache t_store cacheKey result DEFAULT_TTL);
         mret result)
        log_and_rethrow
  end.

Definition getTrainingConfigOptions (t_lookup t_store : Z)
    (net : Outcome (Response V)) : Js V V :=
  let cacheKey := getCacheKey "getTrainingConfigOptions" [] in
  cached ← on_cache (getFromCache t_lookup cacheKey);
  match if_truthy cached with
  | Some v => mret v
  | None =>
      try_catch
        (base ← get_baseUrl;
         response ← fetch (base +:+ "/projects/training-config-options") net;
         result ← read_json response;
         _ ← update_cache (setCache t_store cacheKey result (30 * 60 * 1000));
         mret result)
        log_and_rethrow
  end.

Definition deleteProject (projectId : string) (net : Outcome (Response V))
  : Js V V :=
  try_catch
    (base ← get_baseUrl;
     response ← fetch (base +:+ "/projects/" +:+ projectId +:+ "/delete") net;
     result ← read_json response;
     (* Invalidate project cache after deletion *)
     _ ← update_cache (invalidateProjectCache (Some projectId));
     mret result)
    log_and_rethrow.

End Operations.

(** The cache key and the URL of [getTrainingSummary]. *)
Definition summary_key (projectId trainingId : string) : string :=
  getCacheKey "getTrainingSummary" [AStr projectId; AStr trainingId].

Definition summary_url {V} (this : ApiClient V) (projectId trainingId : string)
  : string :=
  baseUrl this +:+ "/projects/" +:+ projectId +:+ "/train/" +:+ trainingId
    +:+ "/summary".

(** What [getTrainingSummary] stores after a fetched result. *)
Definition summary_policy {V} `{Payload V} (t_store : Z) (key : string)
    (result : V) (c : Cache V) : Cache V :=
  if bool_decide (ai_summary_status result = Some "completed") then
    setCache t_store key result TRAINING_SUMMARY_TTL c
  else if bool_decide (ai_summary_status result = Some "generating") then
    setCache t_store key result (10 * 1000) c
  else c.

(** The shape the four cached reads share ([getProjectStatus],
    [listProjects], [getDatasetAnalysis], [getTrainingConfigOptions]): look
    the key up and, on a miss, fetch [path] under the base URL and store a
    successful result under the key with the operation's ttl.  Each of the
    four is this function at its key, path and ttl. *)
Definition cached_read {V} `{Payload V} (cacheKey path : string) (ttl0 : Z)
    (t_lookup t_store : Z) (net : Outcome (Response V)) : Js V V :=
  cached ← on_cache (getFromCache t_lookup cacheKey);
  match if_truthy cached with
  | Some v => mret v
  | None =>
      try_catch
        (base ← get_baseUrl;
         response ← fetch (base +:+ path) net;
         result ← read_json response;
         _ ← update_cache (setCache t_store cacheKey result ttl0);
         mret result)
        log_and_rethrow
  end.

(** What a caller sees of a read [run] that caches under [key] for [ttl0]
    milliseconds and fetches [path] under the base URL.

    A hit is a lookup that finds an entry under [key] that has not expired and
    whose value is truthy: the call returns that value, issues no request
    and leaves the client as it was.

    Every other call issues exactly one request, to [path].  When it returns
    [result], that result is now stored under [key], stamped [t_store] with
    ttl [ttl0]; if [result] is truthy every call less than [ttl0] after
    [t_store] returns it without a request, and if it is falsy every such call
    issues a request again.  When it throws, nothing was stored: what is
    under [key] afterwards was there before, unexpired and falsy, and an
    expired entry is gone.

    No other key changes, and the base URL stays. *)
Definition caches_for {V} `{Payload V} (key path : string) (ttl0 : Z)
    (run : Z → Z → Outcome (Response V) → Js V V) : Prop :=
  ∀ (t_lookup t_store : Z) (net : Outcome (Response V)) (this : ApiClient V),
    let r := run t_lookup t_store net this in
    let hit e :=
      cache this !! key = Some e ∧ t_lookup - timestamp e < ttl e
      ∧ is_truthy (data e) = true in
    (∀ k, k ≠ key → cache r.2 !! k = cache this !! k)
    ∧ baseUrl r.2 = baseUrl this
    ∧ (∀ e, hit e → r = (Returned (data e), this))
    ∧ ((∀ e, ¬ hit e) →
       requests r.2 = requests this ++ [baseUrl this +:+ path]
       ∧ match r.1 with
         | Returned result =>
             cache r.2 !! key = Some (mkEntry result t_store ttl0)
             ∧ ∀ t t' net',
                 t - t_store < ttl0 →
                 if is_truthy result
                 then run t t' net' r.2 = (Returned result, r.2)
                 else requests (run t t' net' r.2).2
                      = requests r.2 ++ [baseUrl this +:+ path]
         | Thrown _ =>
             (∀ e, cache r.2 !! key = Some e →
                   cache this !! key = Some e
                   ∧ t_lookup - timestamp e < ttl e
                   ∧ is_truthy (data e) = false)
             ∧ (∀ e, cache this !! key = Some e →
                     ttl e ≤ t_lookup - timestamp e →
                     cache r.2 !! key = None)
         end).

(** A concrete payload type for running the operations: an object with the
    fields the client reads, each a string when present, and the rest of the
    object as text. *)
Record Json : Type := mkJson {
  j_detail : option string;
  j_ai_summary_status : option string;
  j_status : option string;
  j_rest : string
}.

#[global] Instance Json_eq_dec : EqDecision Json.
Proof. solve_decision. Defined.

#[global] Instance Json_payload : Payload Json.
Proof.
  refine {| is_null := λ _, false;
            is_truthy := λ _, true;
            detail := λ j, match j_detail j with
                           | Some s =>
                               if JsString.truthy s then Some s else None
                           | None => None
                           end;
            ai_summary_status := j_ai_summary_status;
            job_status := j_status |}; done.
Defined.

(** A body that may also be the JSON value [null]: [None]. *)
#[global] Instance nullable_payload : Payload (option Json).
Proof.
  refine {| is_null := λ v, bool_decide (v = None);
            is_truthy := λ v, bool_decide (v ≠ None);
            detail := λ v, j ← v; detail j;
            ai_summary_status := λ v, j ← v; ai_summary_status j;
            job_status := λ v, j ← v; job_status j |};
    by intros [j|].
Defined.

(** Parsed JSON in full, for bodies that are not such objects.  A number is
    a [JsNumber]. *)
#[local] Set Warnings "-register-all".
Inductive JsonValue : Type :=
  | JNull
  | JBool (b : bool)
  | JNumber (n : JsNumber)
  | JString (s : string)
  | JArray (items : list JsonValue)
  | JObject (members : list (string * JsonValue)).
#[local] Set Warnings "+register-all".

(** Truthiness: [null], [false], [0], [NaN] and the empty string are falsy;
    every array and every object is truthy. *)
Definition number_truthy (n : JsNumber) : bool :=
  match n with
  | Integer z _ => negb (z =? 0)
  | OtherNumber rendering => negb (String.eqb rendering "NaN")
  end.

Definition js_truthy (v : JsonValue) : bool :=
  match v with
  | JNull => false
  | JBool b => b
  | JNumber n => number_truthy n
  | JString s => JsString.truthy s
  | JArray _ => true
  | JObject _ => true
  end.

(** [String(v)], the conversion [new Error(v)] applies to its argument: an
    array joins the conversions of its items with commas, [null] items
    giving the empty string, and an object gives ["[object Object]"]. *)
Fixpoint to_string (v : JsonValue) : string :=
  match v with
  | JNull => "null"
  | JBool b => if b then "true" else "false"
  | JNumber n => number_to_string n
  | JString s => s
  | JArray items =>
      JsString.join ","
        (map (λ item, match item with JNull => "" | _ => to_string item end)
           items)
  | JObject _ => "[object Object]"
  end.

(** The member called [name]; of two members with the same name
    [JSON.parse] keeps the later one. *)
Fixpoint member (name : string) (members : list (string * JsonValue))
  : option JsonValue :=
  match members with
  | [] => None
  | (key, value) :: rest =>
      match member name rest with
      | Some later => Some later
      | None => if String.eqb key name then Some value else None
      end
  end.

(** [v.name] for a value that is not [null] and a name that no prototype
    defines: [undefined] on everything but an object. *)
Definition get (name : string) (v : JsonValue) : option JsonValue :=
  match v with
  | JObject members => member name members
  | _ => None
  end.

Definition string_property (name : string) (v : JsonValue) : option string :=
  match get name v with
  | Some (JString s) => Some s
  | _ => None
  end.

#[global] Instance JsonValue_payload : Payload JsonValue.
Proof.
  refine {| is_null := λ v, match v with JNull => true | _ => false end;
            is_truthy := js_truthy;
            detail := λ v, match get "detail" v with
                           | Some d =>
                               if js_truthy d then Some (to_string d)
                               else None
                           | None => None
                           end;
            ai_summary_status := string_property "ai_summary_status";
            job_status := string_property "status" |};
    by intros [].
Defined.

(** ** The training monitor page
       (src/app/training/[projectId]/[trainingId]/page.tsx) *)

(** The page polls from closures created inside a [useEffect] callback.  A
    closure reads [trainingData], [isAutoScroll] and [isMounted] as the
    constants of the render it was created in, and the three [let] variables
    of the effect run it belongs to.  Each run of the effect is recorded
    with both; a pending timer names the run whose closure it will call. *)

Module Monitor.

(** The render an effect run closes over (also its dependency array). *)
Record Closure : Type := mkClosure {
  c_projectId : string;
  c_trainingId : string;
  c_status : option string;   (* [trainingData?.status] *)
  c_isAutoScroll : bool;
  c_isMounted : bool
}.

#[global] Instance Closure_eq_dec : EqDecision Closure.
Proof. solve_decision. Defined.

(** [let logPollInterval = 3000; let statusPollInterval = 8000;
     let failureCount = 0;]  Intervals are rationals: the code multiplies
    them by 1.5 and 1.2. *)
Record Locals : Type := mkLocals {
  logPollInterval : Q;
  statusPollInterval : Q;
  failureCount : nat
}.

Definition initial_locals : Locals := mkLocals 3000 8000 0.

(** The callbacks the page hands to [setTimeout]. *)
Inductive Task : Type :=
  | LogTick       (* the callback of [scheduleLogFetch] *)
  | StatusTick    (* the callback of [scheduleStatusFetch] *)
  | ScrollTick.   (* the auto-scroll of [fetchTrainingLogs] *)

#[global] Instance Task_eq_dec : EqDecision Task.
Proof. solve_decision. Defined.

Record Timer : Type := mkTimer {
  delay : Q;      (* milliseconds *)
  task : Task;
  run : nat       (* the effect run whose closure is called *)
}.

(** The component: its React state, the effect runs so far, the pending
    timers, and the API client singleton. *)
Record Page (V : Type) : Type := mkPage {
  projectId : string;
  trainingId : string;
  trainingData : option V;
  logs : option V;
  isLoading : bool;
  error : string;
  isAutoScroll : bool;
  isMounted : bool;
  attached : bool;                       (* the component is in the tree *)
  runs : list (Closure * Locals);
  timers : list Timer;
  api : ApiClient V
}.
Arguments mkPage {V} _ _ _ _ _ _ _ _ _ _ _ _.
Arguments projectId {V} _.
Arguments trainingId {V} _.
Arguments trainingData {V} _.
Arguments logs {V} _.
Arguments isLoading {V} _.
Arguments error {V} _.
Arguments isAutoScroll {V} _.
Arguments isMounted {V} _.
Arguments attached {V} _.
Arguments runs {V} _.
Arguments timers {V} _.
Arguments api {V} _.

Section Page.
Context {V : Type} `{Payload V}.

Abbreviation M := (Eff (Page V)).

(** State setters. *)
Definition setTrainingData (v : V) : M unit :=
  modify (λ p, mkPage (projectId p) (trainingId p) (Some v) (logs p)
                 (isLoading p) (error p) (isAutoScroll p) (isMounted p)
                 (attached p) (runs p) (timers p) (api p)).

Definition setLogs (v : V) : M unit :=
  modify (λ p, mkPage (projectId p) (trainingId p) (trainingData p) (Some v)
                 (isLoading p) (error p) (isAutoScroll p) (isMounted p)
                 (attached p) (runs p) (timers p) (api p)).

Definition setIsLoading (b : bool) : M unit :=
  modify (λ p, mkPage (projectId p) (trainingId p) (trainingData p) (logs p)
                 b (error p) (isAutoScroll p) (isMounted p)
                 (attached p) (runs p) (timers p) (api p)).

Definition setError (e : string) : M unit :=
  modify (λ p, mkPage (projectId p) (trainingId p) (trainingData p) (logs p)
                 (isLoading p) e (isAutoScroll p) (isMounted p)
                 (attached p) (runs p) (timers p) (api p)).

Definition setIsMounted (b : bool) : M unit :=
  modify (λ p, mkPage (projectId p) (trainingId p) (trainingData p) (logs p)
                 (isLoading p) (error p) (isAutoScroll p) b
                 (attached p) (runs p) (timers p) (api p)).

Definition set_runs (rs : list (Closure * Locals)) : M unit :=
  modify (λ p, mkPage (projectId p) (trainingId p) (trainingData p) (logs p)
                 (isLoading p) (error p) (isAutoScroll p) (isMounted p)
                 (attached p) rs (timers p) (api p)).

Definition set_timers (ts : list Timer) : M unit :=
  modify (λ p, mkPage (projectId p) (trainingId p) (trainingData p) (logs p)
                 (isLoading p) (error p) (isAutoScroll p) (isMounted p)
                 (attached p) (runs p) ts (api p)).

Definition detach : M unit :=
  modify (λ p, mkPage (projectId p) (trainingId p) (trainingData p) (logs p)
                 (isLoading p) (error p) (isAutoScroll p) (isMounted p)
                 false (runs p) (timers p) (api p)).

(** A call of a method of [apiClient]. *)
Definition call_api {A} (m : Js V A) : M A :=
  λ p,
    let '(out, client) := m (api p) in
    (out, mkPage (projectId p) (trainingId p) (trainingData p) (logs p)
            (isLoading p) (error p) (isAutoScroll p) (isMounted p)
            (attached p) (runs p) (timers p) client).

(** [setTimeout(callback, delay)] *)
Definition setTimeout (t : Task) (r : nat) (d : Q) : M unit :=
  ts ← gets timers;
  set_timers (ts ++ [mkTimer d t r]).

(** The constants and variables a closure of run [r] sees. *)
Definition closure_of (r : nat) : M Closure :=
  rs ← gets runs;
  match rs !! r with
  | Some (c, _) => mret c
  | None => throw "no such effect run"
  end.

Definition locals_of (r : nat) : M Locals :=
  rs ← gets runs;
  match rs !! r with
  | Some (_, l) => mret l
  | None => throw "no such effect run"
  end.

Definition set_locals (r : nat) (l : Locals) : M unit :=
  rs ← gets runs;
  match rs !! r with
  | Some (c, _) => set_runs (<[r := (c, l)]> rs)
  | None => throw "no such effect run"
  end.

(** [trainingData?.status === 'running' || trainingData?.status === 'queued'] *)
Definition active (c : Closure) : bool :=
  bool_decide (c_status c = Some "running")
  || bool_decide (c_status c = Some "queued").

(** [fetchTrainingStatus] *)
Definition fetchTrainingStatus (r : nat) (net : Outcome (Response V))
  : M unit :=
  c ← closure_of r;
  try_finally
    (try_catch
       (response ←
          call_api (getTrainingStatus (c_projectId c) (c_trainingId c) net);
        setTrainingData response)
       (λ errorMessage, setError errorMessage))
    (setIsLoading false).

(** [fetchTrainingLogs] *)
Definition fetchTrainingLogs (r : nat) (net : Outcome (Response V))
  : M unit :=
  c ← closure_of r;
  try_catch
    (logResponse ←
       call_api (getTrainingLogs (c_projectId c) (c_trainingId c)
                   (Integer 500 I) net);
     (* [setLogs(logResponse.logs)] *)
     _ ← property "logs" (λ _, tt) logResponse;
     _ ← setLogs logResponse;
     (* Auto-scroll to bottom if enabled *)
     if c_isAutoScroll c then setTimeout ScrollTick r 100 else mret tt)
    (λ _, (* console.error *) mret tt).

(** [scheduleLogFetch] up to its call of [setTimeout]. *)
Definition scheduleLogFetch (r : nat) : M unit :=
  c ← closure_of r;
  if negb (c_isMounted c) then mret tt
  else if active c then
    l ← locals_of r;
    setTimeout LogTick r (logPollInterval l)
  else mret tt.

(** [scheduleStatusFetch] up to its call of [setTimeout]. *)
Definition scheduleStatusFetch (r : nat) : M unit :=
  c ← closure_of r;
  if negb (c_isMounted c) then mret tt
  else if active c then
    l ← locals_of r;
    setTimeout StatusTick r (statusPollInterval l)
  else mret tt.

(** The callback of [scheduleLogFetch]; the awaited request settles with
    [net] and the callback runs to its end. *)
Definition logTick (r : nat) (net : Outcome (Response V)) : M unit :=
  c ← closure_of r;
  if negb (c_isMounted c) then mret tt
  else
    try_catch
      (_ ← fetchTrainingLogs r net;
       l ← locals_of r;
       (* Reset on success *)
       _ ← set_locals r (mkLocals (logPollInterval l) (statusPollInterval l) 0);
       scheduleLogFetch r)
      (λ _,
         l ← locals_of r;
         (* Exponential backoff on failure (max 30 seconds) *)
         _ ← set_locals r
               (mkLocals (Qred (Qmin (logPollInterval l * (3 # 2)) 30000))
                  (statusPollInterval l) (S (failureCount l)));
         if c_isMounted c then scheduleLogFetch r else mret tt).

(** The callback of [scheduleStatusFetch]. *)
Definition statusTick (r : nat) (net : Outcome (Response V)) : M unit :=
  c ← closure_of r;
  if negb (c_isMounted c) then mret tt
  else
    try_catch
      (_ ← fetchTrainingStatus r net;
       if c_isMounted c then scheduleStatusFetch r else mret tt)
      (λ _,
         l ← locals_of r;
         (* Less aggressive backoff for status *)
         _ ← set_locals r
               (mkLocals (logPollInterval l)
                  (Qred (Qmin (statusPollInterval l * (6 # 5)) 20000))
                  (failureCount l));
         if c_isMounted c then scheduleStatusFetch r else mret tt).

(** The values the next render binds, from the current state. *)
Definition render (p : Page V) : Closure :=
  mkClosure (projectId p) (trainingId p)
    (v ← trainingData p; job_status v) (isAutoScroll p) (isMounted p).

(** The body of the polling effect, run with the closures of the current
    render: the two initial fetches, then [scheduleLogFetch();
    scheduleStatusFetch();].  It returns no cleanup function. *)
Definition pollingEffect (net_status net_logs : Outcome (Response V))
  : M unit :=
  c ← gets render;
  rs ← gets runs;
  let r := length rs in
  _ ← set_runs (rs ++ [(c, initial_locals)]);
  _ ← fetchTrainingStatus r net_status;
  _ ← fetchTrainingLogs r net_logs;
  _ ← scheduleLogFetch r;
  scheduleStatusFetch r.

(** What happens to the page. *)
Inductive Event : Type :=
  | Render (net_status net_logs : Outcome (Response V))
      (* React renders; the effect runs if a dependency changed *)
  | Fire (i : nat) (net : Outcome (Response V))
      (* the [i]-th pending timer expires *)
  | ToggleAutoScroll
  | Unmount.

(** React runs the effect after the first render and after every render in
    which a dependency differs from its value at the previous run. *)
Definition dependencies_changed (p : Page V) : bool :=
  match last (runs p) with
  | Some (c, _) => bool_decide (c ≠ render p)
  | None => true
  end.

Definition drop_timer (i : nat) (ts : list Timer) : list Timer :=
  take i ts ++ drop (S i) ts.

Definition step (e : Event) : M unit :=
  match e with
  | Render net_status net_logs =>
      p ← gets id;
      if attached p && dependencies_changed p
      then pollingEffect net_status net_logs
      else mret tt
  | Fire i net =>
      ts ← gets timers;
      match ts !! i with
      | Some t =>
          _ ← set_timers (drop_timer i ts);
          match task t with
          | LogTick => logTick (run t) net
          | StatusTick => statusTick (run t) net
          | ScrollTick => mret tt
          end
      | None => mret tt
      end
  | ToggleAutoScroll =>
      modify (λ p, mkPage (projectId p) (trainingId p) (trainingData p)
                     (logs p) (isLoading p) (error p) (negb (isAutoScroll p))
                     (isMounted p) (attached p) (runs p) (timers p) (api p))
  | Unmount =>
      (* the cleanup of the first effect: [() => setIsMounted(false)] *)
      _ ← setIsMounted false;
      detach
  end.

(** The page follows a list of events. *)
Fixpoint steps (es : list Event) (p : Page V) : Page V :=
  match es with
  | [] => p
  | e :: es' => steps es' (step e p).2
  end.

(** The page before its first render. *)
Definition mount (base pid tid : string) : Page V :=
  mkPage pid tid None None true "" true true true [] []
    (mkClient base ∅ []).

(** How many requests to [url] the client has issued. *)
Definition requests_to (url : string) (p : Page V) : nat :=
  length (filter (λ u, u = url) (requests (api p))).

Definition status_url (p : Page V) : string :=
  baseUrl (api p) +:+ "/projects/" +:+ projectId p +:+ "/train/"
    +:+ trainingId p +:+ "/status".

Definition logs_url (p : Page V) : string :=
  baseUrl (api p) +:+ "/projects/" +:+ projectId p +:+ "/train/"
    +:+ trainingId p +:+ "/logs?last_n=500".

(** The URL a closure [c] requests under the base URL [base]. *)
Definition poll_url (c : Closure) (base suffix : string) : string :=
  base +:+ "/projects/" +:+ c_projectId c +:+ "/train/" +:+ c_trainingId c
    +:+ suffix.

(** [p'] has the client (but for its request log) and the mount flags of
    [p]. *)
Definition same_page (p p' : Page V) : Prop :=
  baseUrl (api p') = baseUrl (api p) ∧ cache (api p') = cache (api p)
  ∧ isMounted p' = isMounted p ∧ attached p' = attached p.

(** The number of pending timers that will call task [t]. *)
Definition pending (t : Task) (p : Page V) : nat :=
  length (filter (λ x, task x = t) (timers p)).

(** The pending log and status timers, in the order of their creation. *)
Definition poll_timers (p : Page V) : list Timer :=
  filter (λ x, task x ≠ ScrollTick) (timers p).

(** The run [r] closed over a mounted page with status ['running'] or
    ['queued']. *)
Definition polls (p : Page V) (r : nat) : Prop :=
  ∃ c l, runs p !! r = Some (c, l) ∧ c_isMounted c = true ∧ active c = true.

(** What holds of the page after any sequence of events: the intervals of
    every run are the initial ones, a pending log timer has a delay of 3000
    ms and a pending status timer one of 8000 ms, and each of them belongs to
    a run that polls. *)
Definition steady (p : Page V) : Prop :=
  Forall (λ cl, logPollInterval cl.2 = 3000%Q
                ∧ statusPollInterval cl.2 = 8000%Q) (runs p)
  ∧ Forall (λ x, match task x with
                 | LogTick => delay x = 3000%Q ∧ polls p (run x)
                 | StatusTick => delay x = 8000%Q ∧ polls p (run x)
                 | ScrollTick => True
                 end) (timers p).

End Page.
End Monitor.

(** ** The training results page: polling of the AI summary *)

Module Results.

(** The component of the results page: React state, the toasts shown, the
    delays of the pending [pollAI] timers, and the API client. *)
Record Page (V : Type) : Type := mkPage {
  projectId : string;
  trainingId : string;
  summaryData : option V;
  isLoading : bool;
  error : string;
  isPollingAI : bool;
  toasts : list string;
  timers : list Q;
  api : ApiClient V
}.
Arguments mkPage {V} _ _ _ _ _ _ _ _ _.
Arguments projectId {V} _.
Arguments trainingId {V} _.
Arguments summaryData {V} _.
Arguments isLoading {V} _.
Arguments error {V} _.
Arguments isPollingAI {V} _.
Arguments toasts {V} _.
Arguments timers {V} _.
Arguments api {V} _.

Section Page.
Context {V : Type} `{Payload V}.

(** The object spread that fills in the missing fields of [summary.summary]
    before [setSummaryData], for a [summary] that is not [null]. *)
Variable normalize : V → V.

Abbreviation M := (Eff (Page V)).

Definition setSummaryData (v : V) : M unit :=
  modify (λ p, mkPage (projectId p) (trainingId p) (Some v) (isLoading p)
                 (error p) (isPollingAI p) (toasts p) (timers p) (api p)).

Definition setIsLoading (b : bool) : M unit :=
  modify (λ p, mkPage (projectId p) (trainingId p) (summaryData p) b
                 (error p) (isPollingAI p) (toasts p) (timers p) (api p)).

Definition setError (e : string) : M unit :=
  modify (λ p, mkPage (projectId p) (trainingId p) (summaryData p)
                 (isLoading p) e (isPollingAI p) (toasts p) (timers p)
                 (api p)).

Definition setIsPollingAI (b : bool) : M unit :=
  modify (λ p, mkPage (projectId p) (trainingId p) (summaryData p)
                 (isLoading p) (error p) b (toasts p) (timers p) (api p)).

Definition showToast (message : string) : M unit :=
  modify (λ p, mkPage (projectId p) (trainingId p) (summaryData p)
                 (isLoading p) (error p) (isPollingAI p)
                 (toasts p ++ [message]) (timers p) (api p)).

Definition set_timers (ts : list Q) : M unit :=
  modify (λ p, mkPage (projectId p) (trainingId p) (summaryData p)
                 (isLoading p) (error p) (isPollingAI p) (toasts p) ts
                 (api p)).

Definition call_api {A} (m : Js V A) : M A :=
  λ p,
    let '(out, client) := m (api p) in
    (out, mkPage (projectId p) (trainingId p) (summaryData p) (isLoading p)
            (error p) (isPollingAI p) (toasts p) (timers p) client).

(** [setTimeout(pollAI, delay)] *)
Definition setTimeout_pollAI (d : Q) : M unit :=
  ts ← gets timers;
  set_timers (ts ++ [d]).

(** [pollAI], the callback [startAIPolling] hands to [setTimeout].  The
    emoji that starts some toast texts is left out of the literals. *)
Definition pollAI (t_lookup t_store : Z) (net : Outcome (Response V))
  : M unit :=
  pid ← gets projectId;
  tid ← gets trainingId;
  try_catch
    (summary ← call_api (getTrainingSummary t_lookup t_store pid tid net);
     (* [summary.summary?.technical_summary]: reads [summary.summary] *)
     _ ← property "summary" (λ _, tt) summary;
     _ ← setSummaryData (normalize summary);
     if bool_decide (ai_summary_status summary = Some "completed") then
       _ ← setIsPollingAI false;
       showToast "AI insights generated!"
     else if bool_decide (ai_summary_status summary = Some "failed") then
       _ ← setIsPollingAI false;
       showToast "AI summary generation failed, showing basic summary"
     else if bool_decide (ai_summary_status summary = Some "generating") then
       (* Continue polling *)
       setTimeout_pollAI 3000
     else mret tt)
    (λ _, (* console.error *) setIsPollingAI false).

(** [startAIPolling]: [setTimeout(pollAI, 3000)] *)
Definition startAIPolling : M unit := setTimeout_pollAI 3000.

(** [fetchSummary], the body of the effect that loads the page. *)
Definition fetchSummary (t_check t_lookup t_store : Z)
    (net : Outcome (Response V)) : M unit :=
  pid ← gets projectId;
  tid ← gets trainingId;
  try_finally
    (try_catch
       ((* Check if summary will come from cache *)
        willUseCache ←
          call_api (on_cache (isCached t_check "getTrainingSummary"
                                [AStr pid; AStr tid]));
        summary ← call_api (getTrainingSummary t_lookup t_store pid tid net);
        _ ← property "summary" (λ _, tt) summary;
        _ ← setSummaryData (normalize summary);
        _ ← (if willUseCache : bool
             then showToast "Training results loaded from cache"
             else mret tt);
        (* If AI summary is generating, start polling *)
        if bool_decide (ai_summary_status summary = Some "generating") then
          _ ← setIsPollingAI true;
          startAIPolling
        else mret tt)
       (λ errorMessage, setError errorMessage))
    (setIsLoading false).

(** The [i]-th pending timer expires and [pollAI] runs. *)
Definition fire (i : nat) (t_lookup t_store : Z) (net : Outcome (Response V))
  : M unit :=
  ts ← gets timers;
  match ts !! i with
  | Some _ =>
      _ ← set_timers (take i ts ++ drop (S i) ts);
      pollAI t_lookup t_store net
  | None => mret tt
  end.

End Page.
End Results.

(** ** The data processing page: polling of the dataset analysis *)

Module Dataset.

(** The component: its React state, the toasts shown, the delays of the
    pending [pollStatus] timers, and the API client.  [selectedFile] records
    whether a file is selected. *)
Record Page (V : Type) : Type := mkPage {
  projectId : string;
  selectedFile : bool;
  isUploading : bool;
  datasetUploaded : bool;
  isProcessing : bool;
  datasetAnalysis : option V;
  error : string;
  toasts : list string;
  timers : list Q;
  api : ApiClient V
}.
Arguments mkPage {V} _ _ _ _ _ _ _ _ _ _.
Arguments projectId {V} _.
Arguments selectedFile {V} _.
Arguments isUploading {V} _.
Arguments datasetUploaded {V} _.
Arguments isProcessing {V} _.
Arguments datasetAnalysis {V} _.
Arguments error {V} _.
Arguments toasts {V} _.
Arguments timers {V} _.
Arguments api {V} _.

Section Page.
Context {V : Type} `{Payload V}.

Abbreviation M := (Eff (Page V)).

Definition setIsUploading (b : bool) : M unit :=
  modify (λ p, mkPage (projectId p) (selectedFile p) b (datasetUploaded p)
                 (isProcessing p) (datasetAnalysis p) (error p) (toasts p)
                 (timers p) (api p)).

Definition setDatasetUploaded (b : bool) : M unit :=
  modify (λ p, mkPage (projectId p) (selectedFile p) (isUploading p) b
                 (isProcessing p) (datasetAnalysis p) (error p) (toasts p)
                 (timers p) (api p)).

Definition setIsProcessing (b : bool) : M unit :=
  modify (λ p, mkPage (projectId p) (selectedFile p) (isUploading p)
                 (datasetUploaded p) b (datasetAnalysis p) (error p)
                 (toasts p) (timers p) (api p)).

Definition setDatasetAnalysis (v : V) : M unit :=
  modify (λ p, mkPage (projectId p) (selectedFile p) (isUploading p)
                 (datasetUploaded p) (isProcessing p) (Some v) (error p)
                 (toasts p) (timers p) (api p)).

Definition setError (e : string) : M unit :=
  modify (λ p, mkPage (projectId p) (selectedFile p) (isUploading p)
                 (datasetUploaded p) (isProcessing p) (datasetAnalysis p) e
                 (toasts p) (timers p) (api p)).

Definition showToast (message : string) : M unit :=
  modify (λ p, mkPage (projectId p) (selectedFile p) (isUploading p)
                 (datasetUploaded p) (isProcessing p) (datasetAnalysis p)
                 (error p) (toasts p ++ [message]) (timers p) (api p)).

Definition set_timers (ts : list Q) : M unit :=
  modify (λ p, mkPage (projectId p) (selectedFile p) (isUploading p)
                 (datasetUploaded p) (isProcessing p) (datasetAnalysis p)
                 (error p) (toasts p) ts (api p)).

Definition call_api {A} (m : Js V A) : M A :=
  λ p,
    let '(out, client) := m (api p) in
    (out, mkPage (projectId p) (selectedFile p) (isUploading p)
            (datasetUploaded p) (isProcessing p) (datasetAnalysis p)
            (error p) (toasts p) (timers p) client).

(** [setTimeout(pollStatus, delay)] *)
Definition setTimeout_pollStatus (d : Q) : M unit :=
  ts ← gets timers;
  set_timers (ts ++ [d]).

(** [pollStatus], the callback of [startStatusPolling].  The emoji that
    starts the toast texts is left out of the literals. *)
Definition pollStatus (t_lookup t_store : Z) (net : Outcome (Response V))
  : M unit :=
  pid ← gets projectId;
  try_catch
    (analysis ← call_api (getDatasetAnalysis t_lookup t_store pid net);
     _ ← setDatasetAnalysis analysis;
     status ← property "status" job_status analysis;
     if bool_decide (status = Some "ready") then
       _ ← setIsProcessing false;
       showToast "Dataset analysis complete!"
     else if bool_decide (status = Some "generating") then
       (* Continue polling *)
       setTimeout_pollStatus 3000
     else if bool_decide (status = Some "error") then
       _ ← setIsProcessing false;
       setError "Dataset processing failed"
     else mret tt)
    (λ _, (* console.error *)
       setTimeout_pollStatus 5000 (* Retry after 5 seconds *)).

(** [startStatusPolling]: [setTimeout(pollStatus, 2000)] *)
Definition startStatusPolling : M unit := setTimeout_pollStatus 2000.

(** [handleUploadDataset]; the awaited upload settles with [net]. *)
Definition handleUploadDataset (net : Outcome (Response V)) : M unit :=
  file ← gets selectedFile;
  if negb file then mret tt
  else
    _ ← setIsUploading true;
    _ ← setError "";
    pid ← gets projectId;
    try_finally
      (try_catch
         (_ ← call_api (uploadDataset pid net);
          _ ← setDatasetUploaded true;
          _ ← setIsProcessing true;
          _ ← showToast "Dataset uploaded! Processing data...";
          (* Start polling to check when processing is complete *)
          startStatusPolling)
         (λ errorMessage, setError errorMessage))
      (setIsUploading false).

End Page.
End Dataset.

(** ** The training setup page (src/app/training/[projectId]/page.tsx):
       starting a training and polling its logs *)

Module Setup.

(** What the handlers of one render close over. *)
Record Closure : Type := mkClosure {
  c_datasetUploaded : bool;
  c_projectStatus : string;
  c_isTraining : bool;
  c_trainingStarted : bool;
  c_isPolling : bool
}.

(** A pending [setTimeout(() => pollTrainingLogs(tId), delay)]: its handle,
    and the render whose [pollTrainingLogs] the callback calls. *)
Record Timer : Type := mkTimer {
  handle : nat;
  delay : Q;
  owner : Closure;
  tId : string
}.

(** The component: its React state, [pollingTimeoutRef.current], the
    pending timers with the next free handle, and the API client. *)
Record Page (V : Type) : Type := mkPage {
  projectId : string;
  datasetUploaded : bool;
  projectStatus : string;
  isTraining : bool;
  trainingStarted : bool;
  trainingId : string;
  error : string;
  logs : option V;
  isPolling : bool;
  pollingTimeoutRef : option nat;
  next_handle : nat;
  timers : list Timer;
  api : ApiClient V
}.
Arguments mkPage {V} _ _ _ _ _ _ _ _ _ _ _ _ _.
Arguments projectId {V} _.
Arguments datasetUploaded {V} _.
Arguments projectStatus {V} _.
Arguments isTraining {V} _.
Arguments trainingStarted {V} _.
Arguments trainingId {V} _.
Arguments error {V} _.
Arguments logs {V} _.
Arguments isPolling {V} _.
Arguments pollingTimeoutRef {V} _.
Arguments next_handle {V} _.
Arguments timers {V} _.
Arguments api {V} _.

Section Page.
Context {V : Type} `{Payload V}.

(** [response.training_id] as the template literal of the request URL
    prints it (["undefined"] when the property is missing). *)
Variable training_id : V → string.

Abbreviation M := (Eff (Page V)).

Definition setIsTraining (b : bool) : M unit :=
  modify (λ p, mkPage (projectId p) (datasetUploaded p) (projectStatus p) b
                 (trainingStarted p) (trainingId p) (error p) (logs p)
                 (isPolling p) (pollingTimeoutRef p) (next_handle p) (timers p)
                 (api p)).

Definition setTrainingStarted (b : bool) : M unit :=
  modify (λ p, mkPage (projectId p) (datasetUploaded p) (projectStatus p)
                 (isTraining p) b (trainingId p) (error p) (logs p)
                 (isPolling p) (pollingTimeoutRef p) (next_handle p) (timers p)
                 (api p)).

Definition setTrainingId (t : string) : M unit :=
  modify (λ p, mkPage (projectId p) (datasetUploaded p) (projectStatus p)
                 (isTraining p) (trainingStarted p) t (error p) (logs p)
                 (isPolling p) (pollingTimeoutRef p) (next_handle p) (timers p)
                 (api p)).

Definition setError (e : string) : M unit :=
  modify (λ p, mkPage (projectId p) (datasetUploaded p) (projectStatus p)
                 (isTraining p) (trainingStarted p) (trainingId p) e (logs p)
                 (isPolling p) (pollingTimeoutRef p) (next_handle p) (timers p)
                 (api p)).

Definition setLogs (v : V) : M unit :=
  modify (λ p, mkPage (projectId p) (datasetUploaded p) (projectStatus p)
                 (isTraining p) (trainingStarted p) (trainingId p) (error p)
                 (Some v) (isPolling p) (pollingTimeoutRef p) (next_handle p)
                 (timers p) (api p)).

Definition setIsPolling (b : bool) : M unit :=
  modify (λ p, mkPage (projectId p) (datasetUploaded p) (projectStatus p)
                 (isTraining p) (trainingStarted p) (trainingId p) (error p)
                 (logs p) b (pollingTimeoutRef p) (next_handle p) (timers p)
                 (api p)).

Definition set_ref (h : option nat) : M unit :=
  modify (λ p, mkPage (projectId p) (datasetUploaded p) (projectStatus p)
                 (isTraining p) (trainingStarted p) (trainingId p) (error p)
                 (logs p) (isPolling p) h (next_handle p) (timers p) (api p)).

Definition set_next_handle (n : nat) : M unit :=
  modify (λ p, mkPage (projectId p) (datasetUploaded p) (projectStatus p)
                 (isTraining p) (trainingStarted p) (trainingId p) (error p)
                 (logs p) (isPolling p) (pollingTimeoutRef p) n (timers p)
                 (api p)).

Definition set_timers (ts : list Timer) : M unit :=
  modify (λ p, mkPage (projectId p) (datasetUploaded p) (projectStatus p)
                 (isTraining p) (trainingStarted p) (trainingId p) (error p)
                 (logs p) (isPolling p) (pollingTimeoutRef p) (next_handle p)
                 ts (api p)).

Definition call_api {A} (m : Js V A) : M A :=
  λ p,
    let '(out, client) := m (api p) in
    (out, mkPage (projectId p) (datasetUploaded p) (projectStatus p)
          (isTraining p) (trainingStarted p) (trainingId p) (error p)
          (logs p) (isPolling p) (pollingTimeoutRef p) (next_handle p)
          (timers p) client).

(** The values the next render binds, from the current state. *)
Definition render (p : Page V) : Closure :=
  mkClosure (datasetUploaded p) (projectStatus p) (isTraining p)
    (trainingStarted p) (isPolling p).

(** [setTimeout(() => pollTrainingLogs(tId), delay)] in a handler of render
    [c]: a fresh handle. *)
Definition setTimeout (d : Q) (c : Closure) (t : string) : M nat :=
  h ← gets next_handle;
  ts ← gets timers;
  _ ← set_timers (ts ++ [mkTimer h d c t]);
  _ ← set_next_handle (S h);
  mret h.

(** [clearTimeout(h)]: a timer that already ran or was cleared is left
    alone. *)
Definition clearTimeout (h : nat) : M unit :=
  ts ← gets timers;
  set_timers (filter (λ t, handle t ≠ h) ts).

(** [pollTrainingLogs(tId)] of render [c]. *)
Definition pollTrainingLogs (c : Closure) (t : string)
    (net : Outcome (Response V)) : M unit :=
  (* Clear any existing timeout *)
  ref ← gets pollingTimeoutRef;
  _ ← match ref with
      | Some h => _ ← clearTimeout h; set_ref None
      | None => mret tt
      end;
  pid ← gets projectId;
  try_catch
    (logsResponse ←
       call_api (getTrainingLogs pid t (Integer 100 I) net);
     (* [setLogs(logsResponse.logs || [])] *)
     _ ← property "logs" (λ _, tt) logsResponse;
     _ ← setLogs logsResponse;
     (* Continue polling if training is still running *)
     if (bool_decide (job_status logsResponse = Some "queued")
         || bool_decide (job_status logsResponse = Some "running"))
        && c_isPolling c
     then
       h ← setTimeout 3000 c t;
       set_ref (Some h)
     else
       (* Training completed or failed, stop polling *)
       setIsPolling false)
    (λ _, (* console.error; Stop polling on error *) setIsPolling false).

(** [handleStartTraining] of render [c]; the awaited request settles with
    [net]. *)
Definition handleStartTraining (c : Closure) (net : Outcome (Response V))
  : M unit :=
  if negb (c_datasetUploaded c) then
    setError "Please upload a dataset first"
  else if negb (String.eqb (c_projectStatus c) "ready") then
    setError ("Cannot start training. Project status: " +:+ c_projectStatus c
                +:+ ". Please wait for project to be ready.")
  else if c_isTraining c || c_trainingStarted c then
    (* Prevent multiple training starts *)
    mret tt
  else
    _ ← setIsTraining true;
    _ ← setError "";
    pid ← gets projectId;
    try_finally
      (try_catch
         (response ← call_api (startTraining pid net);
          t ← property "training_id" training_id response;
          _ ← setTrainingId t;
          _ ← setTrainingStarted true;
          (* Start polling logs only if not already polling *)
          if negb (c_isPolling c) then
            _ ← setIsPolling true;
            h ← setTimeout 2000 c t;
            set_ref (Some h)
          else mret tt)
         (λ errorMessage, setError errorMessage))
      (setIsTraining false).

(** The timers left pending when [pollTrainingLogs] starts: it clears the
    one [pollingTimeoutRef] holds. *)
Definition after_clear (p : Page V) : list Timer :=
  match pollingTimeoutRef p with
  | Some h => filter (λ t, handle t ≠ h) (timers p)
  | None => timers p
  end.

(** The timer with handle [h] expires. *)
Definition fire (h : nat) (net : Outcome (Response V)) : M unit :=
  ts ← gets timers;
  match filter (λ t, handle t = h) ts with
  | t :: _ =>
      _ ← set_timers (filter (λ t, handle t ≠ h) ts);
      pollTrainingLogs (owner t) (tId t) net
  | [] => mret tt
  end.

End Page.
End Setup.

(** ** Scenarios *)

(** A 200 response of the status endpoint with the given [status]. *)
Definition status_reply (st : string) : Outcome (Response Json) :=
  Returned
    (mkResponse true 200 "OK" (Returned (mkJson None None (Some st) ""))
       (Thrown "")).

(** A 200 response of the logs endpoint. *)
Definition logs_reply : Outcome (Response Json) :=
  Returned
    (mkResponse true 200 "OK"
       (Returned (mkJson None None (Some "running") "logs")) (Thrown "")).

(** [fetch] rejects: the request never reached the server. *)
Definition network_failure : Outcome (Response Json) :=
  Thrown "Failed to fetch".

(** The monitor of training ["t1"] of project ["p1"] after its first two
    renders, the status endpoint having answered ['running'] twice: the run
    of the effect that saw [trainingData.status = 'running'] has its log
    timer pending at index 2 and its status timer at index 3. *)
Definition polling_page : Monitor.Page Json :=
  Monitor.steps
    [Monitor.Render (status_reply "running") logs_reply;
     Monitor.Render (status_reply "running") logs_reply]
    (Monitor.mount "https://api" "p1" "t1").

(** FastAPI's answer to a request that fails validation (status 422): the
    [detail] is an array of objects. *)
Definition validation_error : JsonValue :=
  JObject
    [("detail",
      JArray
        [JObject [("loc", JArray [JString "body"; JString "name"]);
                  ("msg", JString "field required");
                  ("type", JString "value_error.missing")]])].

Definition validation_reply : Outcome (Response JsonValue) :=
  Returned
    (mkResponse false 422 "Unprocessable Entity" (Returned validation_error)
       (Thrown "")).

(** A 500 response whose body is the JSON text [null]. *)
Definition null_error_reply : Outcome (Response JsonValue) :=
  Returned
    (mkResponse false 500 "Internal Server Error" (Returned JNull)
       (Thrown "")).

Definition fresh_client : ApiClient JsonValue :=
  mkClient "https://api" ∅ [].

(* ===================================================================== *)
(** * Part II: properties                                                 *)
(* ===================================================================== *)

(** ** Strings *)

Lemma startsWith_spec (s pattern : string) :
  JsString.startsWith s pattern = true ↔ ∃ after, s = pattern +:+ after.
Proof.
  revert s. induction pattern as [|a pattern IH]; intros s; simpl.
  - split; [intros _; by exists s | done].
  - destruct s as [|b s].
    + split; [done | intros [after Heq]; discriminate].
    + destruct (Ascii.eqb_spec a b) as [->|Hne].
      * rewrite IH. split; intros [after Heq]; exists after.
        -- by rewrite Heq.
        -- by injection Heq.
      * split; [done | intros [after Heq]; injection Heq; congruence].
Qed.

Lemma includes_spec (s pattern : string) :
  JsString.includes s pattern = true ↔ JsString.substring_of pattern s.
Proof.
  unfold JsString.substring_of.
  induction s as [|b s IH]; simpl.
  - destruct (JsString.startsWith "" pattern) eqn:Hsw.
    + apply startsWith_spec in Hsw as [after Heq].
      split; [intros _; by exists "", after | done].
    + split; [done |].
      intros [before [after Heq]].
      destruct before; [| discriminate]. simpl in Heq.
      assert (JsString.startsWith "" pattern = true) as Hsw'
        by (apply startsWith_spec; eauto).
      congruence.
  - destruct (JsString.startsWith (String b s) pattern) eqn:Hsw.
    + apply startsWith_spec in Hsw as [after Heq].
      split; [intros _; by exists "", after | done].
    + rewrite IH. split.
      * intros [before [after Heq]]. exists (String b before), after.
        simpl. by rewrite Heq.
      * intros [before [after Heq]].
        destruct before as [|b' before]; simpl in Heq.
        -- assert (JsString.startsWith (String b s) pattern = true) as Hsw'
             by (apply startsWith_spec; eauto).
           congruence.
        -- injection Heq as _ Heq. eauto.
Qed.

Lemma append_empty_r (s : string) : s +:+ "" = s.
Proof.
  induction s as [|a s IH]; [done |].
  change (String a (s +:+ "") = String a s). by rewrite IH.
Qed.

Lemma append_assoc (a b c : string) : (a +:+ b) +:+ c = a +:+ b +:+ c.
Proof.
  induction a as [|x a IH]; [done |].
  change (String x ((a +:+ b) +:+ c) = String x (a +:+ b +:+ c)).
  by rewrite IH.
Qed.

Lemma includes_empty (s : string) : JsString.includes s "" = true.
Proof. by destruct s. Qed.

Lemma truthy_spec (s : string) : JsString.truthy s = true ↔ s ≠ "".
Proof. by destruct s. Qed.

(** ** The store *)

Section CacheFacts.
Context {T : Type}.
Implicit Types (c : Cache T) (k key pattern : string) (e : CacheEntry T).

Lemma isValidCache_true now e :
  isValidCache now e = true ↔ now - timestamp e < ttl e.
Proof. unfold isValidCache. by rewrite bool_decide_eq_true. Qed.

Lemma isValidCache_false now e :
  isValidCache now e = false ↔ ttl e ≤ now - timestamp e.
Proof. unfold isValidCache. rewrite bool_decide_eq_false. lia. Qed.

Lemma getFromCache_hit now k c e :
  c !! k = Some e → isValidCache now e = true →
  getFromCache now k c = (Some (data e), c).
Proof. intros Hk He. unfold getFromCache. by rewrite Hk, He. Qed.

Lemma getFromCache_expired now k c e :
  c !! k = Some e → isValidCache now e = false →
  getFromCache now k c = (None, delete k c).
Proof. intros Hk He. unfold getFromCache. by rewrite Hk, He. Qed.

Lemma getFromCache_absent now k c :
  c !! k = None → getFromCache now k c = (None, c).
Proof. intros Hk. unfold getFromCache. by rewrite Hk. Qed.

(** A lookup touches no key but its own. *)
Lemma getFromCache_frame now k k' c :
  k ≠ k' → (getFromCache now k c).2 !! k' = c !! k'.
Proof.
  intros Hne. unfold getFromCache.
  destruct (c !! k) as [e|]; [| done].
  destruct (isValidCache now e); [done |]. simpl. by rewrite lookup_delete_ne.
Qed.

(** A lookup never adds an entry. *)
Lemma getFromCache_subseteq now k c : (getFromCache now k c).2 ⊆ c.
Proof.
  unfold getFromCache.
  destruct (c !! k) as [e|]; [| done].
  destruct (isValidCache now e); [done |]. simpl. apply delete_subseteq.
Qed.

Lemma invalidate_step_None pattern c x k :
  c !! k = None → invalidate_step pattern c x !! k = None.
Proof.
  intros Hk. unfold invalidate_step.
  destruct (JsString.includes x pattern); [| done].
  rewrite lookup_delete. by case_decide.
Qed.

Lemma invalidate_loop_None pattern (l : list string) c k :
  c !! k = None → foldl (invalidate_step pattern) c l !! k = None.
Proof.
  revert c. induction l as [|x l IH]; intros c Hk; [done |].
  simpl. apply IH. by apply invalidate_step_None.
Qed.

(** The loop leaves alone every key that does not contain the pattern. *)
Lemma invalidate_loop_keep pattern (l : list string) c k :
  JsString.includes k pattern = false →
  foldl (invalidate_step pattern) c l !! k = c !! k.
Proof.
  intros Hk. revert c. induction l as [|x l IH]; intros c; [done |].
  simpl. rewrite IH. unfold invalidate_step.
  destruct (JsString.includes x pattern) eqn:Hx; [| done].
  apply lookup_delete_ne. congruence.
Qed.

(** The loop deletes every visited key that contains the pattern. *)
Lemma invalidate_loop_drop pattern (l : list string) c k :
  JsString.includes k pattern = true → k ∈ l →
  foldl (invalidate_step pattern) c l !! k = None.
Proof.
  intros Hk. revert c. induction l as [|x l IH]; intros c Hin.
  - by apply elem_of_nil in Hin.
  - simpl. apply elem_of_cons in Hin as [<-|Hin]; [| by apply IH].
    apply invalidate_loop_None. unfold invalidate_step.
    rewrite Hk. apply lookup_delete_eq.
Qed.

Lemma elem_of_keys c k : k ∈ keys c ↔ is_Some (c !! k).
Proof.
  unfold keys. rewrite list_elem_of_fmap. split.
  - intros [[k' e] [-> Hin]]. apply elem_of_map_to_list in Hin. by exists e.
  - intros [e He]. exists (k, e). split; [done |].
    by apply elem_of_map_to_list.
Qed.

(** What [invalidateCache] leaves under each key. *)
Lemma lookup_invalidateCache pattern c k :
  invalidateCache pattern c !! k =
    if JsString.includes k pattern then None else c !! k.
Proof.
  unfold invalidateCache.
  destruct (JsString.includes k pattern) eqn:Hk.
  - destruct (c !! k) as [e|] eqn:Hck.
    + apply invalidate_loop_drop; [done |]. apply elem_of_keys. by exists e.
    + by apply invalidate_loop_None.
  - by apply invalidate_loop_keep.
Qed.

(** [invalidateCache] is the filter that keeps the keys without the
    pattern. *)
Lemma invalidateCache_filter pattern c :
  invalidateCache pattern c =
    filter (λ kv, JsString.includes kv.1 pattern = false) c.
Proof.
  apply map_eq. intros k. rewrite lookup_invalidateCache.
  destruct (JsString.includes k pattern) eqn:Hk.
  - symmetry. apply map_lookup_filter_None. right. intros e _. simpl.
    congruence.
  - destruct (c !! k) as [e|] eqn:Hck.
    + symmetry. by apply map_lookup_filter_Some.
    + symmetry. apply map_lookup_filter_None. by left.
Qed.

Lemma invalidateCache_removes_exactly pattern c :
  removes_exactly_keys_with pattern c (invalidateCache pattern c).
Proof.
  intros k. rewrite lookup_invalidateCache.
  destruct (JsString.includes k pattern) eqn:Hk.
  - by apply includes_spec in Hk.
  - split; [| done]. intros Hsub. apply includes_spec in Hsub. congruence.
Qed.

Lemma invalidateCache_subseteq pattern c : invalidateCache pattern c ⊆ c.
Proof. rewrite invalidateCache_filter. apply map_filter_subseteq. Qed.

Lemma lookup_setCache now k k' (d : T) ttl0 c :
  setCache now k d ttl0 c !! k' =
    if decide (k = k') then Some (mkEntry d now ttl0) else c !! k'.
Proof. unfold setCache. apply lookup_insert. Qed.

Lemma lookup_clearCache c k : clearCache c !! k = None.
Proof. apply lookup_empty. Qed.

Lemma invalidateProjectCache_subseteq projectId c :
  invalidateProjectCache projectId c ⊆ c.
Proof.
  unfold invalidateProjectCache.
  destruct projectId as [p|]; [destruct (JsString.truthy p) |];
    try apply invalidateCache_subseteq;
    (etrans; [apply invalidateCache_subseteq | apply invalidateCache_subseteq]).
Qed.

Lemma lookup_invalidateProjectCache projectId c k :
  invalidateProjectCache projectId c !! k =
    if selected_by_project projectId k then None else c !! k.
Proof.
  unfold invalidateProjectCache, selected_by_project.
  destruct projectId as [p|]; [destruct (JsString.truthy p) |];
    rewrite ?lookup_invalidateCache;
    repeat match goal with
           | |- context [JsString.includes k ?p] =>
               destruct (JsString.includes k p)
           end; done.
Qed.

End CacheFacts.

(** ** Histories of the store *)

Section Histories.
Context {T : Type}.
Implicit Types (c : Cache T) (ops : list (CacheOp T)).

Lemma run_ops_snoc ops (op : CacheOp T) :
  run_ops (ops ++ [op]) = run_op op (run_ops ops).
Proof. unfold run_ops. by rewrite foldl_app. Qed.

(** Only [setCache] adds to the store. *)
Lemma run_op_subseteq (op : CacheOp T) c :
  (∀ now key d ttl0, op ≠ OpSet now key d ttl0) → run_op op c ⊆ c.
Proof.
  intros Hset. destruct op as [now k|now k d ttl0|p|pid| |now m ps|now]; simpl.
  - apply getFromCache_subseteq.
  - by destruct (Hset now k d ttl0).
  - apply invalidateCache_subseteq.
  - apply invalidateProjectCache_subseteq.
  - apply map_empty_subseteq.
  - unfold isCached. by destruct (c !! getCacheKey m ps).
  - unfold getCacheStats. by destruct (foldl _ _ _).
Qed.

(** Every entry of the store was written by a [setCache] of the history,
    with the clock reading of that call as its timestamp. *)
Lemma run_ops_provenance ops k (e : CacheEntry T) :
  run_ops ops !! k = Some e →
  OpSet (timestamp e) k (data e) (ttl e) ∈ ops.
Proof.
  revert k e. induction ops as [|op ops IH] using rev_ind; intros k e Hk.
  - unfold run_ops in Hk. simpl in Hk. by rewrite lookup_empty in Hk.
  - rewrite run_ops_snoc in Hk. apply elem_of_app.
    destruct op as [now k'|now k' d ttl0|p|pid| |now m ps|now];
      try (left; apply IH;
           eapply lookup_weaken; [exact Hk |];
           by apply run_op_subseteq).
    simpl in Hk. rewrite lookup_setCache in Hk.
    case_decide as Hkk.
    + right. injection Hk as <-. subst k'. simpl. apply list_elem_of_singleton.
      done.
    + left. by apply IH.
Qed.

End Histories.

(** ** C1: lookups *)

Section Lookups.
Context {T : Type}.
Implicit Types (c : Cache T) (ops : list (CacheOp T)) (e : CacheEntry T).

Lemma keeps_selected k e projectId :
  keeps k e (OpInvalidateProject projectId)
  ↔ selected_by_project projectId k = false.
Proof.
  unfold keeps, selected_by_project.
  assert (¬ JsString.substring_of "listProjects" k
          ∧ ¬ JsString.substring_of "getProjectStatus" k
          ↔ JsString.includes k "listProjects"
            || JsString.includes k "getProjectStatus" = false) as Hcoarse.
  { rewrite <- !includes_spec, orb_false_iff.
    by destruct (JsString.includes k "listProjects"),
         (JsString.includes k "getProjectStatus"); intuition. }
  destruct projectId as [p|]; [| done].
  destruct (decide (p = "")) as [->|Hne]; [done |].
  apply truthy_spec in Hne as Ht. rewrite Ht, <- includes_spec.
  by destruct (JsString.includes k p); intuition.
Qed.

(** What one call leaves under a key: the entry it sets there, or the entry
    that was there when the call keeps it. *)
Lemma run_op_lookup (op : CacheOp T) c k e :
  run_op op c !! k = Some e
  ↔ op = OpSet (timestamp e) k (data e) (ttl e)
    ∨ (c !! k = Some e ∧ keeps k e op).
Proof.
  destruct op as [now key|now key d ttl0|pattern|projectId| |now m ps|now].
  - simpl. destruct (decide (key = k)) as [->|Hne].
    + unfold getFromCache. destruct (c !! k) as [e0|] eqn:Hk.
      * destruct (isValidCache now e0) eqn:He; simpl.
        -- apply isValidCache_true in He. rewrite Hk. split.
           ++ intros [= <-]. right. done.
           ++ by intros [? | [? _]].
        -- apply isValidCache_false in He. rewrite lookup_delete_eq. split.
           ++ done.
           ++ intros [? | [[= <-] Hkeep]]; [done |].
              specialize (Hkeep eq_refl). lia.
      * simpl. rewrite Hk. split; [done | by intros [? | [? _]]].
    + rewrite getFromCache_frame by done. split.
      * intros Hk. right. done.
      * by intros [? | [? _]].
  - simpl. rewrite lookup_setCache. case_decide as Hkey.
    + subst key. split.
      * intros [= <-]. by left.
      * intros [[= -> -> ->] | [_ ?]]; [by destruct e | done].
    + split.
      * intros Hk. right. done.
      * intros [[= ? ? ? ?] | [? _]]; [congruence | done].
  - simpl. rewrite lookup_invalidateCache.
    destruct (JsString.includes k pattern) eqn:Hinc.
    + apply includes_spec in Hinc. split; [done | by intros [? | [_ ?]]].
    + assert (¬ JsString.substring_of pattern k) as Hno.
      { rewrite <- includes_spec. congruence. }
      split; [by right | by intros [? | [? _]]].
  - cbn [run_op]. rewrite lookup_invalidateProjectCache, keeps_selected.
    destruct (selected_by_project projectId k).
    + split; [done | by intros [? | [_ ?]]].
    + split; [by right | by intros [? | [? _]]].
  - simpl. rewrite lookup_clearCache. split; [done | by intros [? | [_ ?]]].
  - simpl. assert ((isCached now m ps c).2 = c) as ->.
    { unfold isCached. by destruct (c !! getCacheKey m ps). }
    split; [by right | by intros [? | [? _]]].
  - simpl. assert ((getCacheStats now c).2 = c) as ->.
    { unfold getCacheStats. by destruct (foldl _ _ _). }
    split; [by right | by intros [? | [? _]]].
Qed.

Lemma set_in_effect_snoc k e ops (op : CacheOp T) :
  set_in_effect k e (ops ++ [op])
  ↔ op = OpSet (timestamp e) k (data e) (ttl e)
    ∨ (set_in_effect k e ops ∧ keeps k e op).
Proof.
  unfold set_in_effect. split.
  - intros (before & after & Heq & Hkeep).
    destruct after as [|x after _] using rev_ind.
    + left. change (ops ++ [op] = before ++ [OpSet (timestamp e) k (data e) (ttl e)])
        in Heq.
      by apply app_inj_tail in Heq as [_ ->].
    + right. rewrite app_comm_cons, app_assoc in Heq.
      apply app_inj_tail in Heq as [-> ->].
      apply Forall_app in Hkeep as [Hkeep Hx].
      split; [by exists before, after |]. by apply Forall_inv in Hx.
  - intros [-> | [(before & after & -> & Hkeep) Hop]].
    + exists ops, []. by split.
    + exists before, (after ++ [op]). split.
      * by rewrite <- app_assoc.
      * apply Forall_app. split; [done | by constructor].
Qed.

(** The store after a history holds under [k] the entry of the [setCache]
    in effect for [k], and nothing when there is none. *)
Lemma run_ops_lookup ops k e :
  run_ops ops !! k = Some e ↔ set_in_effect k e ops.
Proof.
  induction ops as [|op ops IH] using rev_ind.
  - unfold run_ops. simpl. rewrite lookup_empty. split; [done |].
    intros (before & after & Heq & _). by destruct before.
  - by rewrite run_ops_snoc, run_op_lookup, set_in_effect_snoc, IH.
Qed.

End Lookups.

(** C1.  After any history of calls on a fresh store, [getFromCache] at
    clock reading [now] returns a value [v] for key [k] exactly when a prior
    [setCache(k, v, ttl)], made at some clock reading [t0], is in effect (no
    later call of the history has replaced or removed its entry) and
    [now - t0 < ttl].  A lookup that returns a value leaves the store as it
    is.  A lookup that returns nothing leaves the store without an entry for
    [k] (an expired entry is deleted), and a second lookup of [k], at any
    time, again returns nothing and does not change the store.  No other key
    is touched. *)
Theorem getFromCache_correct {T} (ops : list (CacheOp T)) (now : Z)
    (k : string) :
  let c := run_ops ops in
  let r := getFromCache now k c in
  (∀ v, r.1 = Some v ↔
        ∃ t0 ttl0, set_in_effect k (mkEntry v t0 ttl0) ops ∧ now - t0 < ttl0)
  ∧ (is_Some r.1 → r.2 = c)
  ∧ (r.1 = None →
       r.2 = delete k c
       ∧ ∀ now', getFromCache now' k r.2 = (None, r.2))
  ∧ (∀ k', k' ≠ k → r.2 !! k' = c !! k').
Proof.
  intros c r. subst r. split; [| split; [| split]].
  - intros v. setoid_rewrite <- run_ops_lookup. fold c. unfold getFromCache.
    destruct (c !! k) as [e|] eqn:Hk.
    + destruct (isValidCache now e) eqn:He; simpl.
      * apply isValidCache_true in He. split.
        -- intros [= <-]. exists (timestamp e), (ttl e).
           split; [by destruct e | done].
        -- intros (t0 & ttl0 & [= ->] & _). done.
      * apply isValidCache_false in He. split; [done |].
        intros (t0 & ttl0 & [= ->] & Hlt). simpl in He. lia.
    + simpl. split; [done | by intros (t0 & ttl0 & ? & _)].
  - unfold getFromCache.
    destruct (c !! k) as [e|]; [| done].
    destruct (isValidCache now e); [done | by intros [? ?]].
  - unfold getFromCache.
    destruct (c !! k) as [e|] eqn:Hk.
    + destruct (isValidCache now e); [done |]. simpl. intros _.
      split; [done |]. intros now'.
      apply getFromCache_absent, lookup_delete_eq.
    + simpl. intros _. split; [by rewrite delete_id |].
      intros now'. by apply getFromCache_absent.
  - intros k' Hne. by apply getFromCache_frame.
Qed.

(** Read on the shortest histories: a value that was just set is returned
    until it expires, whatever the store held before; and a fresh store
    returns nothing. *)
Example set_in_effect_examples :
  set_in_effect "a" (mkEntry 1%nat 5000 1000)
    [OpSet 0 "a" 0%nat 10; OpGet 5 "b"; OpSet 5000 "a" 1%nat 1000;
     OpInvalidate "b"; OpStats 7000]
  ∧ ¬ set_in_effect "a" (mkEntry 1%nat 5000 1000)
        [OpSet 5000 "a" 1%nat 1000; OpGet 6000 "a"]
  ∧ ¬ set_in_effect "a" (mkEntry 1%nat 5000 1000)
        [OpSet 5000 "a" 1%nat 1000; OpInvalidate ""].
Proof.
  split; [| split].
  - exists [OpSet 0 "a" 0%nat 10; OpGet 5 "b"], [OpInvalidate "b"; OpStats 7000].
    split; [done |]. repeat constructor.
    intros Hsub. by apply includes_spec in Hsub.
  - rewrite <- run_ops_lookup. by vm_compute.
  - rewrite <- run_ops_lookup. by vm_compute.
Qed.

(** The scenario of the specification: [set("a", 1, 1000)] at time [t], a
    lookup at once returns [1], a lookup 1001 ms later returns nothing and
    the entry is gone from the statistics. *)
Example set_then_get_scenario :
  let c := setCache 5000 "a" 1%nat 1000 ∅ in
  getFromCache 5000 "a" c = (Some 1%nat, c)
  ∧ (getFromCache 6001 "a" c).1 = None
  ∧ total (getCacheStats 6001 c).1 = 1%nat
  ∧ total (getCacheStats 6001 (getFromCache 6001 "a" c).2).1 = 0%nat.
Proof. vm_compute. done. Qed.

(** ** C2: invalidation by pattern *)

(** C2.  [invalidateCache(pattern)] removes the entry of every key that
    contains [pattern] as a substring and leaves every other key as it was,
    entry included: a key present in the cache is removed exactly when
    [pattern] is a substring of it, and no key is added. *)
Theorem invalidateCache_exact {T} (pattern : string) (c : Cache T)
    (k : string) :
  (JsString.substring_of pattern k → invalidateCache pattern c !! k = None)
  ∧ (¬ JsString.substring_of pattern k →
       invalidateCache pattern c !! k = c !! k)
  ∧ (is_Some (c !! k) →
       (invalidateCache pattern c !! k = None
        ↔ JsString.substring_of pattern k)).
Proof.
  rewrite lookup_invalidateCache.
  destruct (JsString.includes k pattern) eqn:Hk.
  - apply includes_spec in Hk. split; [done |]. split; [done |].
    intros _. done.
  - assert (¬ JsString.substring_of pattern k) as Hno.
    { rewrite <- includes_spec. congruence. }
    split; [done |]. split; [done |].
    intros [e ->]. split; [done | done].
Qed.

Example invalidateCache_example :
  let c : Cache nat :=
    setCache 0 "getProjectStatus:p1" 1%nat 30000
      (setCache 0 "getProjectStatus:p2" 2%nat 30000
         (setCache 0 "listProjects:20:0" 3%nat 120000 ∅)) in
  invalidateCache "p1" c
  = setCache 0 "getProjectStatus:p2" 2%nat 30000
      (setCache 0 "listProjects:20:0" 3%nat 120000 ∅).
Proof. by vm_compute. Qed.

(** ** Statistics *)

Section Stats.
Context {T : Type}.
Implicit Types (c : Cache T) (l : list (CacheEntry T)).

Lemma count_entries now l v x :
  foldl (count_entry now) (v, x) l
  = ((v + length (filter (λ e, isValidCache now e = true) l))%nat,
     (x + length (filter (λ e, isValidCache now e = false) l))%nat).
Proof.
  revert v x. induction l as [|e l IH]; intros v x; simpl.
  - f_equal; lia.
  - unfold count_entry at 2. simpl.
    destruct (isValidCache now e) eqn:He; rewrite IH.
    + rewrite filter_cons_True by done. rewrite filter_cons_False by congruence.
      simpl. f_equal; lia.
    + rewrite filter_cons_False by congruence. rewrite filter_cons_True by done.
      simpl. f_equal; lia.
Qed.

Lemma getCacheStats_eq now c :
  getCacheStats now c
  = (mkStats
       (length (filter (λ e, isValidCache now e = true) (entries c))
        + length (filter (λ e, isValidCache now e = false) (entries c)))
       (length (filter (λ e, isValidCache now e = true) (entries c)))
       (length (filter (λ e, isValidCache now e = false) (entries c))),
     c).
Proof. unfold getCacheStats. by rewrite count_entries. Qed.

Lemma entries_delete c k e :
  c !! k = Some e → entries c ≡ₚ e :: entries (delete k c).
Proof.
  intros Hk. unfold entries.
  rewrite <- (insert_delete_id c k e Hk) at 1.
  rewrite map_to_list_insert by apply lookup_delete_eq. done.
Qed.

(** An expired entry is one of the [total] and one of the [expired]. *)
Lemma getCacheStats_expired_entry now c k e :
  c !! k = Some e → isValidCache now e = false →
  let s := (getCacheStats now c).1 in
  let s' := (getCacheStats now (delete k c)).1 in
  total s = S (total s') ∧ expired s = S (expired s') ∧ valid s = valid s'.
Proof.
  intros Hk He. rewrite !getCacheStats_eq. simpl.
  pose proof (entries_delete c k e Hk) as Hperm.
  rewrite !Hperm.
  rewrite filter_cons_False by congruence. rewrite filter_cons_True by done.
  simpl. lia.
Qed.

Lemma valid_expired_split now l :
  (length (filter (λ e, isValidCache now e = true) l)
   + length (filter (λ e, isValidCache now e = false) l))%nat = length l.
Proof.
  induction l as [|e l IH]; [done |].
  destruct (isValidCache now e) eqn:He.
  - rewrite filter_cons_True by done. rewrite filter_cons_False by congruence.
    simpl. lia.
  - rewrite filter_cons_False by congruence. rewrite filter_cons_True by done.
    simpl. lia.
Qed.

(** [total] is the number of entries in the store, expired ones included. *)
Lemma getCacheStats_total now c : total (getCacheStats now c).1 = size c.
Proof.
  rewrite getCacheStats_eq. simpl. rewrite valid_expired_split.
  unfold entries. rewrite length_fmap. apply length_map_to_list.
Qed.

End Stats.

(** ** C9: inspection does not change the store *)

(** C9.  [isCached] and [getCacheStats] hand the store back unchanged.  In
    particular an entry that has expired at [now] is still in the store after
    either call and is counted in [total] and in [expired].  It leaves the
    store with a later lookup of its key, with an invalidation whose pattern
    its key contains, or with a clear; and when one operation of the client
    removes it, that operation is a lookup of its key, an invalidation that
    selects its key, or a clear. *)
Theorem inspection_is_read_only {T} (now : Z) (method : string)
    (params : list JsArg) (c : Cache T) :
  (isCached now method params c).2 = c
  ∧ (getCacheStats now c).2 = c
  ∧ ∀ k e, c !! k = Some e → isValidCache now e = false →
      (isCached now method params c).2 !! k = Some e
      ∧ (getCacheStats now c).2 !! k = Some e
      ∧ total (getCacheStats now c).1
        = S (total (getCacheStats now (delete k c)).1)
      ∧ expired (getCacheStats now c).1
        = S (expired (getCacheStats now (delete k c)).1)
      ∧ (∀ now', now ≤ now' → (getFromCache now' k c).2 !! k = None)
      ∧ (∀ p, JsString.substring_of p k → invalidateCache p c !! k = None)
      ∧ clearCache c !! k = None
      ∧ (∀ op, run_op op c !! k = None →
           (∃ now', op = OpGet now' k)
           ∨ (∃ p, op = OpInvalidate p ∧ JsString.substring_of p k)
           ∨ (∃ pid, op = OpInvalidateProject pid
                     ∧ selected_by_project pid k = true)
           ∨ op = OpClear).
Proof.
  assert ((isCached now method params c).2 = c) as Hcached.
  { unfold isCached. by destruct (c !! getCacheKey method params). }
  assert (∀ t, (getCacheStats t c).2 = c) as Hstats.
  { intros t. by rewrite getCacheStats_eq. }
  split; [done |]. split; [done |].
  intros k e Hk He.
  rewrite Hcached, Hstats.
  destruct (getCacheStats_expired_entry now c k e Hk He) as (Htot & Hexp & _).
  repeat split; try done.
  - intros now' Hle.
    rewrite (getFromCache_expired now' k c e Hk); [apply lookup_delete_eq |].
    apply isValidCache_false. apply isValidCache_false in He. lia.
  - intros p Hp. rewrite lookup_invalidateCache.
    apply includes_spec in Hp. by rewrite Hp.
  - intros op Hop.
    destruct op as [now' k'|now' k' d ttl0|p|pid| |now' m ps|now']; simpl in Hop.
    + destruct (decide (k' = k)) as [->|Hne]; [left; eauto |].
      rewrite getFromCache_frame in Hop by done. congruence.
    + rewrite lookup_setCache in Hop. case_decide; congruence.
    + right; left. exists p. split; [done |].
      rewrite lookup_invalidateCache in Hop.
      destruct (JsString.includes k p) eqn:Hinc; [| congruence].
      by apply includes_spec.
    + right; right; left. exists pid. split; [done |].
      rewrite lookup_invalidateProjectCache in Hop.
      destruct (selected_by_project pid k); [done | congruence].
    + by repeat right.
    + assert ((isCached now' m ps c).2 = c) as Heq.
      { unfold isCached. by destruct (c !! getCacheKey m ps). }
      rewrite Heq in Hop. congruence.
    + rewrite Hstats in Hop. congruence.
Qed.

Example expired_entry_survives_inspection :
  let c : Cache nat := setCache 0 "getProjectStatus:p1" 7%nat 30000 ∅ in
  (isCached 40000 "getProjectStatus" [AStr "p1"] c) = (false, c)
  ∧ getCacheStats 40000 c = (mkStats 1 0 1, c)
  ∧ getFromCache 40000 "getProjectStatus:p1" c = (None, ∅).
Proof. by vm_compute. Qed.

(** ** C10: cache keys *)

(** C10.  [getCacheKey] is not injective: the method ["m"] with the one
    argument ["a:b"] and with the two arguments ["a"] and ["b"] are different
    calls with the same key ["m:a:b"], so an entry stored for the first is
    reported by [isCached] for the second, for as long as it is valid. *)
Theorem getCacheKey_not_injective :
  getCacheKey "m" [AStr "a:b"] = getCacheKey "m" [AStr "a"; AStr "b"]
  ∧ ("m", [AStr "a:b"]) ≠ ("m", [AStr "a"; AStr "b"])
  ∧ ¬ (∀ m1 p1 m2 p2,
         getCacheKey m1 p1 = getCacheKey m2 p2 → m1 = m2 ∧ p1 = p2)
  ∧ ∀ (T : Type) (v : T) (t ttl0 now : Z) (c : Cache T),
      (isCached now "m" [AStr "a"; AStr "b"]
         (setCache t (getCacheKey "m" [AStr "a:b"]) v ttl0 c)).1
      = bool_decide (now - t < ttl0).
Proof.
  assert (getCacheKey "m" [AStr "a:b"] = getCacheKey "m" [AStr "a"; AStr "b"])
    as Hkey by reflexivity.
  split; [done |]. split; [done |]. split.
  - intros Hinj. destruct (Hinj _ _ _ _ Hkey) as [_ Hp]. discriminate.
  - intros T v t ttl0 now c. unfold isCached. rewrite <- Hkey.
    rewrite lookup_setCache. by rewrite decide_True.
Qed.

(** A number and its decimal rendering alias as well. *)
Example getCacheKey_number_alias :
  getCacheKey "listProjects" [ANum (Integer 20 I); ANum (Integer 0 I)]
  = getCacheKey "listProjects" [AStr "20"; AStr "0"]
  ∧ getCacheKey "listProjects" [ANum (OtherNumber "1e+21"); ANum (Integer 0 I)]
    = "listProjects:1e+21:0".
Proof. split; reflexivity. Qed.

(** ** The API client *)

(** Unfolds the combinators of [Eff] in the goal. *)
Ltac run_eff :=
  unfold try_catch, try_finally, log_and_rethrow, throw, await, fetch,
    get_baseUrl, gets, modify, update_cache, on_cache, mbind, Eff_bind, mret,
    Eff_ret;
  simpl.

Section ClientFacts.
Context {V : Type} `{Payload V}.
Implicit Types (this : ApiClient V) (response : Response V).

(** How the error block of the JSON operations ends. *)
Lemma read_json_run response this :
  read_json response this =
    (if ok response then json response
     else match json response with
          | Returned errorData =>
              if is_null errorData
              then Thrown (null_property_error "detail")
              else Thrown (default (http_error_message response)
                             (detail errorData))
          | Thrown parse_error => Thrown parse_error
          end,
     this).
Proof.
  unfold read_json, property. destruct (ok response); simpl; [done |].
  run_eff. destruct (json response) as [errorData|]; [| done].
  by destruct (is_null errorData).
Qed.

(** How the error block of the download operations ends. *)
Lemma read_blob_run response this :
  read_blob response this =
    (if ok response then blob response
     else match json response with
          | Returned errorData =>
              if is_null errorData
              then Thrown (or_else (Some (statusText response))
                             (http_error_message response))
              else Thrown (default (http_error_message response)
                             (detail errorData))
          | Thrown _ =>
              Thrown (or_else (Some (statusText response))
                        (http_error_message response))
          end,
     this).
Proof.
  unfold read_blob, property. destruct (ok response); simpl; [done |].
  run_eff. destruct (json response) as [errorData|]; [| done].
  by destruct (is_null errorData).
Qed.

(** A value with a status is not [null]. *)
Lemma summary_not_null (v : V) s :
  ai_summary_status v = Some s → is_null v = false.
Proof.
  intros Hs. destruct (is_null v) eqn:Hnull; [| done].
  apply null_is_falsy in Hnull. apply summary_is_object in Hs. congruence.
Qed.

Lemma job_not_null (v : V) s : job_status v = Some s → is_null v = false.
Proof.
  intros Hs. destruct (is_null v) eqn:Hnull; [| done].
  apply null_is_falsy in Hnull. apply job_is_object in Hs. congruence.
Qed.

(** What [getTrainingSummary] stores is truthy. *)
Lemma summary_policy_stores_truthy t_store key (result : V) (c : Cache V) e :
  summary_policy t_store key result c !! key = Some e →
  c !! key ≠ Some e → is_truthy (data e) = true.
Proof.
  unfold summary_policy.
  repeat case_bool_decide; rewrite ?lookup_setCache, ?decide_True by done;
    try done; intros [= <-] _; simpl; by eapply summary_is_object.
Qed.

Lemma getTrainingSummary_hit t_lookup t_store pid tid net this e :
  cache this !! summary_key pid tid = Some e →
  isValidCache t_lookup e = true →
  getTrainingSummary t_lookup t_store pid tid net this
  = (Returned (data e), this).
Proof.
  intros Hk He. unfold getTrainingSummary. run_eff.
  fold (summary_key pid tid).
  rewrite (getFromCache_hit _ _ _ _ Hk He). by destruct this.
Qed.

Lemma getTrainingSummary_miss t_lookup t_store pid tid net this c' :
  getFromCache t_lookup (summary_key pid tid) (cache this) = (None, c') →
  getTrainingSummary t_lookup t_store pid tid net this
  = match net with
    | Thrown e =>
        (Thrown e,
         mkClient (baseUrl this) c'
           (requests this ++ [summary_url this pid tid]))
    | Returned response =>
        match (read_json response this).1 with
        | Returned result =>
            if is_null result then
              (Thrown (null_property_error "ai_summary_status"),
               mkClient (baseUrl this) c'
                 (requests this ++ [summary_url this pid tid]))
            else
              (Returned result,
               mkClient (baseUrl this)
                 (summary_policy t_store (summary_key pid tid) result c')
                 (requests this ++ [summary_url this pid tid]))
        | Thrown e =>
            (Thrown e,
             mkClient (baseUrl this) c'
               (requests this ++ [summary_url this pid tid]))
        end
    end.
Proof.
  intros Hget. unfold getTrainingSummary, property. run_eff.
  fold (summary_key pid tid). rewrite Hget.
  fold (summary_url this pid tid).
  destruct net as [response|e]; [| done].
  rewrite !read_json_run. simpl.
  destruct (if ok response then _ else _) as [result|e]; [| done].
  destruct (is_null result); simpl; [done |].
  unfold summary_policy.
  repeat case_bool_decide; done.
Qed.

End ClientFacts.

(** ** C3: caching of training summaries *)

Lemma getFromCache_None_delete {T} now k (c : Cache T) :
  (getFromCache now k c).1 = None →
  getFromCache now k c = (None, delete k c).
Proof.
  unfold getFromCache. destruct (c !! k) as [e|] eqn:Hk.
  - by destruct (isValidCache now e).
  - intros _. by rewrite delete_id.
Qed.

Lemma getFromCache_Some {T} now k (c : Cache T) v :
  (getFromCache now k c).1 = Some v →
  ∃ e, c !! k = Some e ∧ isValidCache now e = true ∧ v = data e.
Proof.
  unfold getFromCache. destruct (c !! k) as [e|] eqn:Hk; [| done].
  destruct (isValidCache now e) eqn:He; [| done].
  intros [= <-]. eauto.
Qed.

(** C3.  A call of [getTrainingSummary] that succeeds with [result] either
    was served from a valid cache entry, and then issued no request and left
    the client as it was; or it fetched [result], and then: when
    [ai_summary_status] is ['completed'] the result is stored under the key
    of the call with a ttl of 30 minutes, and every call with the same
    arguments less than 30 minutes after the store returns the same result
    without a request and without changing the client; when it is
    ['generating'] the result is stored with a ttl of 10 seconds, is served
    until then and is absent from 10 seconds after the store on; for any
    other status nothing is stored under the key.  No other key changes. *)
Theorem getTrainingSummary_caching {V} `{Payload V} (this this' : ApiClient V)
    (pid tid : string) (t_lookup t_store : Z) (net : Outcome (Response V))
    (result : V) :
  getTrainingSummary t_lookup t_store pid tid net this
    = (Returned result, this') →
  let key := summary_key pid tid in
  (∃ e, cache this !! key = Some e ∧ t_lookup - timestamp e < ttl e
        ∧ result = data e ∧ this' = this)
  ∨ ((getFromCache t_lookup key (cache this)).1 = None
     ∧ requests this' = requests this ++ [summary_url this pid tid]
     ∧ (∀ k, k ≠ key → cache this' !! k = cache this !! k)
     ∧ (ai_summary_status result = Some "completed" →
          cache this' !! key = Some (mkEntry result t_store (30 * 60 * 1000))
          ∧ ∀ t t' net',
              t - t_store < 30 * 60 * 1000 →
              getTrainingSummary t t' pid tid net' this'
              = (Returned result, this'))
     ∧ (ai_summary_status result = Some "generating" →
          cache this' !! key = Some (mkEntry result t_store (10 * 1000))
          ∧ (∀ t, t - t_store < 10 * 1000 →
                  (getFromCache t key (cache this')).1 = Some result)
          ∧ (∀ t, 10 * 1000 ≤ t - t_store →
                  (getFromCache t key (cache this')).1 = None))
     ∧ (ai_summary_status result ≠ Some "completed" →
        ai_summary_status result ≠ Some "generating" →
        cache this' !! key = None)).
Proof.
  intros Hrun key.
  destruct (getFromCache t_lookup key (cache this)).1 as [v|] eqn:Hget.
  - left. apply getFromCache_Some in Hget as (e & Hk & He & ->).
    rewrite (getTrainingSummary_hit _ _ _ _ _ _ _ Hk He) in Hrun.
    injection Hrun as <- <-. exists e.
    apply isValidCache_true in He. done.
  - right. split; [done |].
    pose proof (getFromCache_None_delete _ _ _ Hget) as Hmiss.
    rewrite (getTrainingSummary_miss _ _ _ _ _ _ _ Hmiss) in Hrun.
    destruct net as [response|e]; [| done].
    destruct (read_json response this).1 as [result'|e]; [| done].
    destruct (is_null result'); [done |].
    injection Hrun as -> <-. simpl. fold key.
    split; [done |]. split; [| split; [| split]].
    + intros k Hne. unfold summary_policy.
      repeat case_bool_decide; rewrite ?lookup_setCache, ?decide_False by done;
        by apply lookup_delete_ne.
    + intros Hst. unfold summary_policy.
      rewrite bool_decide_eq_true_2 by done.
      rewrite lookup_setCache, decide_True by done. split; [done |].
      intros t t' net' Hlt.
      apply (getTrainingSummary_hit _ _ _ _ _ _
               (mkEntry result t_store TRAINING_SUMMARY_TTL)).
      * simpl. fold key. by rewrite lookup_setCache, decide_True.
      * apply isValidCache_true. simpl. unfold TRAINING_SUMMARY_TTL. lia.
    + intros Hst. unfold summary_policy.
      rewrite bool_decide_eq_false_2 by congruence.
      rewrite bool_decide_eq_true_2 by done.
      assert (∀ c : Cache V,
                setCache t_store key result (10 * 1000) c !! key
                = Some (mkEntry result t_store (10 * 1000))) as Hlook.
      { intros c. by rewrite lookup_setCache, decide_True. }
      split; [done |]. split; intros t Ht.
      * rewrite (getFromCache_hit _ _ _ _ (Hlook _)); [done |].
        apply isValidCache_true. simpl. lia.
      * rewrite (getFromCache_expired _ _ _ _ (Hlook _)); [done |].
        apply isValidCache_false. simpl. lia.
    + intros Hc Hg. unfold summary_policy.
      rewrite !bool_decide_eq_false_2 by done. apply lookup_delete_eq.
Qed.

(** A completed summary fetched at clock reading 5 for project ["p1"] and
    training ["t1"]. *)
Lemma getTrainingSummary_caching_witness :
  let result := mkJson None (Some "completed") None "summary" in
  let this := mkClient "https://api" (∅ : Cache Json) [] in
  let this' :=
    mkClient "https://api"
      (setCache 5 (summary_key "p1" "t1") result TRAINING_SUMMARY_TTL ∅)
      ["https://api/projects/p1/train/t1/summary"] in
  (∃ e, cache this !! summary_key "p1" "t1" = Some e
        ∧ 0 - timestamp e < ttl e ∧ result = data e ∧ this' = this)
  ∨ ((getFromCache 0 (summary_key "p1" "t1") (cache this)).1 = None
     ∧ requests this' = requests this ++ [summary_url this "p1" "t1"]
     ∧ (∀ k, k ≠ summary_key "p1" "t1" → cache this' !! k = cache this !! k)
     ∧ (ai_summary_status result = Some "completed" →
          cache this' !! summary_key "p1" "t1"
          = Some (mkEntry result 5 (30 * 60 * 1000))
          ∧ ∀ t t' net',
              t - 5 < 30 * 60 * 1000 →
              getTrainingSummary t t' "p1" "t1" net' this'
              = (Returned result, this'))
     ∧ (ai_summary_status result = Some "generating" →
          cache this' !! summary_key "p1" "t1"
          = Some (mkEntry result 5 (10 * 1000))
          ∧ (∀ t, t - 5 < 10 * 1000 →
                  (getFromCache t (summary_key "p1" "t1") (cache this')).1
                  = Some result)
          ∧ (∀ t, 10 * 1000 ≤ t - 5 →
                  (getFromCache t (summary_key "p1" "t1") (cache this')).1
                  = None))
     ∧ (ai_summary_status result ≠ Some "completed" →
        ai_summary_status result ≠ Some "generating" →
        cache this' !! summary_key "p1" "t1" = None)).
Proof.
  intros result this this'.
  apply (getTrainingSummary_caching this this' "p1" "t1" 0 5
           (Returned (mkResponse true 200 "OK" (Returned result) (Thrown "")))
           result).
  vm_compute. reflexivity.
Defined.

(** ** C4: invalidation after a mutating call *)

Section Mutations.
Context {V : Type} `{Payload V}.
Implicit Types (this : ApiClient V).

(** The three operations that name a project end, when they succeed, with
    [this.invalidateProjectCache(projectId)] and change the cache in no
    other way. *)
Lemma uploadDataset_success pid net this result this' :
  uploadDataset pid net this = (Returned result, this') →
  cache this' = invalidateProjectCache (Some pid) (cache this).
Proof.
  unfold uploadDataset. run_eff.
  destruct net as [response|e]; [| simpl; intros Heq; discriminate].
  rewrite read_json_run.
  destruct (if ok response then _ else _); simpl; intros Heq;
    [by injection Heq as _ <- | discriminate].
Qed.

Lemma startTraining_success pid net this result this' :
  startTraining pid net this = (Returned result, this') →
  cache this' = invalidateProjectCache (Some pid) (cache this).
Proof.
  unfold startTraining. run_eff.
  destruct net as [response|e]; [| simpl; intros Heq; discriminate].
  rewrite read_json_run.
  destruct (if ok response then _ else _); simpl; intros Heq;
    [by injection Heq as _ <- | discriminate].
Qed.

Lemma deleteProject_success pid net this result this' :
  deleteProject pid net this = (Returned result, this') →
  cache this' = invalidateProjectCache (Some pid) (cache this).
Proof.
  unfold deleteProject. run_eff.
  destruct net as [response|e]; [| simpl; intros Heq; discriminate].
  rewrite read_json_run.
  destruct (if ok response then _ else _); simpl; intros Heq;
    [by injection Heq as _ <- | discriminate].
Qed.

(** A failed call leaves the cache alone. *)
Lemma uploadDataset_failure pid net this e this' :
  uploadDataset pid net this = (Thrown e, this') → cache this' = cache this.
Proof.
  unfold uploadDataset. run_eff.
  destruct net as [response|e']; [| by intros [= _ <-]].
  rewrite read_json_run.
  destruct (if ok response then _ else _); simpl; intros Heq;
    [discriminate | by injection Heq as _ <-].
Qed.

Lemma substring_of_own_key (method pid : string) :
  JsString.substring_of pid (getCacheKey method [AStr pid]).
Proof.
  exists (method +:+ ":"), "". unfold getCacheKey. simpl.
  rewrite append_empty_r. by rewrite append_assoc.
Qed.

End Mutations.

(** C4.  After a successful [uploadDataset], [startTraining] or
    [deleteProject] with a project id, the cache holds no entry whose key
    contains the id and every other entry is as it was: the cache is never
    cleared wholesale.  In particular the entry of [getProjectStatus] for
    that project is absent, whatever its remaining ttl.  The empty string is
    no project id: the guard [if (projectId)] takes it for a missing
    argument, and the call then removes the entries whose key contains
    ['listProjects'] or ['getProjectStatus'] and leaves every other entry as
    it was. *)
Theorem project_mutation_invalidates {V} `{Payload V} (projectId : string)
    (net : Outcome (Response V)) (this this' : ApiClient V) (result : V) :
  uploadDataset projectId net this = (Returned result, this')
  ∨ startTraining projectId net this = (Returned result, this')
  ∨ deleteProject projectId net this = (Returned result, this') →
  (projectId ≠ "" →
     removes_exactly_keys_with projectId (cache this) (cache this')
     ∧ ∀ now,
         getFromCache now (getCacheKey "getProjectStatus" [AStr projectId])
           (cache this')
         = (None, cache this'))
  ∧ (projectId = "" →
     ∀ k,
       (JsString.substring_of "listProjects" k
        ∨ JsString.substring_of "getProjectStatus" k →
        cache this' !! k = None)
       ∧ (¬ JsString.substring_of "listProjects" k →
          ¬ JsString.substring_of "getProjectStatus" k →
          cache this' !! k = cache this !! k)).
Proof.
  intros Hrun.
  assert (cache this' = invalidateProjectCache (Some projectId) (cache this))
    as Hcache.
  { destruct Hrun as [Hrun|[Hrun|Hrun]];
      eauto using uploadDataset_success, startTraining_success,
        deleteProject_success. }
  rewrite Hcache. split.
  - intros Hne. apply truthy_spec in Hne.
    assert (removes_exactly_keys_with projectId (cache this)
              (invalidateProjectCache (Some projectId) (cache this))) as Hex.
    { simpl. rewrite Hne. apply invalidateCache_removes_exactly. }
    split; [done |]. intros now. apply getFromCache_absent.
    apply Hex, substring_of_own_key.
  - intros ->. intros k. rewrite lookup_invalidateProjectCache. simpl.
    destruct (JsString.includes k "listProjects") eqn:Hl;
      destruct (JsString.includes k "getProjectStatus") eqn:Hs; simpl;
      try (split; [done |]; intros Hnl Hns;
           rewrite <- includes_spec in Hnl, Hns; congruence).
    split; [| done].
    intros [Hin|Hin]; apply includes_spec in Hin; congruence.
Qed.

(** [uploadDataset("p1", file, "text")] succeeds 5 seconds after the status
    of project ["p1"] was cached for 30 seconds. *)
Lemma project_mutation_invalidates_witness :
  let v := mkJson None None (Some "ready") "" in
  let this :=
    mkClient "https://api"
      (setCache 0 (getCacheKey "getProjectStatus" [AStr "p1"]) v 30000
         (setCache 0
            (getCacheKey "listProjects"
               [ANum (Integer 20 I); ANum (Integer 0 I)]) v 120000
            ∅)) [] in
  let this' :=
    mkClient "https://api"
      (setCache 0
         (getCacheKey "listProjects"
            [ANum (Integer 20 I); ANum (Integer 0 I)]) v 120000 ∅)
      ["https://api/projects/p1/upload-dataset/"] in
  ("p1" ≠ "" →
     removes_exactly_keys_with "p1" (cache this) (cache this')
     ∧ ∀ now,
         getFromCache now (getCacheKey "getProjectStatus" [AStr "p1"])
           (cache this')
         = (None, cache this'))
  ∧ ("p1" = "" →
     ∀ k,
       (JsString.substring_of "listProjects" k
        ∨ JsString.substring_of "getProjectStatus" k →
        cache this' !! k = None)
       ∧ (¬ JsString.substring_of "listProjects" k →
          ¬ JsString.substring_of "getProjectStatus" k →
          cache this' !! k = cache this !! k)).
Proof.
  intros v this this'.
  apply (project_mutation_invalidates "p1"
           (Returned (mkResponse true 200 "OK" (Returned v) (Thrown "")))
           this this' v).
  left. vm_compute. reflexivity.
Defined.

(** ** C8: error messages *)

Section Errors.
Context {V : Type} `{Payload V}.
Implicit Types (this : ApiClient V) (response : Response V).

(** A non-2xx response whose body parses to a value other than [null]: the
    message is the [detail] of the body when it is truthy, converted to a
    string, and the status fallback otherwise.  A body that parses to [null]
    makes the read of [errorData.detail] throw. *)
Lemma createProject_error_parsed response this errorData :
  ok response = false → json response = Returned errorData →
  (createProject (Returned response) this).1
  = if is_null errorData then Thrown (null_property_error "detail")
    else Thrown (default (http_error_message response) (detail errorData)).
Proof.
  intros Hok Hjson. unfold createProject. run_eff.
  rewrite read_json_run, Hok, Hjson. by destruct (is_null errorData).
Qed.

(** A non-2xx response whose body does not parse: the rejection of
    [response.json()] is what the JSON operations throw. *)
Lemma createProject_error_unparsed response this parse_error :
  ok response = false → json response = Thrown parse_error →
  (createProject (Returned response) this).1 = Thrown parse_error.
Proof.
  intros Hok Hjson. unfold createProject. run_eff.
  by rewrite read_json_run, Hok, Hjson.
Qed.

Lemma getTrainingStatus_error_unparsed pid tid response this parse_error :
  ok response = false → json response = Thrown parse_error →
  (getTrainingStatus pid tid (Returned response) this).1 = Thrown parse_error.
Proof.
  intros Hok Hjson. unfold getTrainingStatus. run_eff.
  by rewrite read_json_run, Hok, Hjson.
Qed.

(** The download operations: the [detail] of a body that parses, the status
    text (or, when that is empty, the status fallback) for one that does
    not, and also for one that parses to [null]. *)
Lemma downloadModelWeights_error pid tid response this :
  ok response = false →
  (downloadModelWeights pid tid (Returned response) this).1
  = match json response with
    | Returned errorData =>
        if is_null errorData
        then Thrown (or_else (Some (statusText response))
                       (http_error_message response))
        else Thrown (default (http_error_message response)
                       (detail errorData))
    | Thrown _ =>
        Thrown (or_else (Some (statusText response))
                  (http_error_message response))
    end.
Proof.
  intros Hok. unfold downloadModelWeights. run_eff.
  rewrite read_blob_run, Hok. destruct (json response) as [errorData|]; [| done].
  by destruct (is_null errorData).
Qed.

Lemma downloadProjectCode_error pid tid response this :
  ok response = false →
  (downloadProjectCode pid tid (Returned response) this).1
  = match json response with
    | Returned errorData =>
        if is_null errorData
        then Thrown (or_else (Some (statusText response))
                       (http_error_message response))
        else Thrown (default (http_error_message response)
                       (detail errorData))
    | Thrown _ =>
        Thrown (or_else (Some (statusText response))
                  (http_error_message response))
    end.
Proof.
  intros Hok. unfold downloadProjectCode. run_eff.
  rewrite read_blob_run, Hok. destruct (json response) as [errorData|]; [| done].
  by destruct (is_null errorData).
Qed.

End Errors.

(** C8 at a 502 response with an HTML body.  [createProject] throws the
    parse error of [response.json()], which is neither a [detail] of the
    server nor the status fallback ["HTTP error! status: 502"]; the download
    operations throw the status text of the same response. *)
Theorem createProject_unparsable_error_body (this : ApiClient Json) :
  let parse_error := "Unexpected token < in JSON at position 0" in
  let response :=
    mkResponse false 502 "Bad Gateway" (Thrown parse_error) (Thrown "") in
  (createProject (Returned response) this).1 = Thrown parse_error
  ∧ http_error_message response = "HTTP error! status: 502"
  ∧ (downloadModelWeights "p1" "t1" (Returned response) this).1
    = Thrown "Bad Gateway"
  ∧ (downloadProjectCode "p1" "t1" (Returned response) this).1
    = Thrown "Bad Gateway".
Proof.
  intros parse_error response.
  split; [by apply createProject_error_unparsed |].
  split; [reflexivity |].
  split.
  - by rewrite downloadModelWeights_error.
  - by rewrite downloadProjectCode_error.
Qed.

(** ** The training monitor *)

Ltac run_page :=
  unfold Monitor.setTimeout, Monitor.set_timers, Monitor.set_runs,
    Monitor.set_locals, Monitor.closure_of, Monitor.locals_of,
    Monitor.setTrainingData, Monitor.setLogs, Monitor.setIsLoading,
    Monitor.setError, Monitor.call_api, property;
  run_eff.

Section MonitorFacts.
Import Monitor.
Context {V : Type} `{Payload V}.
Implicit Types (p : Page V) (c : Closure) (l : Locals).

Lemma getTrainingStatus_run pid tid net (this : ApiClient V) :
  getTrainingStatus pid tid net this
  = (match net with
     | Returned response => (read_json response this).1
     | Thrown e => Thrown e
     end,
     mkClient (baseUrl this) (cache this)
       (requests this ++
          [baseUrl this +:+ "/projects/" +:+ pid +:+ "/train/" +:+ tid
             +:+ "/status"])).
Proof.
  unfold getTrainingStatus. run_eff. destruct net as [response|e]; [| done].
  rewrite !read_json_run. simpl. by destruct (if ok response then _ else _).
Qed.

Lemma getTrainingLogs_run pid tid lastN net (this : ApiClient V) :
  getTrainingLogs pid tid lastN net this
  = (match net with
     | Returned response => (read_json response this).1
     | Thrown e => Thrown e
     end,
     mkClient (baseUrl this) (cache this)
       (requests this ++
          [baseUrl this +:+ "/projects/" +:+ pid +:+ "/train/" +:+ tid
             +:+ "/logs?last_n=" +:+ number_to_string lastN])).
Proof.
  unfold getTrainingLogs. run_eff. destruct net as [response|e]; [| done].
  rewrite !read_json_run. simpl. by destruct (if ok response then _ else _).
Qed.

(** [fetchTrainingStatus] catches whatever the request throws: it always
    returns normally, having issued one request. *)
Lemma fetchTrainingStatus_run r net p c l :
  runs p !! r = Some (c, l) →
  ∃ p', fetchTrainingStatus r net p = (Returned tt, p')
        ∧ timers p' = timers p ∧ runs p' = runs p
        ∧ requests (api p')
          = requests (api p) ++
              [baseUrl (api p) +:+ "/projects/" +:+ c_projectId c
                 +:+ "/train/" +:+ c_trainingId c +:+ "/status"].
Proof.
  intros Hr. unfold fetchTrainingStatus. run_page. rewrite Hr. simpl.
  rewrite getTrainingStatus_run. simpl.
  destruct (match net with Returned _ => _ | Thrown _ => _ end); simpl;
    eauto 10.
Qed.

(** So does [fetchTrainingLogs]. *)
Lemma fetchTrainingLogs_run r net p c l :
  runs p !! r = Some (c, l) →
  ∃ p' scroll, fetchTrainingLogs r net p = (Returned tt, p')
        ∧ timers p' = timers p ++ scroll ∧ runs p' = runs p
        ∧ requests (api p')
          = requests (api p) ++
              [baseUrl (api p) +:+ "/projects/" +:+ c_projectId c
                 +:+ "/train/" +:+ c_trainingId c +:+ "/logs?last_n=500"].
Proof.
  intros Hr. unfold fetchTrainingLogs. run_page. rewrite Hr. simpl.
  rewrite getTrainingLogs_run. simpl.
  destruct (match net with Returned _ => _ | Thrown _ => _ end)
    as [logResponse|e]; simpl.
  - destruct (is_null logResponse); simpl;
      [eexists _, []; rewrite app_nil_r; by eauto 10 |].
    destruct (c_isAutoScroll c); simpl.
    + eexists _, [_]. eauto 10.
    + eexists _, []. rewrite app_nil_r. eauto 10.
  - eexists _, []. rewrite app_nil_r. eauto 10.
Qed.

(** A status tick of a run that closed over a mounted page with an active
    status issues a request and schedules the next tick, whatever the
    request returns and whatever the state of the page is by now. *)
Lemma statusTick_polling r net p c l :
  runs p !! r = Some (c, l) → c_isMounted c = true → active c = true →
  ∃ p', statusTick r net p = (Returned tt, p')
        ∧ timers p' = timers p ++ [mkTimer (statusPollInterval l) StatusTick r]
        ∧ runs p' = runs p
        ∧ requests (api p')
          = requests (api p) ++
              [baseUrl (api p) +:+ "/projects/" +:+ c_projectId c
                 +:+ "/train/" +:+ c_trainingId c +:+ "/status"].
Proof.
  intros Hr Hm Ha.
  destruct (fetchTrainingStatus_run r net p c l Hr)
    as (p1 & Hf & Ht & Hrs & Hq).
  unfold statusTick, scheduleStatusFetch. run_page.
  rewrite Hr. simpl. rewrite Hm. simpl. rewrite Hf. simpl.
  rewrite Hrs, Hr. simpl. rewrite Hm, Ha. simpl. rewrite Hrs, Hr. simpl.
  eexists. split; [done |]. simpl. by rewrite Ht.
Qed.

(** A log tick does the same, and the interval of the run stays what it
    was: the handler that multiplies it is never entered. *)
Lemma logTick_polling r net p c l :
  runs p !! r = Some (c, l) → c_isMounted c = true → active c = true →
  ∃ p' scroll,
    logTick r net p = (Returned tt, p')
    ∧ timers p'
      = timers p ++ scroll ++ [mkTimer (logPollInterval l) LogTick r]
    ∧ runs p'
      = <[r := (c, mkLocals (logPollInterval l) (statusPollInterval l) 0)]>
          (runs p)
    ∧ requests (api p')
      = requests (api p) ++
          [baseUrl (api p) +:+ "/projects/" +:+ c_projectId c
             +:+ "/train/" +:+ c_trainingId c +:+ "/logs?last_n=500"].
Proof.
  intros Hr Hm Ha.
  destruct (fetchTrainingLogs_run r net p c l Hr)
    as (p1 & scroll & Hf & Ht & Hrs & Hq).
  assert (r < length (runs p))%nat as Hlt by (by eapply lookup_lt_Some).
  unfold logTick, scheduleLogFetch. run_page.
  rewrite Hr. simpl. rewrite Hm. simpl. rewrite Hf. simpl.
  destruct p1 as [pid1 tid1 td1 lg1 ld1 er1 as1 im1 at1 rs1 ts1 api1].
  simpl in *. subst rs1 ts1.
  rewrite Hr. run_page. rewrite Hr. simpl.
  rewrite !list_lookup_insert_eq by done. simpl. rewrite Hm, Ha. simpl.
  rewrite !list_lookup_insert_eq by done. simpl.
  eexists _, scroll. split; [done |]. simpl.
  by rewrite <- app_assoc.
Qed.

End MonitorFacts.

(** Runs the effects of the page, using [Hr] for the lookups of a run. *)
Ltac crunch Hr :=
  repeat (progress run_page || rewrite Hr || rewrite getTrainingStatus_run
          || rewrite getTrainingLogs_run).

(** ** C5, C6, C7: the pollers of the training monitor *)

(** A timer callback belongs to the run of the effect that created it and
    reads [trainingData] and [isMounted] as that run closed over them.  The
    callbacks of a run that saw a mounted page with status ['running'] or
    ['queued'] therefore pass both guards for ever. *)

Section MonitorLoops.
Import Monitor.
Context {V : Type} `{Payload V}.
Implicit Types (p : Page V) (c : Closure) (l : Locals).

(** The status timer of such a run, pending last: its expiry issues one
    request and leaves the same timers pending, whatever the request
    returns. *)
Lemma fire_last_status_timer net p ts d r c l :
  timers p = ts ++ [mkTimer d StatusTick r] →
  runs p !! r = Some (c, l) → c_isMounted c = true → active c = true →
  statusPollInterval l = d →
  let p' := (step (Fire (length ts) net) p).2 in
  timers p' = timers p ∧ runs p' = runs p
  ∧ requests (api p')
    = requests (api p) ++ [poll_url c (baseUrl (api p)) "/status"]
  ∧ same_page p p'.
Proof.
  intros Hts Hr Hm Ha Hd. cbv zeta.
  unfold step, statusTick, scheduleStatusFetch, fetchTrainingStatus.
  run_page. rewrite Hts, list_lookup_middle by done. simpl.
  unfold drop_timer. rewrite take_app_length.
  rewrite drop_ge by (rewrite length_app; simpl; lia).
  crunch Hr. rewrite Hm. crunch Hr.
  destruct (match net with Returned _ => _ | Thrown _ => _ end);
    crunch Hr; rewrite ?Hm, ?Ha; crunch Hr; rewrite ?Hm, ?Ha; crunch Hr;
    rewrite ?Hd, ?app_nil_r; done.
Qed.

Lemma fire_status_repeatedly replies p ts d r c l :
  timers p = ts ++ [mkTimer d StatusTick r] →
  runs p !! r = Some (c, l) → c_isMounted c = true → active c = true →
  statusPollInterval l = d →
  let p' := steps (Fire (length ts) <$> replies) p in
  timers p' = timers p ∧ runs p' = runs p
  ∧ requests (api p')
    = requests (api p)
        ++ replicate (length replies) (poll_url c (baseUrl (api p)) "/status")
  ∧ same_page p p'.
Proof.
  intros Hts Hr Hm Ha Hd. cbv zeta. revert p Hts Hr.
  induction replies as [|net replies IH]; intros p Hts Hr.
  - simpl. by rewrite app_nil_r.
  - destruct (fire_last_status_timer net p ts d r c l Hts Hr Hm Ha Hd)
      as (Hts1 & Hr1 & Hq1 & Hb1 & Hc1 & Hm1 & Ha1).
    cbn [fmap list_fmap steps].
    match goal with |- context [steps _ ?q] => set (p1 := q) in * end.
    destruct (IH p1) as (Hts2 & Hr2 & Hq2 & Hb2 & Hc2 & Hm2 & Ha2);
      [by rewrite Hts1 | by rewrite Hr1 |].
    split; [by rewrite Hts2 |]. split; [by rewrite Hr2 |].
    split; [| unfold same_page; by rewrite Hb2, Hc2, Hm2, Ha2].
    rewrite Hq2, Hq1, Hb1, <- app_assoc. done.
Qed.

(** A log timer whose request fails. *)
Lemma fire_last_log_timer_failure e p ts d r c l :
  timers p = ts ++ [mkTimer d LogTick r] →
  runs p !! r = Some (c, l) → c_isMounted c = true → active c = true →
  logPollInterval l = d → failureCount l = 0%nat →
  let p' := (step (Fire (length ts) (Thrown e)) p).2 in
  timers p' = timers p ∧ runs p' = runs p
  ∧ requests (api p')
    = requests (api p) ++ [poll_url c (baseUrl (api p)) "/logs?last_n=500"]
  ∧ same_page p p'.
Proof.
  intros Hts Hr Hm Ha Hd Hf. cbv zeta.
  assert (r < length (runs p))%nat as Hlt by (by eapply lookup_lt_Some).
  assert (<[r := (c, mkLocals (logPollInterval l) (statusPollInterval l) 0)]>
            (runs p) = runs p) as Hid.
  { apply list_insert_id. rewrite Hr. destruct l. simpl in *. by subst. }
  unfold step, logTick, scheduleLogFetch, fetchTrainingLogs.
  run_page. rewrite Hts, list_lookup_middle by done. simpl.
  unfold drop_timer. rewrite take_app_length.
  rewrite drop_ge by (rewrite length_app; simpl; lia).
  crunch Hr. rewrite Hm. crunch Hr.
  rewrite ?list_lookup_insert_eq by done. crunch Hr.
  rewrite ?Hm, ?Ha. crunch Hr.
  rewrite ?list_lookup_insert_eq by done. crunch Hr.
  rewrite ?Hid, ?Hd, ?app_nil_r. done.
Qed.

Lemma fire_log_failing_repeatedly (n : nat) e p ts d r c l :
  timers p = ts ++ [mkTimer d LogTick r] →
  runs p !! r = Some (c, l) → c_isMounted c = true → active c = true →
  logPollInterval l = d → failureCount l = 0%nat →
  let p' := steps (replicate n (Fire (length ts) (Thrown e))) p in
  timers p' = timers p ∧ runs p' = runs p
  ∧ requests (api p')
    = requests (api p)
        ++ replicate n (poll_url c (baseUrl (api p)) "/logs?last_n=500")
  ∧ same_page p p'.
Proof.
  intros Hts Hr Hm Ha Hd Hf. cbv zeta. revert p Hts Hr.
  induction n as [|n IH]; intros p Hts Hr.
  - simpl. by rewrite app_nil_r.
  - destruct (fire_last_log_timer_failure e p ts d r c l Hts Hr Hm Ha Hd Hf)
      as (Hts1 & Hr1 & Hq1 & Hb1 & Hc1 & Hm1 & Ha1).
    cbn [replicate steps].
    match goal with |- context [steps _ ?q] => set (p1 := q) in * end.
    destruct (IH p1) as (Hts2 & Hr2 & Hq2 & Hb2 & Hc2 & Hm2 & Ha2);
      [by rewrite Hts1 | by rewrite Hr1 |].
    split; [by rewrite Hts2 |]. split; [by rewrite Hr2 |].
    split; [| unfold same_page; by rewrite Hb2, Hc2, Hm2, Ha2].
    rewrite Hq2, Hq1, Hb1, <- app_assoc. done.
Qed.

Lemma requests_to_replicate url (qs : list string) (n : nat) p :
  requests (api p) = qs ++ replicate n url →
  requests_to url p = (length (filter (λ u, u = url) qs) + n)%nat.
Proof.
  intros Hq. unfold requests_to. rewrite Hq, filter_app, length_app. f_equal.
  clear Hq. induction n as [|n IH]; [done |]. cbn [replicate].
  rewrite filter_cons_True by done. simpl. by rewrite IH.
Qed.

Lemma pending_eq t p p' : timers p' = timers p → pending t p' = pending t p.
Proof. unfold pending. by intros ->. Qed.

End MonitorLoops.

(** C5.  The scenario of the specification on the monitor of training
    ["t1"]: [getTrainingStatus] answers ['running'] to the first run of the
    effect, ['running'] to the second, which arms the status timer, and
    ['completed'] when that timer expires.  At that point three status
    requests have been issued and the page shows ['completed'], yet a status
    timer is pending again.  React renders the new status, which runs the
    effect once more (a fourth request); from then on every expiry of the
    status timer, whatever it is answered, issues one more request and
    leaves the timer pending: after [n] further expiries the count is
    [5 + n], not 3. *)
Theorem status_poll_survives_completed
    (replies : list (Outcome (Response Json))) :
  let url := "https://api/projects/p1/train/t1/status" in
  let observed :=
    (Monitor.step (Monitor.Fire 3 (status_reply "completed")) polling_page).2 in
  let rerendered :=
    Monitor.steps
      [Monitor.Render (status_reply "completed") logs_reply;
       Monitor.Fire 3 (status_reply "completed")] observed in
  let later := Monitor.steps (Monitor.Fire 4 <$> replies) rerendered in
  Monitor.requests_to url observed = 3%nat
  ∧ (v ← Monitor.trainingData observed; job_status v) = Some "completed"
  ∧ Monitor.pending Monitor.StatusTick observed = 1%nat
  ∧ Monitor.requests_to url later = (5 + length replies)%nat
  ∧ Monitor.pending Monitor.StatusTick later = 1%nat.
Proof.
  intros url observed rerendered later.
  split; [by vm_compute |]. split; [by vm_compute |].
  split; [by vm_compute |].
  set (c := Monitor.mkClosure "p1" "t1" (Some "running") true true).
  set (ts := [Monitor.mkTimer 100 Monitor.ScrollTick 0;
              Monitor.mkTimer 100 Monitor.ScrollTick 1;
              Monitor.mkTimer 3000 Monitor.LogTick 1;
              Monitor.mkTimer 100 Monitor.ScrollTick 2]).
  assert (Monitor.timers rerendered
          = ts ++ [Monitor.mkTimer 8000 Monitor.StatusTick 1]) as Hts
    by (by vm_compute).
  assert (Monitor.runs rerendered !! 1%nat = Some (c, Monitor.initial_locals))
    as Hr by (by vm_compute).
  destruct (fire_status_repeatedly replies rerendered ts 8000 1 c
              Monitor.initial_locals Hts Hr eq_refl eq_refl eq_refl)
    as (Hts' & _ & Hq & _).
  change (length ts) with 4%nat in Hts', Hq. fold later in Hts', Hq.
  assert (Monitor.poll_url c (baseUrl (Monitor.api rerendered)) "/status" = url)
    as Hurl by (by vm_compute).
  rewrite Hurl in Hq.
  split.
  - rewrite (requests_to_replicate _ _ _ _ Hq). by vm_compute.
  - rewrite (pending_eq _ _ _ Hts'). by vm_compute.
Qed.

(** C6.  The log timer of the monitor of training ["t1"] expires [n + 1]
    times in a row while the network is down.  Every one of these expiries
    issues a request, and after them the one pending log timer has the delay
    it started with, 3000 ms: the intervals and the failure count of every
    run are what they were before the first failure.  The same holds of the
    status timer and its 8000 ms after [n] failures.  The handlers that
    multiply the intervals by 1.5 and 1.2 are not entered, because
    [fetchTrainingLogs] and [fetchTrainingStatus] catch the error
    themselves. *)
Theorem log_poll_never_backs_off (n : nat) :
  let failing :=
    Monitor.steps
      (Monitor.Fire 2 network_failure
         :: replicate n (Monitor.Fire 3 network_failure)) polling_page in
  let failing_status :=
    Monitor.steps (replicate n (Monitor.Fire 3 network_failure)) polling_page in
  filter (λ x, Monitor.task x = Monitor.LogTick) (Monitor.timers failing)
  = [Monitor.mkTimer 3000 Monitor.LogTick 1]
  ∧ Monitor.runs failing = Monitor.runs polling_page
  ∧ Monitor.requests_to "https://api/projects/p1/train/t1/logs?last_n=500"
      failing = (3 + n)%nat
  ∧ filter (λ x, Monitor.task x = Monitor.StatusTick)
      (Monitor.timers failing_status)
    = [Monitor.mkTimer 8000 Monitor.StatusTick 1]
  ∧ Monitor.runs failing_status = Monitor.runs polling_page
  ∧ Monitor.requests_to "https://api/projects/p1/train/t1/status"
      failing_status = (2 + n)%nat.
Proof.
  intros failing failing_status.
  set (c := Monitor.mkClosure "p1" "t1" (Some "running") true true).
  set (first := (Monitor.step (Monitor.Fire 2 network_failure) polling_page).2).
  set (ts := [Monitor.mkTimer 100 Monitor.ScrollTick 0;
              Monitor.mkTimer 100 Monitor.ScrollTick 1;
              Monitor.mkTimer 8000 Monitor.StatusTick 1]).
  assert (Monitor.timers first = ts ++ [Monitor.mkTimer 3000 Monitor.LogTick 1])
    as Hts by (by vm_compute).
  assert (Monitor.runs first !! 1%nat = Some (c, Monitor.initial_locals))
    as Hr by (by vm_compute).
  destruct (fire_log_failing_repeatedly n "Failed to fetch" first ts 3000 1 c
              Monitor.initial_locals Hts Hr eq_refl eq_refl eq_refl eq_refl)
    as (Hts' & Hrs' & Hq & _).
  change (length ts) with 3%nat in Hts', Hrs', Hq.
  change (Monitor.steps _ first) with failing in Hts', Hrs', Hq.
  assert (Monitor.poll_url c (baseUrl (Monitor.api first)) "/logs?last_n=500"
          = "https://api/projects/p1/train/t1/logs?last_n=500")
    as Hurl by (by vm_compute).
  rewrite Hurl in Hq.
  set (ts2 := [Monitor.mkTimer 100 Monitor.ScrollTick 0;
               Monitor.mkTimer 100 Monitor.ScrollTick 1;
               Monitor.mkTimer 3000 Monitor.LogTick 1]).
  assert (Monitor.timers polling_page
          = ts2 ++ [Monitor.mkTimer 8000 Monitor.StatusTick 1])
    as Hts2 by (by vm_compute).
  assert (Monitor.runs polling_page !! 1%nat = Some (c, Monitor.initial_locals))
    as Hr2 by (by vm_compute).
  destruct (fire_status_repeatedly (replicate n network_failure) polling_page
              ts2 8000 1 c Monitor.initial_locals Hts2 Hr2 eq_refl eq_refl
              eq_refl)
    as (Hts2' & Hrs2' & Hq2 & _).
  rewrite fmap_replicate, length_replicate in *.
  change (length ts2) with 3%nat in Hts2', Hrs2', Hq2.
  fold failing_status in Hts2', Hrs2', Hq2.
  assert (Monitor.poll_url c (baseUrl (Monitor.api polling_page)) "/status"
          = "https://api/projects/p1/train/t1/status")
    as Hurl2 by (by vm_compute).
  rewrite Hurl2 in Hq2.
  split; [by rewrite Hts', Hts |].
  split; [rewrite Hrs'; by vm_compute |].
  split; [rewrite (requests_to_replicate _ _ _ _ Hq); by vm_compute |].
  split; [by rewrite Hts2', Hts2 |].
  split; [done |].
  rewrite (requests_to_replicate _ _ _ _ Hq2). by vm_compute.
Qed.

(** C7.  The monitor of training ["t1"] is unmounted while its log and
    status timers are pending.  The cleanup sets [isMounted] to false and
    cancels nothing; every later expiry of the status timer, whatever it is
    answered, issues one more request and leaves both timers pending. *)
Theorem polls_survive_unmount (replies : list (Outcome (Response Json))) :
  let unmounted := (Monitor.step Monitor.Unmount polling_page).2 in
  let later := Monitor.steps (Monitor.Fire 3 <$> replies) unmounted in
  Monitor.isMounted unmounted = false
  ∧ Monitor.timers unmounted = Monitor.timers polling_page
  ∧ Monitor.isMounted later = false
  ∧ Monitor.requests_to "https://api/projects/p1/train/t1/status" later
    = (Monitor.requests_to "https://api/projects/p1/train/t1/status" unmounted
       + length replies)%nat
  ∧ Monitor.pending Monitor.StatusTick later = 1%nat
  ∧ Monitor.pending Monitor.LogTick later = 1%nat.
Proof.
  intros unmounted later.
  set (c := Monitor.mkClosure "p1" "t1" (Some "running") true true).
  set (ts := [Monitor.mkTimer 100 Monitor.ScrollTick 0;
              Monitor.mkTimer 100 Monitor.ScrollTick 1;
              Monitor.mkTimer 3000 Monitor.LogTick 1]).
  assert (Monitor.timers unmounted
          = ts ++ [Monitor.mkTimer 8000 Monitor.StatusTick 1])
    as Hts by (by vm_compute).
  assert (Monitor.runs unmounted !! 1%nat = Some (c, Monitor.initial_locals))
    as Hr by (by vm_compute).
  destruct (fire_status_repeatedly replies unmounted ts 8000 1 c
              Monitor.initial_locals Hts Hr eq_refl eq_refl eq_refl)
    as (Hts' & _ & Hq & _ & _ & Hm & _).
  change (length ts) with 3%nat in Hts', Hq, Hm.
  fold later in Hts', Hq, Hm.
  assert (Monitor.poll_url c (baseUrl (Monitor.api unmounted)) "/status"
          = "https://api/projects/p1/train/t1/status")
    as Hurl by (by vm_compute).
  rewrite Hurl in Hq.
  split; [by vm_compute |]. split; [by vm_compute |].
  split; [by rewrite Hm |].
  split; [rewrite (requests_to_replicate _ _ _ _ Hq); by vm_compute |].
  split; rewrite (pending_eq _ _ _ Hts'); by vm_compute.
Qed.

(* ===================================================================== *)
(** * Part III: further properties of the code                             *)
(* ===================================================================== *)

(** ** The store: round trips and composition *)

Lemma substring_of_trans (a b c : string) :
  JsString.substring_of a b → JsString.substring_of b c →
  JsString.substring_of a c.
Proof.
  intros (x & y & ->) (u & v & ->). exists (u +:+ x), (y +:+ v).
  by rewrite !append_assoc.
Qed.

(** A lookup right after a [setCache] of the same key: the value while the
    entry is valid; once [now - t] reaches the ttl the lookup returns
    nothing and the key is gone from the store, whatever was stored under it
    before the [setCache].  With a ttl of zero or less no lookup at or after
    the time of the store serves the value; a lookup at an earlier clock
    reading (the clock was set back) serves it while [now - t < ttl]. *)
Theorem setCache_then_getFromCache {T} (t now : Z) (k : string) (v : T)
    (ttl0 : Z) (c : Cache T) :
  getFromCache now k (setCache t k v ttl0 c)
  = (if bool_decide (now - t < ttl0)
     then (Some v, setCache t k v ttl0 c)
     else (None, delete k c))
  ∧ (ttl0 ≤ 0 → t ≤ now →
     getFromCache now k (setCache t k v ttl0 c) = (None, delete k c))
  ∧ (now - t < ttl0 →
     getFromCache now k (setCache t k v ttl0 c)
     = (Some v, setCache t k v ttl0 c)).
Proof.
  assert (getFromCache now k (setCache t k v ttl0 c)
          = if bool_decide (now - t < ttl0)
            then (Some v, setCache t k v ttl0 c)
            else (None, delete k c)) as Hget.
  { unfold getFromCache. rewrite lookup_setCache, decide_True by done.
    unfold isValidCache. simpl. case_bool_decide; [done |].
    unfold setCache. by rewrite delete_insert_eq. }
  split; [done |]. rewrite Hget. split.
  - intros Httl Hnow. rewrite bool_decide_eq_false_2; [done | lia].
  - intros Hlt. by rewrite bool_decide_eq_true_2.
Qed.

(** A ttl of zero read before the time of the store. *)
Example zero_ttl_served_before_store :
  getFromCache 4000 "a" (setCache 5000 "a" 1%nat 0 ∅)
  = (Some 1%nat, setCache 5000 "a" 1%nat 0 ∅).
Proof. by vm_compute. Qed.

(** Every key contains the empty string: [invalidateCache("")] empties the
    store, like [clearCache]. *)
Theorem invalidateCache_empty_pattern {T} (c : Cache T) :
  invalidateCache "" c = clearCache c.
Proof.
  apply map_eq. intros k.
  by rewrite lookup_invalidateCache, includes_empty, lookup_clearCache.
Qed.

(** Invalidations compose: a repeated one changes nothing, two commute, and
    after an invalidation by [p] one by a pattern that contains [p] finds
    nothing left to remove. *)
Theorem invalidateCache_compose {T} (p q : string) (c : Cache T) :
  invalidateCache p (invalidateCache p c) = invalidateCache p c
  ∧ invalidateCache p (invalidateCache q c)
    = invalidateCache q (invalidateCache p c)
  ∧ (JsString.substring_of p q →
     invalidateCache q (invalidateCache p c) = invalidateCache p c).
Proof.
  split; [| split].
  - apply map_eq. intros k. rewrite !lookup_invalidateCache.
    by destruct (JsString.includes k p).
  - apply map_eq. intros k. rewrite !lookup_invalidateCache.
    by destruct (JsString.includes k p), (JsString.includes k q).
  - intros Hpq. apply map_eq. intros k. rewrite !lookup_invalidateCache.
    destruct (JsString.includes k q) eqn:Hq; [| done].
    apply includes_spec in Hq.
    pose proof (substring_of_trans _ _ _ Hpq Hq) as Hp.
    apply includes_spec in Hp. by rewrite Hp.
Qed.

(** [isCached] answers what a lookup of the same key at the same instant
    would find, without the deletion a lookup does. *)
Theorem isCached_iff_lookup_hits {T} (now : Z) (method : string)
    (params : list JsArg) (c : Cache T) :
  (isCached now method params c).1
  = bool_decide (is_Some (getFromCache now (getCacheKey method params) c).1).
Proof.
  unfold isCached, getFromCache.
  destruct (c !! getCacheKey method params) as [e|];
    [destruct (isValidCache now e) |]; reflexivity.
Qed.

Lemma entries_insert {T} (c : Cache T) k e :
  c !! k = None → entries (<[k := e]> c) ≡ₚ e :: entries c.
Proof. intros Hk. unfold entries. by rewrite map_to_list_insert. Qed.

(** The statistics: [total] is the number of entries in the store, every
    entry is counted once as valid or as expired, and [valid] is the number
    of entries a lookup at [now] would serve. *)
Theorem getCacheStats_counts {T} (now : Z) (c : Cache T) :
  let s := (getCacheStats now c).1 in
  total s = size c
  ∧ (valid s + expired s)%nat = total s
  ∧ valid s = size (filter (λ kv, isValidCache now kv.2 = true) c).
Proof.
  simpl. rewrite getCacheStats_eq. simpl.
  split; [| split; [done |]].
  - rewrite valid_expired_split. unfold entries.
    rewrite length_fmap. apply length_map_to_list.
  - induction c as [|k e c Hk _ IH] using map_first_key_ind.
    + by rewrite map_filter_empty.
    + rewrite (entries_insert c k e Hk).
      destruct (isValidCache now e) eqn:He.
      * rewrite filter_cons_True by done.
        rewrite map_filter_insert_True by done.
        rewrite map_size_insert_None
          by (apply map_lookup_filter_None; by left).
        simpl. by rewrite IH.
      * rewrite filter_cons_False by congruence.
        rewrite map_filter_insert_False by (simpl; congruence).
        by rewrite delete_id.
Qed.

(** ** The client: cached reads *)

Section CachedReads.
Context {V : Type} `{Payload V}.
Implicit Types (this : ApiClient V).

(** A cached read step by step: the lookup, the test [if (cached)], and on
    the other branch the request and the store. *)
Lemma cached_read_run key path ttl0 t_lookup t_store net this :
  cached_read key path ttl0 t_lookup t_store net this
  = let c' := (getFromCache t_lookup key (cache this)).2 in
    let url := baseUrl this +:+ path in
    match if_truthy (getFromCache t_lookup key (cache this)).1 with
    | Some v => (Returned v, mkClient (baseUrl this) c' (requests this))
    | None =>
        match net with
        | Thrown e =>
            (Thrown e, mkClient (baseUrl this) c' (requests this ++ [url]))
        | Returned response =>
            match (read_json response this).1 with
            | Returned result =>
                (Returned result,
                 mkClient (baseUrl this) (setCache t_store key result ttl0 c')
                   (requests this ++ [url]))
            | Thrown e =>
                (Thrown e,
                 mkClient (baseUrl this) c' (requests this ++ [url]))
            end
        end
    end.
Proof.
  unfold cached_read. run_eff.
  destruct (getFromCache t_lookup key (cache this)) as [cached c']. simpl.
  destruct (if_truthy cached); [done |].
  destruct net as [response|e]; [| done].
  rewrite !read_json_run. simpl.
  by destruct (if ok response then _ else _).
Qed.

Lemma cached_read_hit key path ttl0 t_lookup t_store net this e :
  cache this !! key = Some e → isValidCache t_lookup e = true →
  is_truthy (data e) = true →
  cached_read key path ttl0 t_lookup t_store net this
  = (Returned (data e), this).
Proof.
  intros Hk He Ht. rewrite cached_read_run.
  rewrite (getFromCache_hit _ _ _ _ Hk He). simpl. rewrite Ht.
  by destruct this.
Qed.

(** A call that finds no entry to serve issues its request. *)
Lemma cached_read_requests key path ttl0 t_lookup t_store net this :
  if_truthy (getFromCache t_lookup key (cache this)).1 = None →
  requests (cached_read key path ttl0 t_lookup t_store net this).2
  = requests this ++ [baseUrl this +:+ path].
Proof.
  intros Hmiss. rewrite cached_read_run. simpl. rewrite Hmiss.
  destruct net as [response|e]; [| done].
  by destruct (read_json response this).1.
Qed.

Lemma cached_read_caches key path ttl0 :
  caches_for key path ttl0 (cached_read key path ttl0).
Proof.
  intros t_lookup t_store net this. cbv zeta.
  assert (∀ k, k ≠ key →
               (getFromCache t_lookup key (cache this)).2 !! k
               = cache this !! k) as Hframe
    by (intros k Hne; by apply getFromCache_frame).
  split; [| split; [| split]].
  - intros k Hne. rewrite cached_read_run. simpl.
    destruct (if_truthy _); simpl; [by apply Hframe |].
    destruct net as [response|e]; simpl; [| by apply Hframe].
    destruct (read_json response this).1; simpl; [| by apply Hframe].
    rewrite lookup_setCache, decide_False by done. by apply Hframe.
  - rewrite cached_read_run. simpl.
    destruct (if_truthy _); simpl; [done |].
    destruct net as [response|e]; simpl; [| done].
    by destruct (read_json response this).1.
  - intros e (Hk & He & Ht).
    apply cached_read_hit; [done | by apply isValidCache_true | done].
  - intros Hmiss.
    assert (if_truthy (getFromCache t_lookup key (cache this)).1 = None)
      as Hnone.
    { unfold getFromCache. destruct (cache this !! key) as [e|] eqn:Hk;
        [| done].
      destruct (isValidCache t_lookup e) eqn:He; [| done]. simpl.
      destruct (is_truthy (data e)) eqn:Ht; [| done].
      destruct (Hmiss e). by rewrite isValidCache_true in He. }
    split; [by apply cached_read_requests |].
    rewrite cached_read_run. simpl. rewrite Hnone.
    assert (∀ e, (getFromCache t_lookup key (cache this)).2 !! key = Some e →
                 cache this !! key = Some e
                 ∧ t_lookup - timestamp e < ttl e
                 ∧ is_truthy (data e) = false) as Hleft.
    { intros e. unfold getFromCache.
      destruct (cache this !! key) as [e0|] eqn:Hk;
        [| simpl; by rewrite Hk].
      destruct (isValidCache t_lookup e0) eqn:He; simpl.
      - rewrite Hk. intros [= <-]. apply isValidCache_true in He.
        repeat split; try done.
        destruct (is_truthy (data e0)) eqn:Ht; [| done].
        by destruct (Hmiss e0).
      - by rewrite lookup_delete_eq. }
    assert (∀ e, cache this !! key = Some e →
                 ttl e ≤ t_lookup - timestamp e →
                 (getFromCache t_lookup key (cache this)).2 !! key = None)
      as Hevict.
    { intros e Hk He. apply isValidCache_false in He.
      rewrite (getFromCache_expired _ _ _ _ Hk He). apply lookup_delete_eq. }
    destruct net as [response|e]; simpl; [| done].
    destruct (read_json response this).1 as [result|e]; simpl; [| done].
    split; [by rewrite lookup_setCache, decide_True |].
    intros t t' net' Hlt.
    set (this' := mkClient _ _ _).
    assert (cache this' !! key = Some (mkEntry result t_store ttl0)) as Hk'
      by (simpl; by rewrite lookup_setCache, decide_True).
    assert (isValidCache t (mkEntry result t_store ttl0) = true) as He'
      by (by apply isValidCache_true).
    destruct (is_truthy result) eqn:Ht.
    + by apply (cached_read_hit _ _ _ _ _ _ _ (mkEntry result t_store ttl0)).
    + rewrite cached_read_requests; [done |].
      rewrite (getFromCache_hit _ _ _ _ Hk' He'). simpl. by rewrite Ht.
Qed.

End CachedReads.

(** [getProjectStatus(projectId)] caches a fetched status for 30 seconds
    under the key of the project, serves it from there while it is truthy
    and unexpired, and never caches an error. *)
Theorem getProjectStatus_caching {V} `{Payload V} (projectId : string) :
  caches_for (getCacheKey "getProjectStatus" [AStr projectId])
    ("/projects/" +:+ projectId +:+ "/status") (30 * 1000)
    (λ t_lookup t_store net,
       getProjectStatus t_lookup t_store projectId net).
Proof.
  apply (cached_read_caches _
           ("/projects/" +:+ projectId +:+ "/status") (30 * 1000)).
Qed.

(** [listProjects(limit, offset)] caches a fetched page for 2 minutes under
    the key of its limit and offset as [join] prints them, requests them as
    the template literal prints them, serves the page while it is truthy
    and unexpired, and never caches an error. *)
Theorem listProjects_caching {V} `{Payload V} (limit offset : JsNumber) :
  caches_for
    ("listProjects:" +:+ number_to_string limit +:+ ":"
       +:+ number_to_string offset)
    ("/projects/?limit=" +:+ number_to_string limit +:+ "&offset="
       +:+ number_to_string offset)
    (2 * 60 * 1000)
    (λ t_lookup t_store net, listProjects t_lookup t_store limit offset net).
Proof.
  apply (cached_read_caches
           (getCacheKey "listProjects" [ANum limit; ANum offset])
           ("/projects/?limit=" +:+ number_to_string limit +:+ "&offset="
              +:+ number_to_string offset) PROJECT_LIST_TTL).
Qed.

(** [getDatasetAnalysis(projectId)] caches a fetched analysis for 5 minutes,
    whatever its [status], serves it while it is truthy and unexpired, and
    never caches an error. *)
Theorem getDatasetAnalysis_caching {V} `{Payload V} (projectId : string) :
  caches_for (getCacheKey "getDatasetAnalysis" [AStr projectId])
    ("/projects/" +:+ projectId +:+ "/dataset-analysis") (5 * 60 * 1000)
    (λ t_lookup t_store net,
       getDatasetAnalysis t_lookup t_store projectId net).
Proof.
  apply (cached_read_caches _
           ("/projects/" +:+ projectId +:+ "/dataset-analysis") DEFAULT_TTL).
Qed.

(** [getTrainingConfigOptions()] caches the options for 30 minutes under
    the key ["getTrainingConfigOptions:"], serves them while they are truthy
    and unexpired, and never caches an error. *)
Theorem getTrainingConfigOptions_caching {V} `{Payload V} :
  caches_for "getTrainingConfigOptions:" "/projects/training-config-options"
    (30 * 60 * 1000)
    (λ t_lookup t_store net, getTrainingConfigOptions t_lookup t_store net).
Proof.
  apply (cached_read_caches _ "/projects/training-config-options"
           (30 * 60 * 1000)).
Qed.

(** A body that parses to [null] is stored and never served: after
    [getProjectStatus("p1")] fetched [null], the entry is in the store and is
    counted by [isCached], and the next call, one second later, issues a
    second request. *)
Example getProjectStatus_null_is_refetched :
  let null_reply : Outcome (Response (option Json)) :=
    Returned (mkResponse true 200 "OK" (Returned None) (Thrown "")) in
  let this := mkClient "https://api" (∅ : Cache (option Json)) [] in
  let first := getProjectStatus 0 5 "p1" null_reply this in
  let second := getProjectStatus 1000 1005 "p1" null_reply first.2 in
  first.1 = Returned None
  ∧ (isCached 1000 "getProjectStatus" [AStr "p1"] (cache first.2)).1 = true
  ∧ requests second.2
    = ["https://api/projects/p1/status"; "https://api/projects/p1/status"].
Proof. by vm_compute. Qed.

(** ** The client: mutations, uncached operations, errors *)

Lemma includes_prefix (a b : string) : JsString.includes (a +:+ b) a = true.
Proof. apply includes_spec. by exists "", b. Qed.

(** A successful [createProject] invalidates without an id: it removes the
    entries whose key contains ['listProjects'] or ['getProjectStatus'] and
    no other, so every cached page of [listProjects] and every cached project
    status is absent afterwards, whatever ttl was left. *)
Theorem createProject_invalidates_lists {V} `{Payload V}
    (net : Outcome (Response V)) (this : ApiClient V) :
  let r := createProject net this in
  match r.1 with
  | Returned _ =>
      (∀ k, cache r.2 !! k
            = if JsString.includes k "listProjects"
                 || JsString.includes k "getProjectStatus"
              then None else cache this !! k)
      ∧ (∀ now limit offset,
           (getFromCache now
              (getCacheKey "listProjects" [ANum limit; ANum offset])
              (cache r.2)).1 = None)
      ∧ (∀ now projectId,
           (getFromCache now (getCacheKey "getProjectStatus" [AStr projectId])
              (cache r.2)).1 = None)
  | Thrown _ => cache r.2 = cache this
  end.
Proof.
  simpl. unfold createProject. run_eff.
  destruct net as [response|e]; [| done].
  rewrite read_json_run.
  destruct (if ok response then _ else _); simpl; [| done].
  assert (∀ k, invalidateCache "getProjectStatus"
                 (invalidateCache "listProjects" (cache this)) !! k
               = if JsString.includes k "listProjects"
                    || JsString.includes k "getProjectStatus"
                 then None else cache this !! k) as Hlook.
  { intros k. rewrite !lookup_invalidateCache.
    by destruct (JsString.includes k "listProjects"),
         (JsString.includes k "getProjectStatus"). }
  split; [done |]. split.
  - intros now limit offset. rewrite getFromCache_absent; [done |].
    rewrite Hlook. unfold getCacheKey. by rewrite includes_prefix.
  - intros now projectId. rewrite getFromCache_absent; [done |].
    rewrite Hlook. unfold getCacheKey. rewrite (includes_prefix "getProjectStatus").
    by rewrite orb_true_r.
Qed.

(** A mutation that throws (the request fails, the response is not 2xx, or
    its body does not parse) leaves every cache entry in place. *)
Theorem failed_mutation_keeps_cache {V} `{Payload V} (projectId e : string)
    (net : Outcome (Response V)) (this this' : ApiClient V) :
  uploadDataset projectId net this = (Thrown e, this')
  ∨ startTraining projectId net this = (Thrown e, this')
  ∨ deleteProject projectId net this = (Thrown e, this') →
  cache this' = cache this
  ∧ length (requests this') = S (length (requests this)).
Proof.
  unfold uploadDataset, startTraining, deleteProject. run_eff.
  destruct net as [response|e'].
  - rewrite !read_json_run.
    destruct (if ok response then _ else _); simpl;
      intros [Heq|[Heq|Heq]]; try discriminate;
      injection Heq as _ <-; simpl; by rewrite length_app, Nat.add_1_r.
  - intros [Heq|[Heq|Heq]]; injection Heq as _ <-; simpl;
      by rewrite length_app, Nat.add_1_r.
Qed.

Lemma failed_mutation_keeps_cache_witness :
  let this := mkClient "https://api"
                (setCache 0 "getProjectStatus:p1"
                   (mkJson None None (Some "ready") "") 30000 ∅) [] in
  let this' := mkClient "https://api" (cache this)
                 ["https://api/projects/p1/upload-dataset/"] in
  cache this' = cache this
  ∧ length (requests this') = S (length (requests this)).
Proof.
  intros this this'.
  apply (failed_mutation_keeps_cache "p1" "Failed to fetch"
           network_failure this this').
  left. vm_compute. reflexivity.
Defined.

(** Invalidation by substring reaches other projects: when the id [a] of the
    mutated project occurs inside the id [b] of another one, a successful
    mutation of [a] also removes the cached status of [b]. *)
Theorem mutation_invalidates_containing_ids {V} `{Payload V} (a b : string)
    (net : Outcome (Response V)) (this this' : ApiClient V) (result : V) :
  a ≠ "" → JsString.substring_of a b →
  uploadDataset a net this = (Returned result, this')
  ∨ startTraining a net this = (Returned result, this')
  ∨ deleteProject a net this = (Returned result, this') →
  cache this' !! getCacheKey "getProjectStatus" [AStr b] = None.
Proof.
  intros Hne Hab Hrun.
  assert (cache this' = invalidateProjectCache (Some a) (cache this))
    as ->.
  { destruct Hrun as [Hrun|[Hrun|Hrun]];
      eauto using uploadDataset_success, startTraining_success,
        deleteProject_success. }
  apply truthy_spec in Hne. simpl. rewrite Hne.
  apply invalidateCache_removes_exactly.
  eapply substring_of_trans; [exact Hab | apply substring_of_own_key].
Qed.

Lemma mutation_invalidates_containing_ids_witness :
  let v := mkJson None None (Some "ready") "" in
  let this' :=
    mkClient "https://api" (∅ : Cache Json)
      ["https://api/projects/p1/delete"] in
  cache this' !! getCacheKey "getProjectStatus" [AStr "p10"] = None.
Proof.
  intros v this'.
  apply (mutation_invalidates_containing_ids "p1" "p10"
           (Returned (mkResponse true 200 "OK" (Returned v) (Thrown "")))
           (mkClient "https://api"
              (setCache 0 "getProjectStatus:p10" v 30000 ∅) [])
           this' v).
  - discriminate.
  - by exists "", "0".
  - right; right. vm_compute. reflexivity.
Defined.

(** [getTrainingStatus], [getTrainingLogs] and the two downloads are never
    cached: whatever the request returns, each call issues exactly one
    request and leaves the cache as it was. *)
Theorem uncached_operations {V} `{Payload V} (projectId trainingId : string)
    (lastN : JsNumber) (net : Outcome (Response V)) (this : ApiClient V) :
  let unchanged (this' : ApiClient V) :=
    cache this' = cache this
    ∧ length (requests this') = S (length (requests this)) in
  unchanged (getTrainingStatus projectId trainingId net this).2
  ∧ unchanged (getTrainingLogs projectId trainingId lastN net this).2
  ∧ unchanged (downloadModelWeights projectId trainingId net this).2
  ∧ unchanged (downloadProjectCode projectId trainingId net this).2.
Proof.
  simpl. unfold getTrainingStatus, getTrainingLogs, downloadModelWeights,
    downloadProjectCode. run_eff.
  destruct net as [response|e]; simpl;
    rewrite ?read_json_run, ?read_blob_run; simpl;
    repeat match goal with
           | |- context [match ?x with Returned _ => _ | Thrown _ => _ end] =>
               destruct x; simpl
           end;
    rewrite ?length_app, ?Nat.add_1_r; done.
Qed.

(** The message of the error a download throws on a non-2xx response.  When
    the body parses to a value other than [null]: its [detail] converted to a
    string when that is truthy, else ["HTTP error! status: N"].  When the
    body does not parse, and also when it parses to [null] (the read of
    [errorData.detail] throws inside the [try]): the status text of the
    response, and ["HTTP error! status: N"] when the status text is empty
    too.  So the list of validation errors of a 422 response gives the
    message ["[object Object]"], and a 500 response with the body [null]
    gives ["Internal Server Error"]. *)
Theorem download_error_message {V} `{Payload V} (projectId trainingId : string)
    (response : Response V) (this : ApiClient V) :
  ok response = false →
  let fallback := "HTTP error! status: " +:+ pretty (status response) in
  let status_text :=
    if JsString.truthy (statusText response) then statusText response
    else fallback in
  let message :=
    match json response with
    | Returned errorData =>
        if is_null errorData then status_text
        else match detail errorData with
             | Some message => message
             | None => fallback
             end
    | Thrown _ => status_text
    end in
  (downloadModelWeights projectId trainingId (Returned response) this).1
  = Thrown message
  ∧ (downloadProjectCode projectId trainingId (Returned response) this).1
    = Thrown message
  ∧ (downloadModelWeights "p1" "t1" validation_reply fresh_client).1
    = Thrown "[object Object]"
  ∧ (downloadModelWeights "p1" "t1" null_error_reply fresh_client).1
    = Thrown "Internal Server Error".
Proof.
  intros Hok. cbv zeta.
  rewrite downloadModelWeights_error, downloadProjectCode_error by done.
  split; [| split; [| by vm_compute]].
  - destruct (json response) as [errorData|]; [| done].
    destruct (is_null errorData); [done |]. by destruct (detail errorData).
  - destruct (json response) as [errorData|]; [| done].
    destruct (is_null errorData); [done |]. by destruct (detail errorData).
Qed.

Lemma download_error_message_witness :
  let response : Response Json :=
    mkResponse false 404 "Not Found"
      (Returned (mkJson (Some "Model weights not found") None None ""))
      (Thrown "") in
  let this := mkClient "https://api" (∅ : Cache Json) [] in
  (downloadModelWeights "p1" "t1" (Returned response) this).1
  = Thrown "Model weights not found"
  ∧ (downloadProjectCode "p1" "t1" (Returned response) this).1
    = Thrown "Model weights not found"
  ∧ (downloadModelWeights "p1" "t1" validation_reply fresh_client).1
    = Thrown "[object Object]"
  ∧ (downloadModelWeights "p1" "t1" null_error_reply fresh_client).1
    = Thrown "Internal Server Error".
Proof.
  intros response this.
  exact (download_error_message "p1" "t1" response this eq_refl).
Defined.

(** The message of the error a JSON operation throws on a non-2xx response
    whose body parses.  For a body other than [null]: its [detail] converted
    to a string when that is truthy, else ["HTTP error! status: N"] with the
    status code in decimal.  For the body [null] the read of
    [errorData.detail] throws, and the operation rethrows that [TypeError]:
    its message is neither a detail nor the status fallback.  A request that
    fails is rethrown with its own message.  So the list of validation
    errors of a 422 response gives the message ["[object Object]"]. *)
Theorem json_error_message {V} `{Payload V} (projectId trainingId : string)
    (lastN : JsNumber) (response : Response V) (errorData : V) (e : string)
    (this : ApiClient V) :
  ok response = false → json response = Returned errorData →
  let message :=
    if is_null errorData
    then "Cannot read properties of null (reading 'detail')"
    else match detail errorData with
         | Some message => message
         | None => "HTTP error! status: " +:+ pretty (status response)
         end in
  (createProject (Returned response) this).1 = Thrown message
  ∧ (uploadDataset projectId (Returned response) this).1 = Thrown message
  ∧ (startTraining projectId (Returned response) this).1 = Thrown message
  ∧ (deleteProject projectId (Returned response) this).1 = Thrown message
  ∧ (getTrainingStatus projectId trainingId (Returned response) this).1
    = Thrown message
  ∧ (getTrainingLogs projectId trainingId lastN (Returned response) this).1
    = Thrown message
  ∧ (createProject (Thrown e) this).1 = Thrown e
  ∧ (getTrainingStatus projectId trainingId (Thrown e) this).1 = Thrown e
  ∧ (createProject validation_reply fresh_client).1
    = Thrown "[object Object]"
  ∧ (createProject null_error_reply fresh_client).1
    = Thrown "Cannot read properties of null (reading 'detail')".
Proof.
  intros Hok Hjson. cbv zeta.
  assert ((createProject validation_reply fresh_client).1
          = Thrown "[object Object]") as Hinvalid by (by vm_compute).
  assert ((createProject null_error_reply fresh_client).1
          = Thrown "Cannot read properties of null (reading 'detail')")
    as Hnull by (by vm_compute).
  repeat split; try assumption;
    unfold createProject, uploadDataset, startTraining, deleteProject,
      getTrainingStatus, getTrainingLogs; run_eff; try done;
    rewrite !read_json_run, Hok, Hjson; simpl;
    (destruct (is_null errorData); [done |]); by destruct (detail errorData).
Qed.

Lemma json_error_message_witness :
  let response : Response Json :=
    mkResponse false 422 "Unprocessable Entity"
      (Returned (mkJson (Some "") None None "")) (Thrown "") in
  let this := mkClient "https://api" (∅ : Cache Json) [] in
  let message := "HTTP error! status: 422" in
  (createProject (Returned response) this).1 = Thrown message
  ∧ (uploadDataset "p1" (Returned response) this).1 = Thrown message
  ∧ (startTraining "p1" (Returned response) this).1 = Thrown message
  ∧ (deleteProject "p1" (Returned response) this).1 = Thrown message
  ∧ (getTrainingStatus "p1" "t1" (Returned response) this).1 = Thrown message
  ∧ (getTrainingLogs "p1" "t1" (Integer 500 I) (Returned response) this).1
    = Thrown message
  ∧ (createProject (Thrown "Failed to fetch") this).1
    = Thrown "Failed to fetch"
  ∧ (getTrainingStatus "p1" "t1" (Thrown "Failed to fetch") this).1
    = Thrown "Failed to fetch"
  ∧ (createProject validation_reply fresh_client).1
    = Thrown "[object Object]"
  ∧ (createProject null_error_reply fresh_client).1
    = Thrown "Cannot read properties of null (reading 'detail')".
Proof.
  intros response this message.
  exact (json_error_message "p1" "t1" (Integer 500 I) response
           (mkJson (Some "") None None "") "Failed to fetch" this
           eq_refl eq_refl).
Defined.

(** ** The training monitor: what holds along every sequence of events *)

Section MonitorInvariant.
Import Monitor.
Context {V : Type} `{Payload V}.
Implicit Types (p : Page V) (c : Closure) (l : Locals).

Lemma closure_of_run r p :
  closure_of r p
  = match runs p !! r with
    | Some (c, _) => (Returned c, p)
    | None => (Thrown "no such effect run", p)
    end.
Proof. unfold closure_of. run_eff. by destruct (runs p !! r) as [[? ?]|]. Qed.

Lemma setTimeout_run t r d p :
  ∃ p', setTimeout t r d p = (Returned tt, p')
        ∧ timers p' = timers p ++ [mkTimer d t r]
        ∧ runs p' = runs p ∧ api p' = api p.
Proof. unfold setTimeout. run_page. eauto. Qed.

Lemma scheduleStatusFetch_run r p :
  ∃ out p', scheduleStatusFetch r p = (out, p')
    ∧ runs p' = runs p ∧ api p' = api p
    ∧ match runs p !! r with
      | Some (c, l) =>
          if c_isMounted c && active c
          then timers p' = timers p ++ [mkTimer (statusPollInterval l) StatusTick r]
          else timers p' = timers p
      | None => timers p' = timers p
      end.
Proof.
  unfold scheduleStatusFetch. run_page.
  destruct (runs p !! r) as [[c l]|] eqn:Hr; simpl; [| eauto 10].
  destruct (c_isMounted c); simpl; [| eauto 10].
  destruct (active c); simpl; [| eauto 10].
  rewrite Hr. simpl. eauto 10.
Qed.

Lemma scheduleLogFetch_run r p :
  ∃ out p', scheduleLogFetch r p = (out, p')
    ∧ runs p' = runs p ∧ api p' = api p
    ∧ match runs p !! r with
      | Some (c, l) =>
          if c_isMounted c && active c
          then timers p' = timers p ++ [mkTimer (logPollInterval l) LogTick r]
          else timers p' = timers p
      | None => timers p' = timers p
      end.
Proof.
  unfold scheduleLogFetch. run_page.
  destruct (runs p !! r) as [[c l]|] eqn:Hr; simpl; [| eauto 10].
  destruct (c_isMounted c); simpl; [| eauto 10].
  destruct (active c); simpl; [| eauto 10].
  rewrite Hr. simpl. eauto 10.
Qed.


Lemma statusTick_summary r net p :
  ∃ out p', statusTick r net p = (out, p')
    ∧ runs p' = runs p
    ∧ match runs p !! r with
      | Some (c, l) =>
          if c_isMounted c && active c
          then timers p'
               = timers p ++ [mkTimer (statusPollInterval l) StatusTick r]
               ∧ length (requests (api p')) = S (length (requests (api p)))
          else timers p' = timers p
      | None => timers p' = timers p
      end.
Proof.
  unfold statusTick, scheduleStatusFetch, fetchTrainingStatus.
  destruct (runs p !! r) as [[c l]|] eqn:Hr; crunch Hr; [| eauto 10].
  destruct (c_isMounted c) eqn:Hm; crunch Hr; [| eauto 10].
  destruct (match net with Returned _ => _ | Thrown _ => _ end);
    crunch Hr; rewrite ?Hm; crunch Hr;
    destruct (active c) eqn:Ha; crunch Hr;
    eexists _, _; (split; [reflexivity |]); simpl;
    rewrite ?length_app, ?Nat.add_1_r; eauto 10.
Qed.

Lemma logTick_summary r net p :
  ∃ out p' scroll, logTick r net p = (out, p')
    ∧ Forall (λ x, task x = ScrollTick) scroll
    ∧ match runs p !! r with
      | Some (c, l) =>
          if c_isMounted c && active c
          then timers p'
               = timers p ++ scroll ++ [mkTimer (logPollInterval l) LogTick r]
               ∧ runs p'
                 = <[r := (c, mkLocals (logPollInterval l)
                                (statusPollInterval l) 0)]> (runs p)
               ∧ length (requests (api p')) = S (length (requests (api p)))
          else timers p' = timers p ++ scroll
               ∧ (runs p' = runs p
                  ∨ runs p'
                    = <[r := (c, mkLocals (logPollInterval l)
                                   (statusPollInterval l) 0)]> (runs p))
      | None => timers p' = timers p ∧ runs p' = runs p
      end.
Proof.
  unfold logTick, scheduleLogFetch, fetchTrainingLogs.
  destruct (runs p !! r) as [[c l]|] eqn:Hr; crunch Hr;
    [| exists (Thrown "no such effect run"), p, []; eauto 10].
  assert (r < length (runs p))%nat as Hlt by (by eapply lookup_lt_Some).
  destruct (c_isMounted c) eqn:Hm; crunch Hr;
    [| eexists _, _, []; rewrite app_nil_r; eauto 10].
  destruct (match net with Returned _ => _ | Thrown _ => _ end)
    as [logResponse|e];
    crunch Hr;
    [destruct (is_null logResponse) eqn:Hn; crunch Hr;
     [| destruct (c_isAutoScroll c) eqn:Hs; crunch Hr] |];
    rewrite ?list_lookup_insert_eq by done; crunch Hr; rewrite ?Hm;
    crunch Hr; destruct (active c) eqn:Ha; crunch Hr;
    rewrite ?list_lookup_insert_eq by done; crunch Hr.
  all: first
    [ solve [ eexists _, _, [mkTimer 100 ScrollTick r];
              (split; [reflexivity |]); (split; [by repeat constructor |]);
              simpl; rewrite <- ?app_assoc, ?length_app, ?Nat.add_1_r;
              eauto 10 ]
    | solve [ eexists _, _, [];
              (split; [reflexivity |]); (split; [by constructor |]);
              simpl; rewrite ?app_nil_r, ?length_app, ?Nat.add_1_r;
              eauto 10 ] ].
Qed.

#[local] Arguments active : simpl never.

Lemma pollingEffect_summary net_status net_logs p :
  let c := render p in
  let r := length (runs p) in
  ∃ p' scroll, pollingEffect net_status net_logs p = (Returned tt, p')
    ∧ Forall (λ x, task x = ScrollTick) scroll
    ∧ runs p' = runs p ++ [(c, initial_locals)]
    ∧ timers p'
      = timers p ++ scroll ++
          (if c_isMounted c && active c
           then [mkTimer 3000 LogTick r; mkTimer 8000 StatusTick r]
           else [])
    ∧ (length scroll ≤ 1)%nat
    ∧ requests (api p') = requests (api p) ++ [status_url p; logs_url p].
Proof.
  destruct p as [pid tid td lg ld er asc im att rs ts ap].
  assert (∀ c : Closure,
            (rs ++ [(c, initial_locals)]) !! length rs
            = Some (c, initial_locals))
    as Hr by (intros c; apply list_lookup_middle, eq_refl).
  unfold pollingEffect, scheduleLogFetch, scheduleStatusFetch,
    fetchTrainingStatus, fetchTrainingLogs, render.
  destruct td as [v|]; crunch Hr.
  all:
  destruct (match net_status with Returned _ => _ | Thrown _ => _ end);
    crunch Hr;
    (destruct (match net_logs with Returned _ => _ | Thrown _ => _ end)
       as [logResponse|e];
     crunch Hr;
     [destruct (is_null logResponse) eqn:Hn; crunch Hr;
      [| destruct asc; crunch Hr] |]);
    destruct im; crunch Hr;
    repeat match goal with
           | |- context [active ?c] => destruct (active c) eqn:?; crunch Hr
           end.
  all: first
    [ solve [ eexists _, [mkTimer 100 ScrollTick (length rs)];
              (split; [reflexivity |]); (split; [by repeat constructor |]);
              simpl; (split; [reflexivity |]);
              (split; [by rewrite <- ?app_assoc, ?app_nil_r |]);
              (split; [simpl; lia |]);
              unfold status_url, logs_url; simpl;
              by rewrite <- ?app_assoc ]
    | solve [ eexists _, [];
              (split; [reflexivity |]); (split; [by constructor |]);
              simpl; (split; [reflexivity |]);
              (split; [by rewrite <- ?app_assoc, ?app_nil_r |]);
              (split; [simpl; lia |]);
              unfold status_url, logs_url; simpl;
              by rewrite <- ?app_assoc ] ].
Qed.

Lemma steady_ext p p' :
  runs p' = runs p → timers p' = timers p → steady p → steady p'.
Proof.
  intros Hr Ht [Hruns Htimers]. unfold steady, polls. by rewrite Hr, Ht.
Qed.

Lemma polls_mono p p' r :
  (∀ r c l, runs p !! r = Some (c, l) → ∃ l', runs p' !! r = Some (c, l')) →
  polls p r → polls p' r.
Proof.
  intros Hruns (c & l & Hr & Hm & Ha).
  destruct (Hruns r c l Hr) as [l' Hr']. by exists c, l'.
Qed.

Lemma timers_mono p p' ts :
  (∀ r c l, runs p !! r = Some (c, l) → ∃ l', runs p' !! r = Some (c, l')) →
  Forall (λ x, match task x with
               | LogTick => delay x = 3000%Q ∧ polls p (run x)
               | StatusTick => delay x = 8000%Q ∧ polls p (run x)
               | ScrollTick => True
               end) ts →
  Forall (λ x, match task x with
               | LogTick => delay x = 3000%Q ∧ polls p' (run x)
               | StatusTick => delay x = 8000%Q ∧ polls p' (run x)
               | ScrollTick => True
               end) ts.
Proof.
  intros Hruns HF. eapply Forall_impl; [exact HF |]. intros x. simpl.
  destruct (task x); [| | done]; intros [? ?]; eauto using polls_mono.
Qed.

Lemma scroll_timers_steady p (scroll : list Timer) :
  Forall (λ x, task x = ScrollTick) scroll →
  Forall (λ x, match task x with
               | LogTick => delay x = 3000%Q ∧ polls p (run x)
               | StatusTick => delay x = 8000%Q ∧ polls p (run x)
               | ScrollTick => True
               end) scroll.
Proof.
  intros HF. eapply Forall_impl; [exact HF |]. simpl. by intros x ->.
Qed.

Lemma drop_timer_steady p i (P : Timer → Prop) :
  Forall P (timers p) → Forall P (drop_timer i (timers p)).
Proof.
  intros HP. unfold drop_timer. apply Forall_app.
  split; [by apply Forall_take | by apply Forall_drop].
Qed.

Lemma insert_locals_runs (rs : list (Closure * Locals)) r0 c0 l0 l' :
  rs !! r0 = Some (c0, l0) →
  ∀ r c l, rs !! r = Some (c, l) →
           ∃ l'', <[r0 := (c0, l')]> rs !! r = Some (c, l'').
Proof.
  intros Hr0 r c l Hr. destruct (decide (r = r0)) as [->|Hne].
  - exists l'. rewrite list_lookup_insert_eq by (by eapply lookup_lt_Some).
    congruence.
  - exists l. by rewrite list_lookup_insert_ne.
Qed.

Lemma fire_poll_timer i x net p :
  steady p → timers p !! i = Some x → task x ≠ ScrollTick →
  ∃ out p' scroll, step (Fire i net) p = (out, p')
    ∧ Forall (λ y, task y = ScrollTick) scroll
    ∧ timers p' = drop_timer i (timers p) ++ scroll ++ [x]
    ∧ (∀ r c l, runs p !! r = Some (c, l) →
                ∃ l', runs p' !! r = Some (c, l'))
    ∧ Forall (λ cl, logPollInterval cl.2 = 3000%Q
                    ∧ statusPollInterval cl.2 = 8000%Q) (runs p')
    ∧ length (requests (api p')) = S (length (requests (api p))).
Proof.
  intros [Hruns Htimers] Hi Hx.
  pose proof (Forall_lookup_1 _ _ _ _ Htimers Hi) as Hxi.
  destruct x as [d t r]. simpl in *.
  unfold step. run_page. rewrite Hi. simpl.
  destruct t; [| | done]; destruct Hxi as [-> (c & l & Hr & Hm & Ha)];
    destruct (Forall_lookup_1 _ _ _ _ Hruns Hr) as [Hlog Hstatus];
    simpl in Hlog, Hstatus.
  - match goal with
    | |- context [logTick r net ?q] =>
        destruct (logTick_summary r net q)
          as (out & p' & scroll & Hrun & Hscroll & Hmatch)
    end.
    simpl in Hmatch. rewrite Hr, Hm, Ha in Hmatch. simpl in Hmatch.
    destruct Hmatch as (Ht & Hrs & Hq).
    rewrite Hrun. exists out, p', scroll.
    split; [done |]. split; [done |].
    split; [by rewrite Ht, Hlog |].
    split; [rewrite Hrs; by eapply insert_locals_runs |].
    split; [| done].
    rewrite Hrs. apply Forall_insert; [done |]. by rewrite Hlog, Hstatus.
  - match goal with
    | |- context [statusTick r net ?q] =>
        destruct (statusTick_summary r net q)
          as (out & p' & Hrun & Hrs & Hmatch)
    end.
    simpl in Hmatch, Hrs. rewrite Hr, Hm, Ha in Hmatch. simpl in Hmatch.
    destruct Hmatch as (Ht & Hq).
    rewrite Hrun. exists out, p', [].
    split; [done |]. split; [by constructor |].
    split; [by rewrite Ht, Hstatus |].
    split; [rewrite Hrs; eauto |].
    split; [by rewrite Hrs | done].
Qed.

Lemma count_drop_timer (ts : list Timer) i x t :
  ts !! i = Some x →
  length (filter (λ y, task y = t) ts)
  = (length (filter (λ y, task y = t) (drop_timer i ts))
     + if decide (task x = t) then 1 else 0)%nat.
Proof.
  intros Hi. rewrite <- (take_drop_middle ts i x Hi) at 1.
  unfold drop_timer. rewrite !filter_app, !length_app.
  destruct (decide (task x = t)) as [Ht|Ht].
  - rewrite filter_cons_True by done. simpl. lia.
  - rewrite filter_cons_False by done. lia.
Qed.

Lemma count_scroll (scroll : list Timer) t :
  t ≠ ScrollTick → Forall (λ y, task y = ScrollTick) scroll →
  filter (λ y, task y = t) scroll = [].
Proof.
  intros Ht. induction 1 as [|y scroll Hy _ IH]; [done |].
  rewrite filter_cons_False by congruence. done.
Qed.

Lemma scroll_not_poll (scroll : list Timer) :
  Forall (λ y, task y = ScrollTick) scroll →
  filter (λ y, task y ≠ ScrollTick) scroll = []
  ∧ filter (λ y, task y = ScrollTick) scroll = scroll.
Proof.
  induction 1 as [|y scroll Hy _ [IH1 IH2]]; [done |].
  rewrite filter_cons_False by (intros Hne; by apply Hne).
  rewrite filter_cons_True by done. by rewrite IH2.
Qed.

Lemma step_render ns nl p :
  (runs (step (Render ns nl) p).2 = runs p
   ∧ timers (step (Render ns nl) p).2 = timers p)
  ∨ (∃ scroll,
       Forall (λ x, task x = ScrollTick) scroll
       ∧ runs (step (Render ns nl) p).2
         = runs p ++ [(render p, initial_locals)]
       ∧ timers (step (Render ns nl) p).2
         = timers p ++ scroll ++
             (if c_isMounted (render p) && active (render p)
              then [mkTimer 3000 LogTick (length (runs p));
                    mkTimer 8000 StatusTick (length (runs p))]
              else [])).
Proof.
  unfold step. run_eff.
  destruct (attached p && dependencies_changed p); [| by left].
  destruct (pollingEffect_summary ns nl p)
    as (p' & scroll & Hrun & Hscroll & Hrs & Hts & _ & _).
  rewrite Hrun. right. exists scroll. eauto.
Qed.

Lemma step_fire_other i net p :
  match timers p !! i with
  | Some x =>
      task x = ScrollTick →
      runs (step (Fire i net) p).2 = runs p
      ∧ timers (step (Fire i net) p).2 = drop_timer i (timers p)
  | None =>
      runs (step (Fire i net) p).2 = runs p
      ∧ timers (step (Fire i net) p).2 = timers p
  end.
Proof.
  unfold step. run_page. destruct (timers p !! i) as [x|]; [| done].
  by intros ->.
Qed.

Lemma step_user e p :
  e = ToggleAutoScroll ∨ e = Unmount →
  runs (step e p).2 = runs p ∧ timers (step e p).2 = timers p.
Proof. intros [-> | ->]; unfold step, setIsMounted, detach; by run_eff. Qed.

Lemma step_steady e p : steady p → steady (step e p).2.
Proof.
  intros Hp. destruct e as [ns nl|i net| |].
  - destruct (step_render ns nl p)
      as [[Hrs Hts]|(scroll & Hscroll & Hrs & Hts)];
      [by eapply steady_ext |].
    destruct Hp as [Hruns Htimers].
    assert (∀ r c l, runs p !! r = Some (c, l) →
                     ∃ l', runs (step (Render ns nl) p).2 !! r
                           = Some (c, l')) as Hmono.
    { intros r c l Hr. exists l. rewrite Hrs. by apply lookup_app_l_Some. }
    split.
    + rewrite Hrs. apply Forall_app. split; [done |]. by repeat constructor.
    + rewrite Hts. apply Forall_app. split; [by eapply timers_mono |].
      apply Forall_app. split; [by apply scroll_timers_steady |].
      destruct (c_isMounted (render p)) eqn:Hm; [| by constructor].
      destruct (active (render p)) eqn:Ha; [| by constructor].
      assert (polls (step (Render ns nl) p).2 (length (runs p))) as Hpolls.
      { exists (render p), initial_locals. rewrite Hrs.
        split; [by apply list_lookup_middle | done]. }
      by repeat constructor.
  - pose proof (step_fire_other i net p) as Hother.
    destruct (timers p !! i) as [x|] eqn:Hi;
      [| destruct Hother; by eapply steady_ext].
    destruct (decide (task x = ScrollTick)) as [Hx|Hx].
    + destruct (Hother Hx) as [Hrs Hts]. destruct Hp as [Hruns Htimers].
      split; [by rewrite Hrs |]. rewrite Hts.
      apply drop_timer_steady.
      eapply timers_mono; [| exact Htimers]. rewrite Hrs. eauto.
    + destruct (fire_poll_timer i x net p Hp Hi Hx)
        as (out & p' & scroll & Hrun & Hsc & Hts & Hmono & Hruns' & _).
      rewrite Hrun. simpl. destruct Hp as [Hruns Htimers].
      split; [done |]. rewrite Hts.
      pose proof (Forall_lookup_1 _ _ _ _ Htimers Hi) as Hxi.
      apply Forall_app. split.
      * apply drop_timer_steady. by eapply timers_mono.
      * apply Forall_app. split; [by apply scroll_timers_steady |].
        eapply timers_mono; [exact Hmono |]. by repeat constructor.
  - destruct (step_user ToggleAutoScroll p) as [Hrs Hts]; [by left |].
    by eapply steady_ext.
  - destruct (step_user Unmount p) as [Hrs Hts]; [by right |].
    by eapply steady_ext.
Qed.

Lemma step_pending e p t :
  steady p → t ≠ ScrollTick → (pending t p ≤ pending t (step e p).2)%nat.
Proof.
  intros Hp Ht. unfold pending. destruct e as [ns nl|i net| |].
  - destruct (step_render ns nl p)
      as [[Hrs Hts]|(scroll & Hscroll & Hrs & Hts)]; rewrite Hts; [done |].
    rewrite filter_app, length_app. lia.
  - pose proof (step_fire_other i net p) as Hother.
    destruct (timers p !! i) as [x|] eqn:Hi;
      [| destruct Hother as [_ Hts]; by rewrite Hts].
    rewrite (count_drop_timer (timers p) i x t Hi).
    destruct (decide (task x = ScrollTick)) as [Hx|Hx].
    + destruct (Hother Hx) as [_ Hts]. rewrite Hts.
      rewrite decide_False by congruence. lia.
    + destruct (fire_poll_timer i x net p Hp Hi Hx)
        as (out & p' & scroll & Hrun & Hsc & Hts & _).
      rewrite Hrun. simpl. rewrite Hts.
      rewrite !filter_app, !length_app, (count_scroll scroll t Ht Hsc).
      destruct (decide (task x = t)).
      * rewrite filter_cons_True by done. simpl. lia.
      * lia.
  - destruct (step_user ToggleAutoScroll p) as [_ Hts]; [by left |].
    by rewrite Hts.
  - destruct (step_user Unmount p) as [_ Hts]; [by right |].
    by rewrite Hts.
Qed.

Lemma steps_snoc es e p : steps (es ++ [e]) p = (step e (steps es p)).2.
Proof. revert p. induction es as [|e' es IH]; intros p; [done |]. apply IH. Qed.

Lemma mount_steady base pid tid : steady (mount base pid tid : Page V).
Proof. split; constructor. Qed.

Lemma steps_steady es p : steady p → steady (steps es p).
Proof.
  revert p. induction es as [|e es IH]; intros p Hp; [done |].
  simpl. by apply IH, step_steady.
Qed.
End MonitorInvariant.

(** The backoff assignments are never executed: after any sequence of
    renders, timer expiries, auto-scroll toggles and unmounts, with any
    outcomes of the requests, every run of the effect still has
    [logPollInterval = 3000] and [statusPollInterval = 8000], every pending
    log timer has a delay of 3000 ms and every pending status timer one of
    8000 ms, and each belongs to a run whose closure saw a mounted page with
    status ['running'] or ['queued']. *)
Theorem poll_delays_never_grow {V} `{Payload V} (es : list Monitor.Event)
    (base pid tid : string) :
  Monitor.steady (Monitor.steps es (Monitor.mount base pid tid)).
Proof. apply steps_steady, mount_steady. Qed.

(** In every state the page can reach, the expiry of a pending log or status
    timer issues exactly one request and schedules the same timer again (same
    task, same run, same delay), whatever the request returns (a terminal
    status, a failure) and whether or not the page has been unmounted. *)
Theorem poll_timer_rearms {V} `{Payload V} (es : list Monitor.Event)
    (base pid tid : string) (i : nat) (x : Monitor.Timer)
    (net : Outcome (Response V)) :
  let p := Monitor.steps es (Monitor.mount base pid tid) in
  Monitor.timers p !! i = Some x → Monitor.task x ≠ Monitor.ScrollTick →
  ∃ scroll,
    Forall (λ y, Monitor.task y = Monitor.ScrollTick) scroll
    ∧ Monitor.timers (Monitor.step (Monitor.Fire i net) p).2
      = Monitor.drop_timer i (Monitor.timers p) ++ scroll ++ [x]
    ∧ length (requests (Monitor.api (Monitor.step (Monitor.Fire i net) p).2))
      = S (length (requests (Monitor.api p))).
Proof.
  intros p Hi Hx.
  assert (Monitor.steady p) as Hp by apply steps_steady, mount_steady.
  destruct (fire_poll_timer i x net p Hp Hi Hx)
    as (out & p' & scroll & Hrun & Hsc & Hts & _ & _ & Hq).
  rewrite Hrun. exists scroll. eauto.
Qed.

(** The status timer of the monitor of training ["t1"] fires after the
    server has answered ['completed']. *)
Lemma poll_timer_rearms_witness :
  ∃ scroll,
    Forall (λ y, Monitor.task y = Monitor.ScrollTick) scroll
    ∧ Monitor.timers
        (Monitor.step (Monitor.Fire 3 (status_reply "completed"))
           polling_page).2
      = Monitor.drop_timer 3 (Monitor.timers polling_page) ++ scroll
          ++ [Monitor.mkTimer 8000 Monitor.StatusTick 1]
    ∧ length (requests
                (Monitor.api
                   (Monitor.step (Monitor.Fire 3 (status_reply "completed"))
                      polling_page).2))
      = S (length (requests (Monitor.api polling_page))).
Proof.
  apply (poll_timer_rearms
           [Monitor.Render (status_reply "running") logs_reply;
            Monitor.Render (status_reply "running") logs_reply]
           "https://api" "p1" "t1" 3
           (Monitor.mkTimer 8000 Monitor.StatusTick 1)
           (status_reply "completed")).
  - vm_compute. reflexivity.
  - discriminate.
Defined.

(** No event stops a poll: along every sequence of events the number of
    pending log timers and the number of pending status timers never
    decrease, the unmount of the page and a terminal status included. *)
Theorem pending_polls_never_decrease {V} `{Payload V}
    (es : list Monitor.Event) (e : Monitor.Event) (base pid tid : string) :
  let p := Monitor.steps es (Monitor.mount base pid tid) in
  let p' := Monitor.steps (es ++ [e]) (Monitor.mount base pid tid) in
  (Monitor.pending Monitor.LogTick p ≤ Monitor.pending Monitor.LogTick p')%nat
  ∧ (Monitor.pending Monitor.StatusTick p
     ≤ Monitor.pending Monitor.StatusTick p')%nat.
Proof.
  simpl. rewrite steps_snoc.
  split; apply step_pending; try done; apply steps_steady, mount_steady.
Qed.

(** One run of the polling effect issues exactly two requests, first the one
    for the status and then the one for the logs of the training, and records
    the render it closed over.  It schedules one log timer (3000 ms) and one
    status timer (8000 ms), in this order, exactly when that render has
    [isMounted] and a status of ['running'] or ['queued']; otherwise it
    schedules neither.  Apart from these it adds at most one auto-scroll
    timer and removes no timer. *)
Theorem pollingEffect_schedules {V} `{Payload V}
    (net_status net_logs : Outcome (Response V)) (p : Monitor.Page V) :
  let c := Monitor.render p in
  let r := length (Monitor.runs p) in
  let p' := (Monitor.pollingEffect net_status net_logs p).2 in
  let polls := Monitor.c_isMounted c && Monitor.active c in
  Monitor.runs p' = Monitor.runs p ++ [(c, Monitor.initial_locals)]
  ∧ Monitor.poll_timers p'
    = Monitor.poll_timers p
        ++ (if polls
            then [Monitor.mkTimer 3000 Monitor.LogTick r;
                  Monitor.mkTimer 8000 Monitor.StatusTick r]
            else [])
  ∧ Monitor.pending Monitor.LogTick p'
    = (Monitor.pending Monitor.LogTick p + if polls then 1 else 0)%nat
  ∧ Monitor.pending Monitor.StatusTick p'
    = (Monitor.pending Monitor.StatusTick p + if polls then 1 else 0)%nat
  ∧ (Monitor.pending Monitor.ScrollTick p
     ≤ Monitor.pending Monitor.ScrollTick p'
     ≤ S (Monitor.pending Monitor.ScrollTick p))%nat
  ∧ requests (Monitor.api p')
    = requests (Monitor.api p)
        ++ [baseUrl (Monitor.api p) +:+ "/projects/" +:+ Monitor.projectId p
              +:+ "/train/" +:+ Monitor.trainingId p +:+ "/status";
            baseUrl (Monitor.api p) +:+ "/projects/" +:+ Monitor.projectId p
              +:+ "/train/" +:+ Monitor.trainingId p +:+ "/logs?last_n=500"].
Proof.
  cbv zeta.
  destruct (pollingEffect_summary net_status net_logs p)
    as (p' & scroll & Hrun & Hscroll & Hrs & Hts & Hlen & Hq).
  rewrite Hrun. cbn [snd]. split; [done |].
  unfold Monitor.pending, Monitor.poll_timers.
  rewrite Hts, !filter_app, !length_app.
  rewrite !(count_scroll scroll) by done.
  destruct (scroll_not_poll scroll Hscroll) as [Hnone Hall].
  rewrite Hnone, Hall.
  split; [| split; [| split; [| split; [| done]]]];
    destruct (Monitor.c_isMounted (Monitor.render p)
              && Monitor.active (Monitor.render p));
    repeat first [ rewrite filter_cons_True by done
                 | rewrite filter_cons_False by (by intros []) ];
    rewrite ?filter_nil; simpl; rewrite ?app_nil_r; try done; lia.
Qed.

(** ** The results page: polling of the AI summary *)

Ltac run_results :=
  unfold Results.pollAI, Results.fire, Results.startAIPolling,
    Results.setTimeout_pollAI, Results.set_timers, Results.setSummaryData,
    Results.setIsLoading, Results.setError, Results.setIsPollingAI,
    Results.showToast, Results.call_api;
  run_eff.

(** [isCached('getTrainingSummary', projectId, trainingId)] tells whether a
    [getTrainingSummary] call at the same instant issues a request.  When it
    is false the call issues exactly one request, to the summary URL.  When
    it is true there is an unexpired entry under the key, and the call
    returns its value and leaves the client as it was, the value being
    truthy, as every summary the client stores is. *)
Theorem isCached_predicts_summary_request {V} `{Payload V}
    (now t_store : Z) (pid tid : string) (net : Outcome (Response V))
    (this : ApiClient V) :
  let r := getTrainingSummary now t_store pid tid net this in
  if (isCached now "getTrainingSummary" [AStr pid; AStr tid] (cache this)).1
  then ∃ e, cache this !! summary_key pid tid = Some e
            ∧ now - timestamp e < ttl e
            ∧ (is_truthy (data e) = true → r = (Returned (data e), this))
  else requests r.2 = requests this ++ [summary_url this pid tid].
Proof.
  simpl. rewrite isCached_iff_lookup_hits. fold (summary_key pid tid).
  destruct (getFromCache now (summary_key pid tid) (cache this)).1
    as [v|] eqn:Hget.
  - rewrite bool_decide_eq_true_2 by eauto.
    apply getFromCache_Some in Hget as (e & Hk & He & ->).
    rewrite (getTrainingSummary_hit _ _ _ _ _ _ _ Hk He).
    exists e. by rewrite <- isValidCache_true.
  - rewrite bool_decide_eq_false_2 by (by intros [? ?]).
    rewrite (getTrainingSummary_miss _ _ _ _ _ _ _
               (getFromCache_None_delete _ _ _ Hget)).
    destruct net as [response|e]; [| done].
    destruct (read_json response this).1 as [result|e]; [| done].
    by destruct (is_null result).
Qed.

Lemma pollAI_run {V} `{Payload V} (normalize : V → V)
    (t_lookup t_store : Z) (net : Outcome (Response V))
    (p : Results.Page V) :
  let r := getTrainingSummary t_lookup t_store (Results.projectId p)
             (Results.trainingId p) net (Results.api p) in
  let p' := (Results.pollAI normalize t_lookup t_store net p).2 in
  let stopped :=
    Results.timers p' = Results.timers p
    ∧ Results.isPollingAI p' = false
    ∧ Results.summaryData p' = Results.summaryData p
    ∧ Results.toasts p' = Results.toasts p in
  Results.api p' = r.2
  ∧ match r.1 with
    | Returned summary =>
        if is_null summary then stopped
        else
          Results.summaryData p' = Some (normalize summary)
          ∧ (if bool_decide (ai_summary_status summary = Some "generating")
             then Results.timers p' = Results.timers p ++ [3000%Q]
                  ∧ Results.isPollingAI p' = Results.isPollingAI p
                  ∧ Results.toasts p' = Results.toasts p
             else Results.timers p' = Results.timers p
                  ∧ if bool_decide
                         (ai_summary_status summary = Some "completed")
                       || bool_decide
                            (ai_summary_status summary = Some "failed")
                    then Results.isPollingAI p' = false
                         ∧ length (Results.toasts p')
                           = S (length (Results.toasts p))
                    else Results.isPollingAI p' = Results.isPollingAI p
                         ∧ Results.toasts p' = Results.toasts p)
    | Thrown _ => stopped
    end.
Proof.
  cbv zeta. run_results. unfold property. run_eff.
  destruct (getTrainingSummary t_lookup t_store (Results.projectId p)
              (Results.trainingId p) net (Results.api p))
    as [[summary|e] client]; simpl; [| done].
  destruct (is_null summary); simpl; [done |].
  repeat case_bool_decide; simpl; rewrite ?length_app, ?Nat.add_1_r;
    try done; congruence.
Qed.

(** What one run of [pollAI] does with what [getTrainingSummary] returns.
    A summary that is not [null] is shown (normalized); with status
    ['generating'] exactly one further poll is scheduled, 3000 ms later; with
    ['completed'] or ['failed'] no poll is scheduled, [isPollingAI] is
    cleared and one toast is shown; with any other status no poll is
    scheduled and [isPollingAI] is left as it was.  When the call throws, or
    returns [null] (the read of [summary.summary] throws), the poller stops:
    no poll is scheduled, [isPollingAI] is cleared, and the summary shown
    stays. *)
Theorem pollAI_schedule {V} `{Payload V} (normalize : V → V)
    (t_lookup t_store : Z) (net : Outcome (Response V))
    (p : Results.Page V) :
  let r := getTrainingSummary t_lookup t_store (Results.projectId p)
             (Results.trainingId p) net (Results.api p) in
  let p' := (Results.pollAI normalize t_lookup t_store net p).2 in
  let stopped :=
    Results.timers p' = Results.timers p
    ∧ Results.isPollingAI p' = false
    ∧ Results.summaryData p' = Results.summaryData p
    ∧ Results.toasts p' = Results.toasts p in
  Results.api p' = r.2
  ∧ match r.1 with
    | Returned summary =>
        if is_null summary then stopped
        else
          Results.summaryData p' = Some (normalize summary)
          ∧ (if bool_decide (ai_summary_status summary = Some "generating")
             then Results.timers p' = Results.timers p ++ [3000%Q]
                  ∧ Results.isPollingAI p' = Results.isPollingAI p
                  ∧ Results.toasts p' = Results.toasts p
             else Results.timers p' = Results.timers p
                  ∧ if bool_decide
                         (ai_summary_status summary = Some "completed")
                       || bool_decide
                            (ai_summary_status summary = Some "failed")
                    then Results.isPollingAI p' = false
                         ∧ length (Results.toasts p')
                           = S (length (Results.toasts p))
                    else Results.isPollingAI p' = Results.isPollingAI p
                         ∧ Results.toasts p' = Results.toasts p)
    | Thrown _ => stopped
    end.
Proof. apply pollAI_run. Qed.

(** While a ['generating'] summary is in the cache, a poll issues no
    request: [getTrainingSummary] stores such a summary for 10 seconds, so a
    [pollAI] that runs less than 10 seconds after the store shows the stored
    summary again, leaves the client untouched and schedules the next poll,
    whatever the server would answer by then. *)
Theorem pollAI_served_from_cache {V} `{Payload V} (normalize : V → V)
    (t_lookup t_store t_stored : Z) (net : Outcome (Response V))
    (p : Results.Page V) (summary : V) :
  cache (Results.api p)
    !! summary_key (Results.projectId p) (Results.trainingId p)
  = Some (mkEntry summary t_stored (10 * 1000)) →
  ai_summary_status summary = Some "generating" →
  t_lookup - t_stored < 10 * 1000 →
  let p' := (Results.pollAI normalize t_lookup t_store net p).2 in
  Results.api p' = Results.api p
  ∧ Results.summaryData p' = Some (normalize summary)
  ∧ Results.timers p' = Results.timers p ++ [3000%Q].
Proof.
  intros Hk Hst Hlt. cbv zeta.
  pose proof (summary_not_null _ _ Hst) as Hnull.
  pose proof (pollAI_run normalize t_lookup t_store net p) as Hrun.
  cbv zeta in Hrun.
  rewrite (getTrainingSummary_hit _ _ _ _ _ _
             (mkEntry summary t_stored (10 * 1000)) Hk) in Hrun
    by (by apply isValidCache_true).
  simpl in Hrun. rewrite Hnull, bool_decide_eq_true_2 in Hrun by done.
  destruct Hrun as (Hapi & Hdata & Hts & _). done.
Qed.

(** A poll 3 seconds after a ['generating'] summary was stored, while the
    network is down. *)
Lemma pollAI_served_from_cache_witness :
  let summary := mkJson None (Some "generating") None "draft" in
  let p :=
    Results.mkPage "p1" "t1" (Some summary) false "" true [] []
      (mkClient "https://api"
         (setCache 0 (summary_key "p1" "t1") summary (10 * 1000) ∅)
         ["https://api/projects/p1/train/t1/summary"]) in
  let p' := (Results.pollAI id 3000 3001 network_failure p).2 in
  Results.api p' = Results.api p
  ∧ Results.summaryData p' = Some (id summary)
  ∧ Results.timers p' = Results.timers p ++ [3000%Q].
Proof.
  intros summary p.
  apply (pollAI_served_from_cache id 3000 3001 0 network_failure p summary).
  - vm_compute. reflexivity.
  - reflexivity.
  - lia.
Defined.

(** ** The data processing page *)

Ltac run_dataset :=
  unfold Dataset.pollStatus, Dataset.handleUploadDataset,
    Dataset.startStatusPolling, Dataset.setTimeout_pollStatus,
    Dataset.set_timers, Dataset.setIsUploading, Dataset.setDatasetUploaded,
    Dataset.setIsProcessing, Dataset.setDatasetAnalysis, Dataset.setError,
    Dataset.showToast, Dataset.call_api;
  run_eff.

Lemma dataset_pollStatus_run {V} `{Payload V} (t_lookup t_store : Z)
    (net : Outcome (Response V)) (p : Dataset.Page V) :
  let r := getDatasetAnalysis t_lookup t_store (Dataset.projectId p) net
             (Dataset.api p) in
  let p' := (Dataset.pollStatus t_lookup t_store net p).2 in
  Dataset.api p' = r.2
  ∧ match r.1 with
    | Returned analysis =>
        Dataset.datasetAnalysis p' = Some analysis
        ∧ if is_null analysis
          then Dataset.timers p' = Dataset.timers p ++ [5000%Q]
               ∧ Dataset.isProcessing p' = Dataset.isProcessing p
          else if bool_decide (job_status analysis = Some "generating")
          then Dataset.timers p' = Dataset.timers p ++ [3000%Q]
               ∧ Dataset.isProcessing p' = Dataset.isProcessing p
          else Dataset.timers p' = Dataset.timers p
               ∧ if bool_decide (job_status analysis = Some "ready")
                 then Dataset.isProcessing p' = false
                      ∧ length (Dataset.toasts p')
                        = S (length (Dataset.toasts p))
                      ∧ Dataset.error p' = Dataset.error p
                 else if bool_decide (job_status analysis = Some "error")
                 then Dataset.isProcessing p' = false
                      ∧ Dataset.error p' = "Dataset processing failed"
                 else Dataset.isProcessing p' = Dataset.isProcessing p
                      ∧ Dataset.error p' = Dataset.error p
    | Thrown _ =>
        Dataset.timers p' = Dataset.timers p ++ [5000%Q]
        ∧ Dataset.datasetAnalysis p' = Dataset.datasetAnalysis p
        ∧ Dataset.isProcessing p' = Dataset.isProcessing p
    end.
Proof.
  cbv zeta. run_dataset. unfold property. run_eff.
  destruct (getDatasetAnalysis t_lookup t_store (Dataset.projectId p) net
              (Dataset.api p))
    as [[analysis|e] client]; simpl; [| done].
  destruct (is_null analysis); simpl; [done |].
  repeat case_bool_decide; simpl; rewrite ?length_app, ?Nat.add_1_r;
    try done; congruence.
Qed.

(** What one run of the dataset page's [pollStatus] does with what
    [getDatasetAnalysis] returns.  An analysis that arrives is shown; with
    status ['generating'] one further poll is scheduled 3000 ms later; with
    ['ready'] or ['error'] none is and [isProcessing] is cleared (with a
    toast, or with the error text ['Dataset processing failed']); with any
    other status none is and [isProcessing] stays as it was.  When the call
    throws, and also when the analysis is [null] (the read of
    [analysis.status] throws), one retry is scheduled after a fixed 5000 ms,
    every time: the delay does not grow. *)
Theorem dataset_poll_schedule {V} `{Payload V} (t_lookup t_store : Z)
    (net : Outcome (Response V)) (p : Dataset.Page V) :
  let r := getDatasetAnalysis t_lookup t_store (Dataset.projectId p) net
             (Dataset.api p) in
  let p' := (Dataset.pollStatus t_lookup t_store net p).2 in
  Dataset.api p' = r.2
  ∧ match r.1 with
    | Returned analysis =>
        Dataset.datasetAnalysis p' = Some analysis
        ∧ if is_null analysis
          then Dataset.timers p' = Dataset.timers p ++ [5000%Q]
               ∧ Dataset.isProcessing p' = Dataset.isProcessing p
          else if bool_decide (job_status analysis = Some "generating")
          then Dataset.timers p' = Dataset.timers p ++ [3000%Q]
               ∧ Dataset.isProcessing p' = Dataset.isProcessing p
          else Dataset.timers p' = Dataset.timers p
               ∧ if bool_decide (job_status analysis = Some "ready")
                 then Dataset.isProcessing p' = false
                      ∧ length (Dataset.toasts p')
                        = S (length (Dataset.toasts p))
                      ∧ Dataset.error p' = Dataset.error p
                 else if bool_decide (job_status analysis = Some "error")
                 then Dataset.isProcessing p' = false
                      ∧ Dataset.error p' = "Dataset processing failed"
                 else Dataset.isProcessing p' = Dataset.isProcessing p
                      ∧ Dataset.error p' = Dataset.error p
    | Thrown _ =>
        Dataset.timers p' = Dataset.timers p ++ [5000%Q]
        ∧ Dataset.datasetAnalysis p' = Dataset.datasetAnalysis p
        ∧ Dataset.isProcessing p' = Dataset.isProcessing p
    end.
Proof. apply dataset_pollStatus_run. Qed.

(** [getDatasetAnalysis] stores whatever analysis it fetched for 5 minutes,
    a ['generating'] one included.  So once such an analysis is in the
    cache, every [pollStatus] that runs less than 5 minutes after the store
    issues no request, shows the stored analysis again and schedules the next
    poll: the poller cannot see the analysis become ['ready'] before the
    entry expires. *)
Theorem dataset_poll_reads_stale_analysis {V} `{Payload V}
    (t_lookup t_store t_stored : Z) (net : Outcome (Response V))
    (p : Dataset.Page V) (analysis : V) :
  cache (Dataset.api p)
    !! getCacheKey "getDatasetAnalysis" [AStr (Dataset.projectId p)]
  = Some (mkEntry analysis t_stored (5 * 60 * 1000)) →
  job_status analysis = Some "generating" →
  t_lookup - t_stored < 5 * 60 * 1000 →
  let p' := (Dataset.pollStatus t_lookup t_store net p).2 in
  Dataset.api p' = Dataset.api p
  ∧ Dataset.datasetAnalysis p' = Some analysis
  ∧ Dataset.timers p' = Dataset.timers p ++ [3000%Q]
  ∧ Dataset.isProcessing p' = Dataset.isProcessing p.
Proof.
  intros Hk Hst Hlt. cbv zeta.
  pose proof (job_not_null _ _ Hst) as Hnull.
  pose proof (job_is_object _ _ Hst) as Htruthy.
  pose proof (dataset_pollStatus_run t_lookup t_store net p) as Hrun.
  cbv zeta in Hrun.
  assert (getDatasetAnalysis t_lookup t_store (Dataset.projectId p) net
            (Dataset.api p)
          = (Returned analysis, Dataset.api p)) as Hhit.
  { apply (cached_read_hit _
             ("/projects/" +:+ Dataset.projectId p +:+ "/dataset-analysis")
             DEFAULT_TTL _ _ _ _
             (mkEntry analysis t_stored (5 * 60 * 1000)) Hk);
      [by apply isValidCache_true | done]. }
  rewrite Hhit in Hrun. simpl in Hrun.
  rewrite Hnull, bool_decide_eq_true_2 in Hrun by done.
  destruct Hrun as (Hapi & Hdata & Hts & Hproc). done.
Qed.

(** A poll four minutes after a ['generating'] analysis was stored, while
    the server would answer ['ready']. *)
Lemma dataset_poll_reads_stale_analysis_witness :
  let analysis := mkJson None None (Some "generating") "analysis" in
  let p :=
    Dataset.mkPage "p1" true false true true (Some analysis) "" [] []
      (mkClient "https://api"
         (setCache 0 (getCacheKey "getDatasetAnalysis" [AStr "p1"]) analysis
            (5 * 60 * 1000) ∅)
         ["https://api/projects/p1/dataset-analysis"]) in
  let p' := (Dataset.pollStatus 240000 240001 (status_reply "ready") p).2 in
  Dataset.api p' = Dataset.api p
  ∧ Dataset.datasetAnalysis p' = Some analysis
  ∧ Dataset.timers p' = Dataset.timers p ++ [3000%Q]
  ∧ Dataset.isProcessing p' = Dataset.isProcessing p.
Proof.
  intros analysis p.
  apply (dataset_poll_reads_stale_analysis 240000 240001 0
           (status_reply "ready") p analysis).
  - vm_compute. reflexivity.
  - reflexivity.
  - lia.
Defined.

(** [handleUploadDataset]: without a selected file it does nothing at all.
    With one, it issues the upload and ends with [isUploading] false; after a
    successful upload a first poll is scheduled 2000 ms later, a toast is
    shown, and (for a non-empty project id) the cached analysis of the
    project is gone, so that first poll fetches; after a failed upload the
    error message is shown and no poll is scheduled.  Nothing prevents a
    second successful upload from scheduling a second poll. *)
Theorem handleUploadDataset_run {V} `{Payload V}
    (net : Outcome (Response V)) (p : Dataset.Page V) :
  let r := uploadDataset (Dataset.projectId p) net (Dataset.api p) in
  let p' := (Dataset.handleUploadDataset net p).2 in
  if Dataset.selectedFile p then
    Dataset.isUploading p' = false
    ∧ Dataset.api p' = r.2
    ∧ match r.1 with
      | Returned _ =>
          Dataset.timers p' = Dataset.timers p ++ [2000%Q]
          ∧ Dataset.isProcessing p' = true
          ∧ Dataset.datasetUploaded p' = true
          ∧ Dataset.error p' = ""
          ∧ length (Dataset.toasts p') = S (length (Dataset.toasts p))
          ∧ (Dataset.projectId p ≠ "" →
             cache (Dataset.api p')
               !! getCacheKey "getDatasetAnalysis"
                    [AStr (Dataset.projectId p)]
             = None)
      | Thrown e =>
          Dataset.timers p' = Dataset.timers p
          ∧ Dataset.error p' = e
          ∧ Dataset.isProcessing p' = Dataset.isProcessing p
          ∧ Dataset.toasts p' = Dataset.toasts p
      end
  else p' = p.
Proof.
  cbv zeta. run_dataset.
  destruct (Dataset.selectedFile p) eqn:Hfile; simpl; [| done].
  destruct (uploadDataset (Dataset.projectId p) net (Dataset.api p))
    as [[result|e] client] eqn:Hup; simpl; [| done].
  rewrite length_app, Nat.add_1_r.
  repeat split; try done.
  intros Hne. rewrite (uploadDataset_success _ _ _ _ _ Hup).
  apply truthy_spec in Hne. simpl. rewrite Hne.
  apply invalidateCache_removes_exactly, substring_of_own_key.
Qed.

(** ** The training setup page *)

Ltac run_setup :=
  unfold Setup.handleStartTraining, Setup.pollTrainingLogs, Setup.fire,
    Setup.setTimeout, Setup.clearTimeout, Setup.set_timers,
    Setup.set_next_handle, Setup.set_ref, Setup.setIsPolling, Setup.setLogs,
    Setup.setError, Setup.setTrainingId, Setup.setTrainingStarted,
    Setup.setIsTraining, Setup.call_api, property;
  run_eff.

(** What one run of [pollTrainingLogs] of render [c] does.  It clears the
    timer [pollingTimeoutRef] holds and issues one request for the last 100
    log lines.  It schedules the next poll, 3000 ms later, exactly when the
    response is not [null], its status is ['queued'] or ['running'], and the
    [isPolling] that render [c] closed over is true; in every other case
    (a terminal status, an error, or a render that was not polling) it
    schedules nothing, leaves the ref empty and sets [isPolling] to false. *)
Theorem pollTrainingLogs_run {V} `{Payload V} (c : Setup.Closure) (t : string)
    (net : Outcome (Response V)) (p : Setup.Page V) :
  let r := getTrainingLogs (Setup.projectId p) t (Integer 100 I) net
             (Setup.api p) in
  let p' := (Setup.pollTrainingLogs c t net p).2 in
  let continues :=
    match r.1 with
    | Returned logsResponse =>
        negb (is_null logsResponse)
        && (bool_decide (job_status logsResponse = Some "queued")
            || bool_decide (job_status logsResponse = Some "running"))
        && Setup.c_isPolling c
    | Thrown _ => false
    end in
  Setup.api p' = r.2
  ∧ if continues
    then Setup.timers p'
         = Setup.after_clear p ++ [Setup.mkTimer (Setup.next_handle p) 3000 c t]
         ∧ Setup.pollingTimeoutRef p' = Some (Setup.next_handle p)
         ∧ Setup.isPolling p' = Setup.isPolling p
    else Setup.timers p' = Setup.after_clear p
         ∧ Setup.pollingTimeoutRef p' = None
         ∧ Setup.isPolling p' = false.
Proof.
  cbv zeta. unfold Setup.after_clear. run_setup.
  destruct (Setup.pollingTimeoutRef p) as [h|] eqn:Href; run_setup;
    (destruct (getTrainingLogs (Setup.projectId p) t (Integer 100 I) net
                 (Setup.api p)) as [[logsResponse|e] client]; simpl;
     [| done]);
    (destruct (is_null logsResponse); simpl; [done |]);
    destruct (bool_decide (job_status logsResponse = Some "queued")
              || bool_decide (job_status logsResponse = Some "running"));
    simpl; try done; destruct (Setup.c_isPolling c); simpl; done.
Qed.

(** What [handleStartTraining] of render [c] does.  Without an uploaded
    dataset, or with a project status other than ['ready'], it issues no
    request and only sets the error text; when a training is being started
    or was started it does nothing at all.  Otherwise it issues the start
    request and ends with [isTraining] false: after a failure, or a
    response that is [null], the error message is shown and nothing else
    changes, so the start can be tried again; after a success the training
    counts as started, and, when render [c] was not polling, one log poll is
    scheduled 2000 ms later, which will run the [pollTrainingLogs] of that
    same render. *)
Theorem handleStartTraining_run {V} `{Payload V} (training_id : V → string)
    (c : Setup.Closure) (net : Outcome (Response V)) (p : Setup.Page V) :
  let r := startTraining (Setup.projectId p) net (Setup.api p) in
  let p' := (Setup.handleStartTraining training_id c net p).2 in
  let unchanged :=
    Setup.timers p' = Setup.timers p
    ∧ Setup.pollingTimeoutRef p' = Setup.pollingTimeoutRef p
    ∧ Setup.isPolling p' = Setup.isPolling p
    ∧ Setup.trainingStarted p' = Setup.trainingStarted p in
  if negb (Setup.c_datasetUploaded c) then
    Setup.api p' = Setup.api p ∧ unchanged
    ∧ Setup.error p' = "Please upload a dataset first"
  else if negb (String.eqb (Setup.c_projectStatus c) "ready") then
    Setup.api p' = Setup.api p ∧ unchanged
    ∧ Setup.error p'
      = "Cannot start training. Project status: " +:+ Setup.c_projectStatus c
          +:+ ". Please wait for project to be ready."
  else if Setup.c_isTraining c || Setup.c_trainingStarted c then p' = p
  else
    Setup.api p' = r.2 ∧ Setup.isTraining p' = false
    ∧ match r.1 with
      | Returned response =>
          if is_null response then
            unchanged
            ∧ Setup.error p'
              = "Cannot read properties of null (reading 'training_id')"
          else
            Setup.trainingStarted p' = true
            ∧ Setup.trainingId p' = training_id response
            ∧ Setup.error p' = ""
            ∧ if Setup.c_isPolling c then
                Setup.timers p' = Setup.timers p
                ∧ Setup.pollingTimeoutRef p' = Setup.pollingTimeoutRef p
                ∧ Setup.isPolling p' = Setup.isPolling p
              else
                Setup.timers p'
                = Setup.timers p
                    ++ [Setup.mkTimer (Setup.next_handle p) 2000 c
                          (training_id response)]
                ∧ Setup.pollingTimeoutRef p' = Some (Setup.next_handle p)
                ∧ Setup.isPolling p' = true
      | Thrown e => unchanged ∧ Setup.error p' = e
      end.
Proof.
  cbv zeta. run_setup.
  destruct (Setup.c_datasetUploaded c); simpl; [| done].
  destruct (String.eqb (Setup.c_projectStatus c) "ready"); simpl; [| done].
  destruct (Setup.c_isTraining c || Setup.c_trainingStarted c); simpl;
    [done |].
  destruct (startTraining (Setup.projectId p) net (Setup.api p))
    as [[response|e] client]; simpl; [| done].
  destruct (is_null response); simpl; [done |].
  destruct (Setup.c_isPolling c); simpl; done.
Qed.

(** The log poll that [handleStartTraining] schedules runs once.  On a page
    that is ready to start (dataset uploaded, project ['ready'], nothing
    started, not polling, no timer pending), the handler of the current
    render starts the training and schedules [pollTrainingLogs] after 2000
    ms.  When that timer expires, one request for the last 100 log lines is
    issued, and whatever it returns, ['running'] included, no further poll is
    scheduled and [isPolling] is false: the callback reads the [isPolling]
    of the render that scheduled it, which is false. *)
Theorem setup_log_poll_runs_once {V} `{Payload V} (training_id : V → string)
    (start logs : Outcome (Response V)) (response : V) (client : ApiClient V)
    (p : Setup.Page V) :
  Setup.datasetUploaded p = true → Setup.projectStatus p = "ready" →
  Setup.isTraining p = false → Setup.trainingStarted p = false →
  Setup.isPolling p = false → Setup.timers p = [] →
  startTraining (Setup.projectId p) start (Setup.api p)
  = (Returned response, client) →
  is_null response = false →
  let started :=
    (Setup.handleStartTraining training_id (Setup.render p) start p).2 in
  let polled := (Setup.fire (Setup.next_handle p) logs started).2 in
  Setup.timers started
  = [Setup.mkTimer (Setup.next_handle p) 2000 (Setup.render p)
       (training_id response)]
  ∧ Setup.isPolling started = true
  ∧ Setup.timers polled = []
  ∧ Setup.isPolling polled = false
  ∧ Setup.pollingTimeoutRef polled = None
  ∧ requests (Setup.api polled)
    = requests client
        ++ [baseUrl client +:+ "/projects/" +:+ Setup.projectId p
              +:+ "/train/" +:+ training_id response +:+ "/logs?last_n=100"].
Proof.
  intros Hup Hst Htr Hts Hpoll Htimers Hstart Hnull. cbv zeta.
  destruct p as [pid du ps it tst tid er lg ip ref nh ts ap].
  simpl in *. subst. unfold Setup.render. simpl.
  run_setup. rewrite Hstart. simpl. rewrite Hnull. simpl.
  rewrite !filter_cons_True by done. rewrite ?filter_nil. simpl.
  run_setup.
  repeat (rewrite filter_cons_False by (simpl; by intros []);
          rewrite ?filter_nil; simpl).
  rewrite getTrainingLogs_run. simpl.
  destruct (match logs with Returned _ => _ | Thrown _ => _ end)
    as [logsResponse|e]; simpl; [| done].
  destruct (is_null logsResponse); simpl; [done |].
  rewrite andb_false_r. done.
Qed.

(** The page of project ["p1"], ready to start; the server names the new
    training ["t1"] and then reports it ['running']. *)
Lemma setup_log_poll_runs_once_witness :
  let response := mkJson None None (Some "queued") "t1" in
  let start :=
    Returned (mkResponse true 200 "OK" (Returned response) (Thrown "")) in
  let client := mkClient "https://api" (∅ : Cache Json)
                  ["https://api/projects/p1/train/"] in
  let p :=
    Setup.mkPage "p1" true "ready" false false "" "" None false None 1 []
      (mkClient "https://api" (∅ : Cache Json) []) in
  let started := (Setup.handleStartTraining j_rest (Setup.render p) start p).2 in
  let polled := (Setup.fire 1 (status_reply "running") started).2 in
  Setup.timers started
  = [Setup.mkTimer 1 2000 (Setup.render p) "t1"]
  ∧ Setup.isPolling started = true
  ∧ Setup.timers polled = []
  ∧ Setup.isPolling polled = false
  ∧ Setup.pollingTimeoutRef polled = None
  ∧ requests (Setup.api polled)
    = requests client
        ++ [baseUrl client +:+ "/projects/" +:+ "p1"
              +:+ "/train/" +:+ "t1" +:+ "/logs?last_n=100"].
Proof.
  intros response start client p.
  exact (setup_log_poll_runs_once j_rest start (status_reply "running")
           response client p eq_refl eq_refl eq_refl eq_refl eq_refl eq_refl
           eq_refl eq_refl).
Defined.
